(** * Gusto MCP server: credential gate, request gateway, pagination, formatting

    A shallow embedding of the parts of the server that decide its request
    pipeline:

    - [src/index.ts], first part:  the Worker [fetch] handler (credential
                                   gate);
    - [src/index.ts], second part: the API client [GustoClientImpl]
                                   ([getAuthHeaders], [request],
                                   [listEmployees], [createEmployee],
                                   [updateEmployee], [getHolidayPayPolicy],
                                   [testConnection], [deleteContractor],
                                   [addEmployeesToTimeOffPolicy]);
    - the pagination utilities:    [normalizePaginationParams],
                                   [createPaginatedResponse], ...;
    - [src/utils/formatters.ts]:   [formatResponse], [formatError] and the
                                   Markdown renderers;
    - [src/tools/index.ts]:        the tool handlers built on top of them.

    Conventions.  JavaScript values are the first-order fragment below.  A
    JavaScript [number] is an integer-valued double, written as the integer
    ([Z]) it holds: sums and products are rounded as doubles are
    ([Js.round_double]) and [String(n)] is the shortest numeral that reads
    back as the same double ([Js.show_number]), so the model agrees with
    exact arithmetic and plain decimal numerals up to 2^53.  A string is a
    sequence of code units below 256, which is what a header value is and
    what the texts of this program are.  The runtime ([fetch], [JSON.parse],
    the MCP framework) is a parameter of the development, never an
    assumption about what it answers. *)

From Stdlib Require Import ZArith List String Ascii Bool Lia.
From Stdlib Require Import DecimalString DecimalPos.
Import ListNotations.

Set Warnings "-register-all".

Local Open Scope list_scope.
Local Open Scope string_scope.

(** [++] joins strings throughout; lists are joined with [+++]. *)
Infix "+++" := List.app (right associativity, at level 60).

(* ====================================================================== *)
(** * JavaScript values and the primitives the program relies on *)
(* ====================================================================== *)

Module Js.

(** The values that flow through the program: what [JSON.parse] returns,
    plus [undefined]. Object fields are kept in insertion order, which is
    the order [JSON.stringify] and [Object.keys] follow for the
    (non-numeric) keys this program uses. *)
Inductive value : Type :=
| Undefined
| Null
| Bool (b : bool)
| Num (n : Z)
| Str (s : string)
| Arr (items : list value)
| Obj (fields : list (string * value)).

(** [!!v] *)
Definition truthy (v : value) : bool :=
  match v with
  | Undefined | Null => false
  | Bool b => b
  | Num n => negb (n =? 0)%Z
  | Str s => negb (s =? "")
  | Arr _ | Obj _ => true
  end.

(** [a || b] *)
Definition or_else (a b : value) : value := if truthy a then a else b.

(** [v === undefined || v === null] *)
Definition nullish (v : value) : bool :=
  match v with
  | Undefined | Null => true
  | _ => false
  end.

(** [a ?? b] *)
Definition coalesce (a b : value) : value := if nullish a then b else a.

(** ** Numbers *)

(** [Number.MAX_SAFE_INTEGER] *)
Definition MAX_SAFE_INTEGER : Z := 2 ^ 53 - 1.

(** [Number.isSafeInteger(n)] for an integer [n]. *)
Definition safe_integer (n : Z) : Prop :=
  (- MAX_SAFE_INTEGER <= n <= MAX_SAFE_INTEGER)%Z.

(** The double nearest to the integer [n], ties going to the even
    significand: what an arithmetic operation whose exact result is [n]
    returns. Below 2^53 every integer is a double. A result beyond the
    largest double is left as the integer it rounds to; it compares with
    every double as [Infinity] does. *)
Definition round_double (n : Z) : Z :=
  let a := Z.abs n in
  if (a <? 2 ^ 53)%Z then n
  else
    let e := (Z.log2 a - 52)%Z in
    let q := (a / 2 ^ e)%Z in
    let r := (a mod 2 ^ e)%Z in
    let half := (2 ^ (e - 1))%Z in
    let q' := if (r <? half)%Z then q
              else if (half <? r)%Z then (q + 1)%Z
              else if Z.even q then q else (q + 1)%Z in
    (Z.sgn n * (q' * 2 ^ e))%Z.

(** [a + b] and [a * b] on numbers. *)
Definition add (a b : Z) : Z := round_double (a + b).

Definition mul (a b : Z) : Z := round_double (a * b).

(** The decimal numeral of an integer. *)
Definition decimal (n : Z) : string := NilZero.string_of_int (Z.to_int n).

(** The number of digits of a natural number. *)
Definition digit_count (a : Z) : Z := Z.of_nat (String.length (decimal a)).

(** The integer with the fewest significant digits that rounds to the
    double [a], the nearest to [a] when there are several and the one with
    the even last digit when two are as near: the digits [String] prints.
    [p] is the power of ten that stands for the last digit kept. *)
Fixpoint shortest_from (fuel : nat) (p a : Z) : Z :=
  match fuel with
  | O => a
  | S fuel' =>
      let lo := (a / p * p)%Z in
      let hi := (lo + p)%Z in
      let lo_reads_back := ((0 <? lo) && (round_double lo =? a))%Z in
      let hi_reads_back := (round_double hi =? a)%Z in
      if lo_reads_back && hi_reads_back then
        if (a - lo <? hi - a)%Z then lo
        else if (hi - a <? a - lo)%Z then hi
        else if Z.even (lo / p) then lo else hi
      else if lo_reads_back then lo
      else if hi_reads_back then hi
      else shortest_from fuel' (p / 10)%Z a
  end.

Definition shortest (a : Z) : Z :=
  shortest_from (String.length (decimal a)) (10 ^ (digit_count a - 1))%Z a.

Fixpoint drop_zeros (s : string) : string :=
  match s with
  | String c rest => if (c =? "0")%char then drop_zeros rest else s
  | EmptyString => EmptyString
  end.

Definition reverse (s : string) : string :=
  string_of_list_ascii (rev (list_ascii_of_string s)).

(** [d.ddd e+N]: the form [String] gives a number of more than 21 digits. *)
Definition exponent_form (v : Z) : string :=
  match reverse (drop_zeros (reverse (decimal v))) with
  | String c EmptyString => String c ("e+" ++ decimal (digit_count v - 1))
  | String c rest => String c ("." ++ rest ++ "e+" ++ decimal (digit_count v - 1))
  | EmptyString => EmptyString
  end.

(** [String(n)] for a number above 2^53. *)
Definition large_text (a : Z) : string :=
  let v := shortest a in
  if (digit_count v <=? 21)%Z then decimal v else exponent_form v.

(** [String(n)]: the decimal numeral up to 2^53; beyond, the shortest
    digits that read back as the same double, padded with zeros up to 21
    digits and in exponent form from there. *)
Definition show_number (n : Z) : string :=
  if (Z.abs n <=? 2 ^ 53)%Z then decimal n
  else if (n <? 0)%Z then "-" ++ large_text (Z.abs (round_double n))
  else large_text (round_double n).

(** ** Properties and conversion to text *)

Fixpoint assoc (k : string) (fields : list (string * value)) : option value :=
  match fields with
  | [] => None
  | (k', v) :: rest => if k' =? k then Some v else assoc k rest
  end.

(** A key made of decimal digits: the only keys that can be an index. *)
Definition digits_only (k : string) : bool :=
  negb (k =? EmptyString)
  && forallb (fun c => ((48 <=? nat_of_ascii c) && (nat_of_ascii c <=? 57))%nat)
       (list_ascii_of_string k).

(** The element at index key [k] of a list whose first index is [i]. *)
Fixpoint at_index {A : Type} (k : string) (i : Z) (xs : list A) : option A :=
  match xs with
  | [] => None
  | x :: rest => if decimal i =? k then Some x else at_index k (i + 1)%Z rest
  end.

(** [v.k] (or [v[k]]) on a value that is neither [null] nor [undefined]:
    the own properties of the value, which for an array and a string are
    its indices and [length]. A property that is not there reads as
    [undefined]; the members a value inherits from its prototype
    ([constructor], [toString], the array methods) are not part of the
    model, and no property the program names is one of them. *)
Definition prop (k : string) (v : value) : value :=
  match v with
  | Obj fields => match assoc k fields with Some x => x | None => Undefined end
  | Arr items =>
      if k =? "length" then Num (Z.of_nat (List.length items))
      else if digits_only k
           then match at_index k 0 items with Some x => x | None => Undefined end
           else Undefined
  | Str s =>
      if k =? "length" then Num (Z.of_nat (String.length s))
      else if digits_only k
           then match at_index k 0 (list_ascii_of_string s) with
                | Some c => Str (String c "")
                | None => Undefined
                end
           else Undefined
  | _ => Undefined
  end.

(** [String(v)] for a value that is not an object. *)
Definition primitive_text (v : value) : string :=
  match v with
  | Undefined => "undefined"
  | Null => "null"
  | Bool true => "true"
  | Bool false => "false"
  | Num n => show_number n
  | Str s => s
  | Arr _ | Obj _ => EmptyString
  end.

(** [k in fields] for the own keys of an object. *)
Definition has_key (k : string) (fields : list (string * value)) : bool :=
  match assoc k fields with
  | Some _ => true
  | None => false
  end.

(** [String(v)], which is also what a template literal [`${v}`] inserts;
    [None] when the conversion throws a [TypeError]. An object is converted
    by its [toString]: a parsed object that has a key of that name holds a
    value there that cannot be called, and the conversion throws; any
    other object gives [[object Object]]. An array joins the texts of its
    elements. *)
Fixpoint to_string (v : value) : option string :=
  match v with
  | Arr items =>
      option_map (String.concat ",")
        ((fix each (xs : list value) : option (list string) :=
            match xs with
            | [] => Some []
            | x :: rest =>
                match (if nullish x then Some EmptyString else to_string x),
                      each rest with
                | Some t, Some ts => Some (t :: ts)
                | _, _ => None
                end
            end) items)
  | Obj fields =>
      if has_key "toString" fields then None else Some "[object Object]"
  | _ => Some (primitive_text v)
  end.

(** [v[0]] on a value that is neither [null] nor [undefined]. *)
Definition first (v : value) : value :=
  match v with
  | Arr (x :: _) => x
  | Str (String c _) => Str (String c "")
  | Obj _ => prop "0" v
  | _ => Undefined
  end.

(** [v.k], which throws a [TypeError] ([None]) on [null] and [undefined]. *)
Definition member (k : string) (v : value) : option value :=
  if nullish v then None else Some (prop k v).

(** [v?.k] *)
Definition opt_member (k : string) (v : value) : value :=
  if nullish v then Undefined else prop k v.

(** [v?.[0]] *)
Definition opt_first (v : value) : value :=
  if nullish v then Undefined else first v.

(** The index keys [0], [1], ... of [n] elements, from index [i]. *)
Fixpoint index_keys (n : nat) (i : Z) : list string :=
  match n with
  | O => []
  | S n' => decimal i :: index_keys n' (i + 1)%Z
  end.

(** [Object.keys(v)] for a value that is neither [null] nor [undefined]:
    the keys of an object, the indices of an array or a string, nothing for
    a number or a boolean. *)
Definition keys (v : value) : list string :=
  match v with
  | Obj fields => map fst fields
  | Arr items => index_keys (List.length items) 0
  | Str s => index_keys (String.length s) 0
  | _ => []
  end.

(** ** [JSON.stringify] *)

(** The double-quote character, as a one-character string. *)
Definition dquote : string := String (ascii_of_nat 34) EmptyString.

Definition hex_digit (n : nat) : ascii :=
  nth n (list_ascii_of_string "0123456789abcdef") "0"%char.

(** One character inside a JSON string literal (QuoteJSONString). *)
Definition escape_char (c : ascii) : string :=
  let n := nat_of_ascii c in
  if (n =? 34)%nat then "\" ++ dquote
  else if (n =? 92)%nat then "\\"
  else if (n =? 8)%nat then "\b"
  else if (n =? 9)%nat then "\t"
  else if (n =? 10)%nat then "\n"
  else if (n =? 12)%nat then "\f"
  else if (n =? 13)%nat then "\r"
  else if (n <? 32)%nat then
    "\u00" ++ String (hex_digit (n / 16)) (String (hex_digit (n mod 16)) "")
  else String c "".

Fixpoint escape (s : string) : string :=
  match s with
  | EmptyString => ""
  | String c rest => escape_char c ++ escape rest
  end.

Definition quote (s : string) : string := dquote ++ escape s ++ dquote.

(** The line feed, as a one-character string. *)
Definition nl : string := String (ascii_of_nat 10) EmptyString.

(** An array or object whose serialized parts are [parts], written at
    indentation [indent] with indentation unit [gap] (SerializeJSONObject
    and SerializeJSONArray). *)
Definition wrap (lb rb gap indent : string) (parts : list string) : string :=
  match parts with
  | [] => lb ++ rb
  | _ :: _ =>
      if gap =? EmptyString then lb ++ String.concat "," parts ++ rb
      else
        let inner := indent ++ gap in
        lb ++ nl ++ inner ++ String.concat ("," ++ nl ++ inner) parts
           ++ nl ++ indent ++ rb
  end.

(** SerializeJSONProperty: [None] is the [undefined] that [JSON.stringify]
    returns for [undefined]; an [undefined] object field is skipped, an
    [undefined] array element is written as [null]. *)
Fixpoint stringify_at (gap indent : string) (v : value) : option string :=
  match v with
  | Undefined => None
  | Null => Some "null"
  | Bool true => Some "true"
  | Bool false => Some "false"
  | Num n => Some (show_number n)
  | Str s => Some (quote s)
  | Arr items =>
      Some (wrap "[" "]" gap indent
              (map (fun x =>
                      match stringify_at gap (indent ++ gap) x with
                      | Some t => t
                      | None => "null"
                      end) items))
  | Obj fields =>
      Some (wrap "{" "}" gap indent
              (flat_map (fun kv =>
                           match kv with
                           | (k, x) =>
                               match stringify_at gap (indent ++ gap) x with
                               | Some t =>
                                   [quote k
                                    ++ (if gap =? EmptyString then ":" else ": ")
                                    ++ t]
                               | None => []
                               end
                           end) fields))
  end.

(** [JSON.stringify(v)] *)
Definition stringify (v : value) : option string :=
  stringify_at EmptyString EmptyString v.

(** [JSON.stringify(v, null, 2)] *)
Definition stringify_pretty (v : value) : option string :=
  stringify_at "  " EmptyString v.

(** The fields of an object literal that reach the serialized text. *)
Definition defined (v : value) : bool :=
  match v with
  | Undefined => false
  | _ => true
  end.

Definition written (fields : list (string * value)) : list (string * value) :=
  filter (fun kv => defined (snd kv)) fields.

End Js.

(* ====================================================================== *)
(** * Failures and the error taxonomy *)
(* ====================================================================== *)

(** The result of [parseInt]: the integer read, up to 2^53 in size, where
    the double is the integer itself ([Int 0] for both zeros, which no
    operation of the program tells apart); [NaN]; or, for an integer [n]
    beyond 2^53, a double near [n] ([Rounded n]): the nearest one, or for a
    numeral of more than 20 digits an approximation that the standard
    leaves to the engine. *)
Inductive jsnum : Type :=
| Int (n : Z)
| NaN
| Rounded (n : Z).

(** What the program throws. [RateLimitError], [AuthenticationError] and
    [CrmApiError] are the [throw new ...] sites of the client, with the
    arguments each site passes; [MissingCredentialsError] is the failure of
    the credential check; [RuntimeError] stands for the errors of the
    runtime itself (a [TypeError], a [SyntaxError] from [JSON.parse], a
    rejected [fetch]), whose message text belongs to the engine. *)
Inductive error : Type :=
| RateLimitError (message : string) (retryAfter : jsnum)
| AuthenticationError (message : string)
| CrmApiError (message : Js.value) (statusCode : Z)
| MissingCredentialsError (message : string)
| RuntimeError (message : string).

Inductive ErrorKind : Type :=
| Authentication
| RateLimit
| ApiError
| MissingCredentials
| Unknown.

Module ClassifiedError.

(** Modelled from the spec: the error classes of [src/utils/errors.ts] are
    missing from the source tree. Their fields follow the
    ClassifiedError entity of the data model and the Gateway contract:
    status 429 gives kind RateLimit, retryable, carrying the retry-after
    seconds; 401 and 403 give kind Authentication, not retryable; any other
    failure status gives kind ApiError, not retryable, carrying the status
    code; non-HTTP failures are Unknown. *)
Definition kind (e : error) : ErrorKind :=
  match e with
  | RateLimitError _ _ => RateLimit
  | AuthenticationError _ => Authentication
  | CrmApiError _ _ => ApiError
  | MissingCredentialsError _ => MissingCredentials
  | RuntimeError _ => Unknown
  end.

(** Modelled from the spec: see [kind]. *)
Definition retryable (e : error) : bool :=
  match e with
  | RateLimitError _ _ => true
  | _ => false
  end.

(** Modelled from the spec: see [kind]. *)
Definition statusCode (e : error) : option Z :=
  match e with
  | CrmApiError _ code => Some code
  | _ => None
  end.

(** Modelled from the spec: see [kind]. *)
Definition retryAfterSeconds (e : error) : option jsnum :=
  match e with
  | RateLimitError _ seconds => Some seconds
  | _ => None
  end.

(** Modelled from the spec: the message of an error is the text handed to
    its constructor; the [Error] constructor converts a non-string
    argument with [String], and the description of an object stands for
    one that [String] cannot convert. *)
Definition message (e : error) : string :=
  match e with
  | RateLimitError m _ => m
  | AuthenticationError m => m
  | CrmApiError m _ =>
      match Js.to_string m with
      | Some text => text
      | None => "[object Object]"
      end
  | MissingCredentialsError m => m
  | RuntimeError m => m
  end.

(** Modelled from the spec: [e instanceof CrmApiError]. The three kinds the
    Gateway raises from an HTTP status are the classified errors that carry
    a [retryable] flag. *)
Definition isCrmApiError (e : error) : bool :=
  match e with
  | RateLimitError _ _ | AuthenticationError _ | CrmApiError _ _ => true
  | _ => false
  end.

End ClassifiedError.

(** The outcome of a computation that may throw. *)
Inductive result (A : Type) : Type :=
| Ok (a : A)
| Throw (e : error).

Arguments Ok {A} a.
Arguments Throw {A} e.

(** The engine's [TypeError]; its message text is the engine's. *)
Definition TypeError : error := RuntimeError "TypeError".

(** The engine's [SyntaxError], raised by [JSON.parse]. *)
Definition SyntaxError : error := RuntimeError "SyntaxError".

(** [String(v)] and [`${v}`] as computations that may throw. *)
Definition string_of (v : Js.value) : result string :=
  match Js.to_string v with
  | Some text => Ok text
  | None => Throw TypeError
  end.

(** Sequencing of computations that may throw. *)
Definition and_then {A B : Type} (r : result A) (k : A -> result B)
  : result B :=
  match r with
  | Ok a => k a
  | Throw e => Throw e
  end.

Notation "'let!' x ':=' r 'in' k" := (and_then r (fun x => k))
  (at level 10, x name, r at level 100, k at level 200).

(* ====================================================================== *)
(** * HTTP and the effect of calling upstream *)
(* ====================================================================== *)

Definition Headers : Type := list (string * string).

Definition lower_char (c : ascii) : ascii :=
  let n := nat_of_ascii c in
  if ((65 <=? n) && (n <=? 90))%nat then ascii_of_nat (n + 32) else c.

Fixpoint lower (s : string) : string :=
  match s with
  | EmptyString => EmptyString
  | String c rest => String (lower_char c) (lower rest)
  end.

(** [headers.get(name)]: header names compare without regard to case;
    [None] is the [null] of an absent header. *)
Fixpoint headers_get (name : string) (headers : Headers) : option string :=
  match headers with
  | [] => None
  | (k, v) :: rest =>
      if lower k =? lower name then Some v else headers_get name rest
  end.

(** An outbound call as [fetch] receives it. *)
Record HttpRequest : Type := {
  url : string;
  method : option string;
  requestHeaders : Headers;
  body : option string
}.

Record HttpResponse : Type := {
  status : Z;
  responseHeaders : Headers;
  text : string
}.

(** [fetch] either resolves with a response or rejects. *)
Inductive FetchOutcome : Type :=
| Responded (response : HttpResponse)
| Rejected (reason : string).

(** [response.ok] *)
Definition ok (response : HttpResponse) : bool :=
  ((200 <=? status response) && (status response <=? 299))%Z.

(** A computation that may call upstream: it extends the log of outbound
    calls made so far and returns or throws. *)
Definition Io (A : Type) : Type :=
  list HttpRequest -> list HttpRequest * result A.

Definition ret {A : Type} (a : A) : Io A := fun log => (log, Ok a).

Definition throw {A : Type} (e : error) : Io A := fun log => (log, Throw e).

Definition bind {A B : Type} (m : Io A) (k : A -> Io B) : Io B :=
  fun log =>
    match m log with
    | (log', Ok a) => k a log'
    | (log', Throw e) => (log', Throw e)
    end.

(** [try { m } catch (error) { handler }] *)
Definition try_catch {A : Type} (m : Io A) (handler : error -> Io A) : Io A :=
  fun log =>
    match m log with
    | (log', Ok a) => (log', Ok a)
    | (log', Throw e) => handler e log'
    end.

(** A pure computation that may throw, run inside [Io]. *)
Definition lift {A : Type} (r : result A) : Io A := fun log => (log, r).

Notation "x <- m ;; k" := (bind m (fun x => k))
  (at level 61, m at next level, right associativity).

(* ====================================================================== *)
(** * [parseInt(s, 10)] *)
(* ====================================================================== *)

(** White space and line terminators among the code units below 256: tab,
    line feed, vertical tab, form feed, carriage return, space and the
    no-break space. *)
Definition is_space (c : ascii) : bool :=
  let n := nat_of_ascii c in
  ((9 <=? n) && (n <=? 13) || (n =? 32) || (n =? 160))%nat.

Definition is_digit (c : ascii) : bool :=
  let n := nat_of_ascii c in
  ((48 <=? n) && (n <=? 57))%nat.

Fixpoint skip_spaces (s : string) : string :=
  match s with
  | String c rest => if is_space c then skip_spaces rest else s
  | EmptyString => EmptyString
  end.

(** The value of the longest prefix of decimal digits of [s], continuing
    from [acc]. *)
Fixpoint digits_value (acc : Z) (s : string) : Z :=
  match s with
  | String c rest =>
      if is_digit c
      then digits_value (10 * acc + Z.of_nat (nat_of_ascii c - 48))%Z rest
      else acc
  | EmptyString => acc
  end.

Definition starts_with_digit (s : string) : bool :=
  match s with
  | String c _ => is_digit c
  | EmptyString => false
  end.

(** [parseInt(s, 10)]: leading white space, an optional sign, then the
    longest run of digits; [NaN] when there is no digit. *)
Definition parseInt (s : string) : jsnum :=
  let t := skip_spaces s in
  let '(negative, digits) :=
    match t with
    | String "-"%char rest => (true, rest)
    | String "+"%char rest => (false, rest)
    | _ => (false, t)
    end in
  if starts_with_digit digits
  then
    let n := digits_value 0 digits in
    let signed := (if negative then - n else n)%Z in
    if (n <=? 2 ^ 53)%Z then Int signed else Rounded signed
  else NaN.

(** The value of a decimal numeral read from the left, continuing from
    [acc]: what [digits_value] computes on its text. *)
Fixpoint numeral_value (acc : Z) (d : Decimal.uint) : Z :=
  match d with
  | Decimal.Nil => acc
  | Decimal.D0 l => numeral_value (10 * acc) l
  | Decimal.D1 l => numeral_value (10 * acc + 1) l
  | Decimal.D2 l => numeral_value (10 * acc + 2) l
  | Decimal.D3 l => numeral_value (10 * acc + 3) l
  | Decimal.D4 l => numeral_value (10 * acc + 4) l
  | Decimal.D5 l => numeral_value (10 * acc + 5) l
  | Decimal.D6 l => numeral_value (10 * acc + 6) l
  | Decimal.D7 l => numeral_value (10 * acc + 7) l
  | Decimal.D8 l => numeral_value (10 * acc + 8) l
  | Decimal.D9 l => numeral_value (10 * acc + 9) l
  end%Z.

(* ====================================================================== *)
(** * Pagination (the pagination utilities and [src/types/entities.ts]) *)
(* ====================================================================== *)

(** [n || d] for an optional number: [undefined] and [0] are falsy. *)
Definition num_or (n : option Z) (d : Z) : Z :=
  match n with
  | Some z => if (z =? 0)%Z then d else z
  | None => d
  end.

Module PaginationParams.
Record t : Type := {
  page : option Z;
  per : option Z
}.
End PaginationParams.

Module NormalizedParams.
(** [Required<Pick<PaginationParams, 'per'>> & Omit<PaginationParams, 'per'>] *)
Record t : Type := {
  per : Z;
  page : option Z
}.
End NormalizedParams.

Module PaginatedResponse.
Record t : Type := {
  items : list Js.value;
  count : Z;
  total : option Z;
  hasMore : bool;
  nextPage : option Z
}.
End PaginatedResponse.

Module PageOptions.
(** The [options] argument of [createPaginatedResponse]. *)
Record t : Type := {
  total : option Z;
  hasMore : option bool;
  nextPage : option Z
}.

(** The default [{}]. *)
Definition empty : t := {| total := None; hasMore := None; nextPage := None |}.
End PageOptions.

Module Pagination.

Definition PAGINATION_DEFAULTS_per : Z := 25.
Definition PAGINATION_DEFAULTS_maxPer : Z := 100.

(** [params?.per] and [params?.page] *)
Definition per_of (params : option PaginationParams.t) : option Z :=
  match params with
  | Some p => PaginationParams.per p
  | None => None
  end.

Definition page_of (params : option PaginationParams.t) : option Z :=
  match params with
  | Some p => PaginationParams.page p
  | None => None
  end.

(** The default of the second parameter, [maxPer =
    PAGINATION_DEFAULTS.maxPer]: [None] is a call that leaves it out. *)
Definition cap (maxPer : option Z) : Z :=
  match maxPer with
  | Some m => m
  | None => PAGINATION_DEFAULTS_maxPer
  end.

(** [{ per: Math.min(params?.per || PAGINATION_DEFAULTS.per, maxPer),
       page: params?.page }] *)
Definition normalizePaginationParams
  (params : option PaginationParams.t) (maxPer : option Z)
  : NormalizedParams.t :=
  {| NormalizedParams.per :=
       Z.min (num_or (per_of params) PAGINATION_DEFAULTS_per) (cap maxPer);
     NormalizedParams.page := page_of params |}.

Definition emptyPaginatedResponse : PaginatedResponse.t :=
  {| PaginatedResponse.items := [];
     PaginatedResponse.count := 0;
     PaginatedResponse.total := None;
     PaginatedResponse.hasMore := false;
     PaginatedResponse.nextPage := None |}.


Definition hasMoreItems (page per total : Z) : bool :=
  (Js.mul page per <? total)%Z.

Definition getNextPage (currentPage per total : Z) : option Z :=
  let next := Js.add currentPage 1 in
  if (Js.mul currentPage per <? total)%Z then Some next else None.

End Pagination.

(** An optional field as a value: [undefined] when it is not given. *)
Definition opt_num (n : option Z) : Js.value :=
  match n with
  | Some z => Js.Num z
  | None => Js.Undefined
  end.

Definition opt_str (s : option string) : Js.value :=
  match s with
  | Some x => Js.Str x
  | None => Js.Undefined
  end.

Definition opt_bool (b : option bool) : Js.value :=
  match b with
  | Some x => Js.Bool x
  | None => Js.Undefined
  end.

(** A paginated response as the object the formatter receives. A field
    that is absent and one that is [undefined] are read and serialized
    alike, so [total] and [nextPage] are listed in either case. *)
Definition paginated_object (r : PaginatedResponse.t) : Js.value :=
  Js.Obj [("items", Js.Arr (PaginatedResponse.items r));
          ("count", Js.Num (PaginatedResponse.count r));
          ("total", opt_num (PaginatedResponse.total r));
          ("hasMore", Js.Bool (PaginatedResponse.hasMore r));
          ("nextPage", opt_num (PaginatedResponse.nextPage r))].

(** The numbers of a page are safe integers, whose text is their decimal
    numeral. *)
Definition safe_numbers (r : PaginatedResponse.t) : Prop :=
  Js.safe_integer (PaginatedResponse.count r)
  /\ (forall total, PaginatedResponse.total r = Some total ->
        Js.safe_integer total)
  /\ (forall next, PaginatedResponse.nextPage r = Some next ->
        Js.safe_integer next).

(* ====================================================================== *)
(** * Entities and the wire mappers ([src/types/entities.ts], [GustoClientImpl]) *)
(* ====================================================================== *)

Module EmployeeCreateInput.
Record t : Type := {
  firstName : string;
  lastName : string;
  middleName : option string;
  dateOfBirth : option string;
  email : option string;
  ssn : option string;
  selfOnboarding : option bool
}.
End EmployeeCreateInput.

Module EmployeeUpdateInput.
Record t : Type := {
  firstName : option string;
  lastName : option string;
  middleName : option string;
  preferredFirstName : option string;
  email : option string;
  dateOfBirth : option string;
  ssn : option string;
  twoPercentShareholder : option bool
}.
End EmployeeUpdateInput.

Module EmployeeListParams.
(** [PaginationParams & { terminated?: boolean }] *)
Record t : Type := {
  page : option Z;
  per : option Z;
  terminated : option bool
}.
End EmployeeListParams.

(** [{ camel: src.snake, ... }] for each pair of [names], read off a value
    that is neither [null] nor [undefined]. *)
Definition rename (names : list (string * string)) (src : Js.value)
  : list (string * Js.value) :=
  map (fun n => (fst n, Js.prop (snd n) src)) names.

(** [xs.map(f)] for a callback that may throw: the first throw ends it. *)
Fixpoint map_result (f : Js.value -> result Js.value) (xs : list Js.value)
  : result (list Js.value) :=
  match xs with
  | [] => Ok []
  | x :: rest =>
      match f x with
      | Throw e => Throw e
      | Ok y =>
          match map_result f rest with
          | Throw e => Throw e
          | Ok ys => Ok (y :: ys)
          end
      end
  end.

(** [v.map(f)]: a [TypeError] unless [v] is an array. *)
Definition array_map (f : Js.value -> result Js.value) (v : Js.value)
  : result (list Js.value) :=
  match v with
  | Js.Arr xs => map_result f xs
  | _ => Throw TypeError
  end.

(** [v?.map(f)] *)
Definition opt_array_map (f : Js.value -> result Js.value) (v : Js.value)
  : result Js.value :=
  if Js.nullish v then Ok Js.Undefined
  else
    match array_map f v with
    | Ok ys => Ok (Js.Arr ys)
    | Throw e => Throw e
    end.

Definition mapCompensation (c : Js.value) : result Js.value :=
  if Js.nullish c then Throw TypeError
  else
    Ok (Js.Obj (rename [("uuid", "uuid");
                        ("jobUuid", "job_uuid");
                        ("rate", "rate");
                        ("paymentUnit", "payment_unit");
                        ("flsaStatus", "flsa_status");
                        ("effectiveDate", "effective_date");
                        ("adjustForMinimumWage", "adjust_for_minimum_wage");
                        ("minimumWages", "minimum_wages")] c)).

Definition mapJob (j : Js.value) : result Js.value :=
  if Js.nullish j then Throw TypeError
  else
    match opt_array_map mapCompensation (Js.prop "compensations" j) with
    | Throw e => Throw e
    | Ok compensations =>
        Ok (Js.Obj (rename [("uuid", "uuid");
                            ("employeeUuid", "employee_uuid");
                            ("locationUuid", "location_uuid");
                            ("title", "title");
                            ("primary", "primary");
                            ("rate", "rate");
                            ("paymentUnit", "payment_unit");
                            ("currentCompensationUuid",
                             "current_compensation_uuid");
                            ("hireDate", "hire_date")] j
                    +++ [("compensations", compensations)]))
    end.

Definition mapGarnishment (g : Js.value) : result Js.value :=
  if Js.nullish g then Throw TypeError
  else
    Ok (Js.Obj (rename [("uuid", "uuid");
                        ("employeeUuid", "employee_uuid");
                        ("active", "active");
                        ("amount", "amount");
                        ("description", "description");
                        ("courtOrdered", "court_ordered");
                        ("times", "times");
                        ("recurring", "recurring");
                        ("annualMaximum", "annual_maximum");
                        ("payPeriodMaximum", "pay_period_maximum");
                        ("deductAsPercentage", "deduct_as_percentage")] g)).

Definition mapAddress (a : Js.value) : Js.value :=
  Js.Obj (rename [("street1", "street_1");
                  ("street2", "street_2");
                  ("city", "city");
                  ("state", "state");
                  ("zip", "zip");
                  ("country", "country")] a).

Definition mapEmployee (e : Js.value) : result Js.value :=
  if Js.nullish e then Throw TypeError
  else
    let homeAddress := Js.prop "home_address" e in
    match opt_array_map mapJob (Js.prop "jobs" e) with
    | Throw err => Throw err
    | Ok jobs =>
        match opt_array_map mapGarnishment (Js.prop "garnishments" e) with
        | Throw err => Throw err
        | Ok garnishments =>
            Ok (Js.Obj
                  (rename [("uuid", "uuid");
                           ("companyUuid", "company_uuid");
                           ("firstName", "first_name");
                           ("middleName", "middle_name");
                           ("lastName", "last_name");
                           ("email", "email");
                           ("dateOfBirth", "date_of_birth");
                           ("ssn", "ssn");
                           ("phone", "phone");
                           ("preferredFirstName", "preferred_first_name");
                           ("twoPercentShareholder", "two_percent_shareholder");
                           ("onboarded", "onboarded");
                           ("department", "department");
                           ("terminated", "terminated");
                           ("terminationDate", "termination_date");
                           ("currentEmploymentStatus",
                            "current_employment_status");
                           ("workEmail", "work_email")] e
                   +++ [("homeAddress",
                        if Js.truthy homeAddress
                        then mapAddress homeAddress
                        else Js.Undefined);
                       ("jobs", jobs);
                       ("garnishments", garnishments)]
                   +++ rename [("customFields", "custom_fields");
                               ("paymentMethod", "payment_method");
                               ("hasDirectDeposit", "has_direct_deposit")] e))
        end
    end.

(** [URLSearchParams]: the pairs in insertion order. The values this
    program sets are decimal numbers and [true]/[false], which the
    form-urlencoded serializer writes as they are. *)
Definition URLSearchParams : Type := list (string * string).

Fixpoint params_set (k v : string) (q : URLSearchParams) : URLSearchParams :=
  match q with
  | [] => [(k, v)]
  | (k', v') :: rest =>
      if k' =? k then (k, v) :: rest else (k', v') :: params_set k v rest
  end.

Definition params_toString (q : URLSearchParams) : string :=
  String.concat "&" (map (fun kv => fst kv ++ "=" ++ snd kv) q).

(* ====================================================================== *)
(** * The request gateway ([GustoClientImpl], second part of [src/index.ts]) *)
(* ====================================================================== *)

(** Per-request tenant credentials; [None] is an absent ([undefined])
    field. *)
Record TenantCredentials : Type := {
  accessToken : option string;
  apiVersion : option string
}.

Definition API_BASE_URL : string := "https://api.gusto.com/v1".

(** The options the client methods hand to [request]. [request] is private
    and no call site sets [headers], so the headers of an outbound call are
    those of [getAuthHeaders]. *)
Record RequestInit : Type := {
  initMethod : option string;
  initBody : option string
}.

Definition GET : RequestInit := {| initMethod := None; initBody := None |}.

(** The headers of an authorized call. *)
Definition auth_headers (token : string) : Headers :=
  [("Authorization", "Bearer " ++ token);
   ("Content-Type", "application/json")].

Definition no_credentials : error :=
  AuthenticationError
    "No credentials provided. Include X-Gusto-Access-Token header.".

Definition getAuthHeaders (credentials : TenantCredentials) : result Headers :=
  match accessToken credentials with
  | None => Throw no_credentials
  | Some token =>
      if token =? EmptyString then Throw no_credentials
      else Ok (auth_headers token)
  end.

Section Gateway.

(** The transport and the JSON parser of the runtime. *)
Variable fetch : HttpRequest -> FetchOutcome.
Variable JSON_parse : string -> option Js.value.

Variable credentials : TenantCredentials.

(** [`API error: ${response.status}`] *)
Definition default_message (response : HttpResponse) : string :=
  "API error: " ++ Js.show_number (status response).

(** The body of the [try] block that reads a message out of an error body:
    [errorJson.message || errorJson.error || errorJson.errors?.[0]?.message
     || message]. [None] when [JSON.parse] or the first property access
    throws. *)
Definition extract_message (fallback : string) (errorBody : string)
  : option Js.value :=
  match JSON_parse errorBody with
  | None => None
  | Some errorJson =>
      match Js.member "message" errorJson with
      | None => None
      | Some message =>
          Some (Js.or_else message
                  (Js.or_else (Js.prop "error" errorJson)
                     (Js.or_else
                        (Js.opt_member "message"
                           (Js.opt_first (Js.prop "errors" errorJson)))
                        (Js.Str fallback))))
      end
  end.

(** The message of the [CrmApiError] raised for a failure status: what
    the [try] block extracted, or the default when it threw. *)
Definition failure_message (response : HttpResponse) : Js.value :=
  match extract_message (default_message response) (text response) with
  | Some m => m
  | None => Js.Str (default_message response)
  end.

(** [retryAfter ? parseInt(retryAfter, 10) : 60] *)
Definition retry_after (header : option string) : jsnum :=
  match header with
  | Some s => if s =? EmptyString then Int 60 else parseInt s
  | None => Int 60
  end.

(** What [request] does with the response, once [fetch] has resolved. *)
Definition interpret (response : HttpResponse) : result Js.value :=
  if (status response =? 429)%Z then
    Throw (RateLimitError "Rate limit exceeded"
             (retry_after (headers_get "Retry-After" (responseHeaders response))))
  else if ((status response =? 401) || (status response =? 403))%Z then
    Throw (AuthenticationError
             "Authentication failed. Check your API credentials.")
  else if negb (ok response) then
    Throw (CrmApiError (failure_message response) (status response))
  else if (status response =? 204)%Z then
    Ok Js.Undefined
  else
    match JSON_parse (text response) with
    | Some v => Ok v
    | None => Throw SyntaxError
    end.

(** The argument of [fetch]: [{ ...options, headers }] at the full URL. *)
Definition outbound (headers : Headers) (endpoint : string)
  (options : RequestInit) : HttpRequest :=
  {| url := API_BASE_URL ++ endpoint;
     method := initMethod options;
     requestHeaders := headers;
     body := initBody options |}.

(** [request(endpoint, options)]: the authorization headers are computed
    while the argument of [fetch] is built, so a missing token throws
    before [fetch] is called. *)
Definition request (endpoint : string) (options : RequestInit)
  : Io Js.value :=
  fun log =>
    match getAuthHeaders credentials with
    | Throw e => (log, Throw e)
    | Ok headers =>
        let call := outbound headers endpoint options in
        match fetch call with
        | Rejected reason => (log +++ [call], Throw (RuntimeError reason))
        | Responded response => (log +++ [call], interpret response)
        end
    end.

(** ** Employees *)

(** [params?.page], [params?.per] and [params?.terminated] *)
Definition requested_page (params : option EmployeeListParams.t) : option Z :=
  match params with
  | Some p => EmployeeListParams.page p
  | None => None
  end.

Definition requested_per (params : option EmployeeListParams.t) : option Z :=
  match params with
  | Some p => EmployeeListParams.per p
  | None => None
  end.

Definition requested_terminated (params : option EmployeeListParams.t)
  : option bool :=
  match params with
  | Some p => EmployeeListParams.terminated p
  | None => None
  end.

(** The query [listEmployees] builds: a parameter is set when it is truthy
    ([page], [per]) or not [undefined] ([terminated]). *)
Definition listEmployees_query (params : option EmployeeListParams.t)
  : URLSearchParams :=
  let q : URLSearchParams := [] in
  let q := match requested_page params with
           | Some n => if (n =? 0)%Z then q else params_set "page" (Js.show_number n) q
           | None => q
           end in
  let q := match requested_per params with
           | Some n => if (n =? 0)%Z then q else params_set "per" (Js.show_number n) q
           | None => q
           end in
  match requested_terminated params with
  | Some b => params_set "terminated" (Js.primitive_text (Js.Bool b)) q
  | None => q
  end.

(** [`/companies/${companyId}/employees?${queryParams}`] *)
Definition listEmployees_endpoint (companyId : string)
  (params : option EmployeeListParams.t) : string :=
  "/companies/" ++ companyId ++ "/employees?"
  ++ params_toString (listEmployees_query params).

Definition listEmployees (companyId : string)
  (params : option EmployeeListParams.t) : Io PaginatedResponse.t :=
  data <- request (listEmployees_endpoint companyId params) GET ;;
  items <- lift (array_map mapEmployee data) ;;
  let n := Z.of_nat (List.length items) in
  let per := num_or (requested_per params) 25 in
  ret {| PaginatedResponse.items := items;
         PaginatedResponse.count := n;
         PaginatedResponse.total := None;
         PaginatedResponse.hasMore := (n =? per)%Z;
         PaginatedResponse.nextPage :=
           if (n =? per)%Z
           then Some (Js.add (num_or (requested_page params) 1) 1)
           else None |}.

Definition getEmployee (employeeId : string) : Io Js.value :=
  data <- request ("/employees/" ++ employeeId) GET ;;
  lift (mapEmployee data).

(** The object literal [createEmployee] hands to [JSON.stringify]. *)
Definition createEmployee_payload (data : EmployeeCreateInput.t) : Js.value :=
  Js.Obj [("first_name", Js.Str (EmployeeCreateInput.firstName data));
          ("last_name", Js.Str (EmployeeCreateInput.lastName data));
          ("middle_name", opt_str (EmployeeCreateInput.middleName data));
          ("date_of_birth", opt_str (EmployeeCreateInput.dateOfBirth data));
          ("email", opt_str (EmployeeCreateInput.email data));
          ("ssn", opt_str (EmployeeCreateInput.ssn data));
          ("self_onboarding", opt_bool (EmployeeCreateInput.selfOnboarding data))].

Definition createEmployee (companyId : string) (data : EmployeeCreateInput.t)
  : Io Js.value :=
  result <- request ("/companies/" ++ companyId ++ "/employees")
              {| initMethod := Some "POST";
                 initBody := Js.stringify (createEmployee_payload data) |} ;;
  lift (mapEmployee result).

(** The object literal [updateEmployee] hands to [JSON.stringify]. *)
Definition updateEmployee_payload (data : EmployeeUpdateInput.t) : Js.value :=
  Js.Obj [("first_name", opt_str (EmployeeUpdateInput.firstName data));
          ("last_name", opt_str (EmployeeUpdateInput.lastName data));
          ("middle_name", opt_str (EmployeeUpdateInput.middleName data));
          ("preferred_first_name",
           opt_str (EmployeeUpdateInput.preferredFirstName data));
          ("email", opt_str (EmployeeUpdateInput.email data));
          ("date_of_birth", opt_str (EmployeeUpdateInput.dateOfBirth data));
          ("ssn", opt_str (EmployeeUpdateInput.ssn data));
          ("two_percent_shareholder",
           opt_bool (EmployeeUpdateInput.twoPercentShareholder data))].

Definition updateEmployee (employeeId : string) (data : EmployeeUpdateInput.t)
  : Io Js.value :=
  result <- request ("/employees/" ++ employeeId)
              {| initMethod := Some "PUT";
                 initBody := Js.stringify (updateEmployee_payload data) |} ;;
  lift (mapEmployee result).

(** ** Holiday pay policy *)

Definition mapHolidayPayPolicy (data : Js.value) : result Js.value :=
  if Js.nullish data then Throw TypeError
  else
    Ok (Js.Obj (rename [("uuid", "uuid");
                        ("companyUuid", "company_uuid");
                        ("name", "name");
                        ("federalHolidays", "federal_holidays");
                        ("customHolidays", "custom_holidays");
                        ("employees", "employees")] data)).

(** [error instanceof CrmApiError && error.statusCode === 404] *)
Definition is_not_found (e : error) : bool :=
  ClassifiedError.isCrmApiError e
  && match ClassifiedError.statusCode e with
     | Some code => (code =? 404)%Z
     | None => false
     end.

(** [getHolidayPayPolicy]: the result is the policy or [null]. *)
Definition getHolidayPayPolicy (companyId : string) : Io Js.value :=
  try_catch
    (data <- request ("/companies/" ++ companyId ++ "/holiday_pay_policy") GET ;;
     lift (mapHolidayPayPolicy data))
    (fun e => if is_not_found e then ret Js.Null else throw e).

(** ** Connection *)

Definition getTokenInfo : Io Js.value :=
  data <- request "/token_info" GET ;;
  lift (if Js.nullish data then Throw TypeError
        else
          let owner := Js.prop "resource_owner" data in
          Ok (Js.Obj [("resourceOwner",
                       if Js.truthy owner
                       then Js.Obj (rename [("uuid", "uuid");
                                            ("type", "type");
                                            ("email", "email")] owner)
                       else Js.Undefined);
                      ("scope", Js.prop "scope" data);
                      ("applicationId", Js.prop "application_id" data);
                      ("createdAt", Js.prop "created_at" data);
                      ("expiresIn", Js.prop "expires_in" data)])).

(** [testConnection] reports any failure as data: it never throws. The
    message of a successful connection is built inside the [try], so a
    conversion that throws there is reported as a failure too. *)
Definition testConnection : Io Js.value :=
  try_catch
    (info <- getTokenInfo ;;
     owner <- lift (string_of
                      (Js.or_else
                         (Js.opt_member "email" (Js.prop "resourceOwner" info))
                         (Js.Str "authenticated user"))) ;;
     ret (Js.Obj [("connected", Js.Bool true);
                  ("message", Js.Str ("Connected as " ++ owner))]))
    (fun e => ret (Js.Obj [("connected", Js.Bool false);
                           ("message", Js.Str (ClassifiedError.message e))])).

End Gateway.

(* ====================================================================== *)
(** * Response formatting ([src/utils/formatters.ts]) *)
(* ====================================================================== *)

(** An MCP tool response: the texts of its text blocks and the [isError]
    flag, [None] when the object has no such field. A text is [None] when
    [JSON.stringify] returned [undefined]. *)
Record ToolResponse : Type := {
  content : list (option string);
  isError : option bool
}.

Inductive ResponseFormat : Type :=
| json
| markdown.

(** [c.toUpperCase()] for a code unit below 256: the letters [a] to [z]
    and the accented letters from 224 to 254, the division sign apart. The
    three letters whose capital is not a code unit below 256 (181, 223 and
    255) are left as they are. *)
Definition upper_char (c : ascii) : ascii :=
  let n := nat_of_ascii c in
  if ((97 <=? n) && (n <=? 122))%nat then ascii_of_nat (n - 32)
  else if ((224 <=? n) && (n <=? 254) && negb (n =? 247))%nat
       then ascii_of_nat (n - 32)
  else c.

(** A name made of the letters [a] to [z] and [A] to [Z], as the entity
    types the tools pass to the formatter are. *)
Definition is_letter (c : ascii) : bool :=
  let n := nat_of_ascii c in
  ((65 <=? n) && (n <=? 90) || (97 <=? n) && (n <=? 122))%nat.

Definition letters (s : string) : bool :=
  forallb is_letter (list_ascii_of_string s).

Definition is_upper (c : ascii) : bool :=
  let n := nat_of_ascii c in
  ((65 <=? n) && (n <=? 90))%nat.

(** [str.charAt(0).toUpperCase() + str.slice(1)], on ASCII letters. *)
Definition capitalize (str : string) : string :=
  match str with
  | EmptyString => EmptyString
  | String c rest => String (upper_char c) rest
  end.

Definition rev_string (s : string) : string :=
  string_of_list_ascii (rev (list_ascii_of_string s)).

(** [s.trim()], on ASCII white space. *)
Definition trim (s : string) : string :=
  rev_string (skip_spaces (rev_string (skip_spaces s))).

(** [lines.join('\n')] *)
Definition join_lines (lines : list string) : string :=
  String.concat Js.nl lines.

(** [text.split('\n')], with [current] the line read so far. *)
Fixpoint split_from (current text : string) : list string :=
  match text with
  | EmptyString => [current]
  | String c rest =>
      if (nat_of_ascii c =? 10)%nat then current :: split_from EmptyString rest
      else split_from (current ++ String c EmptyString) rest
  end.

Definition split_lines (text : string) : list string :=
  split_from EmptyString text.

(** A text without a line feed. *)
Definition one_line (s : string) : bool :=
  forallb (fun c => negb (nat_of_ascii c =? 10)%nat) (list_ascii_of_string s).

(** [`${a || alt}`] *)
Definition text_or (a : Js.value) (alt : string) : result string :=
  string_of (Js.or_else a (Js.Str alt)).

(** [`${first || ''} ${last || ''}`.trim() || '-'] *)
Definition full_name (item : Js.value) : result string :=
  let! first := text_or (Js.prop "firstName" item) EmptyString in
  let! last := text_or (Js.prop "lastName" item) EmptyString in
  let name := trim (first ++ " " ++ last) in
  Ok (if name =? EmptyString then "-" else name).

Definition yes_no (v : Js.value) : string :=
  if Js.truthy v then "Yes" else "No".

(** The rows of a table whose row function reads a property of each item:
    a [null] or [undefined] item throws, and so does a row whose text
    cannot be built. *)
Fixpoint rows (row : Js.value -> result (list string)) (items : list Js.value)
  : result (list string) :=
  match items with
  | [] => Ok []
  | item :: rest =>
      if Js.nullish item then Throw TypeError
      else
        let! lines := row item in
        let! more := rows row rest in
        Ok (lines +++ more)
  end.

Definition table (header : list string)
  (row : Js.value -> result (list string)) (items : list Js.value)
  : result string :=
  let! body := rows row items in
  Ok (join_lines (header +++ body)).

Definition employee_row (emp : Js.value) : result (list string) :=
  let! name := full_name emp in
  let status :=
    if Js.truthy (Js.prop "terminated" emp) then Js.Str "Terminated"
    else Js.or_else (Js.prop "currentEmploymentStatus" emp) (Js.Str "Active") in
  let! uuid := string_of (Js.prop "uuid" emp) in
  let! email := text_or (Js.prop "email" emp) "-" in
  let! status_text := string_of status in
  Ok ["| " ++ uuid ++ " | " ++ name ++ " | " ++ email ++ " | " ++ status_text
      ++ " | " ++ yes_no (Js.prop "onboarded" emp) ++ " |"].

Definition formatEmployeesTable (employees : list Js.value) : result string :=
  table ["| UUID | Name | Email | Status | Onboarded |"; "|---|---|---|---|---|"]
    employee_row employees.

(** [v === 'Business'] *)
Definition is_business (v : Js.value) : bool :=
  match v with
  | Js.Str s => s =? "Business"
  | _ => false
  end.

Definition contractor_row (c : Js.value) : result (list string) :=
  let! name :=
    if is_business (Js.prop "type" c)
    then Ok (Js.or_else (Js.prop "businessName" c) (Js.Str "-"))
    else let! person := full_name c in Ok (Js.Str person) in
  let! uuid := string_of (Js.prop "uuid" c) in
  let! name_text := string_of name in
  let! type := text_or (Js.prop "type" c) "-" in
  let! email := text_or (Js.prop "email" c) "-" in
  Ok ["| " ++ uuid ++ " | " ++ name_text ++ " | " ++ type ++ " | " ++ email
      ++ " | " ++ yes_no (Js.prop "isActive" c) ++ " |"].

Definition formatContractorsTable (contractors : list Js.value) : result string :=
  table ["| UUID | Name/Business | Type | Email | Active |"; "|---|---|---|---|---|"]
    contractor_row contractors.

Definition payroll_row (p : Js.value) : result (list string) :=
  let! payPeriod :=
    if Js.truthy (Js.prop "payPeriodStartDate" p)
       && Js.truthy (Js.prop "payPeriodEndDate" p)
    then
      let! start := string_of (Js.prop "payPeriodStartDate" p) in
      let! finish := string_of (Js.prop "payPeriodEndDate" p) in
      Ok (start ++ " - " ++ finish)
    else Ok "-" in
  let gross := Js.opt_member "grossPay" (Js.prop "totals" p) in
  let! grossPay :=
    if Js.truthy gross
    then let! amount := string_of gross in Ok ("$" ++ amount)
    else Ok "-" in
  let! uuid := string_of (Js.or_else (Js.prop "uuid" p)
                            (Js.or_else (Js.prop "payrollUuid" p) (Js.Str "-"))) in
  let! checkDate := text_or (Js.prop "checkDate" p) "-" in
  Ok ["| " ++ uuid ++ " | " ++ payPeriod ++ " | " ++ checkDate
      ++ " | " ++ yes_no (Js.prop "processed" p) ++ " | " ++ grossPay ++ " |"].

Definition formatPayrollsTable (payrolls : list Js.value) : result string :=
  table ["| UUID | Pay Period | Check Date | Processed | Gross Pay |";
         "|---|---|---|---|---|"]
    payroll_row payrolls.

(** [keys.map((k) => String(record[k] ?? '-'))] *)
Fixpoint generic_cells (keys : list string) (item : Js.value)
  : result (list string) :=
  match keys with
  | [] => Ok []
  | k :: rest =>
      let! cell := string_of (Js.coalesce (Js.prop k item) (Js.Str "-")) in
      let! more := generic_cells rest item in
      Ok (cell :: more)
  end.

(** The rows of the generic table: no property is read when there is no
    column, so only then does a [null] item go through. *)
Fixpoint generic_rows (keys : list string) (items : list Js.value)
  : result (list string) :=
  match items with
  | [] => Ok []
  | item :: rest =>
      if match keys with [] => false | _ :: _ => Js.nullish item end
      then Throw TypeError
      else
        let! cells := generic_cells keys item in
        let! more := generic_rows keys rest in
        Ok (("| " ++ String.concat " | " cells ++ " |") :: more)
  end.

(** [formatGenericTable]: the columns are the first five keys of the first
    item. *)
Definition formatGenericTable (items : list Js.value) : result string :=
  match items with
  | [] => Ok "_No items_"
  | first :: _ =>
      if Js.nullish first then Throw TypeError
      else
        let keys := firstn 5 (Js.keys first) in
        let! body := generic_rows keys items in
        Ok (join_lines
              (("| " ++ String.concat " | " keys ++ " |")
               :: ("|" ++ String.concat "|" (map (fun _ => "---") keys) ++ "|")
               :: body))
  end.

(** The lines [formatPaginatedAsMarkdown] pushes before it looks at the
    items: heading, blank, counts, the optional more-available line,
    blank. *)
Definition paginated_header (data : Js.value) (entityType : string)
  : result (list string) :=
  let! count := string_of (Js.prop "count" data) in
  let! counts :=
    if Js.defined (Js.prop "total" data)
    then
      let! total := string_of (Js.prop "total" data) in
      Ok ("**Total:** " ++ total ++ " | **Showing:** " ++ count)
    else Ok ("**Showing:** " ++ count) in
  let! more :=
    if Js.truthy (Js.prop "hasMore" data)
    then
      let! next := string_of (Js.prop "nextPage" data) in
      Ok ["**More available:** Yes (page: " ++ next ++ ")"]
    else Ok [] in
  Ok (["## " ++ capitalize entityType; EmptyString; counts]
      +++ more +++ [EmptyString]).

(** [data.items] of a value that passed [isPaginatedResponse]. *)
Definition items_of (data : Js.value) : list Js.value :=
  match Js.prop "items" data with
  | Js.Arr xs => xs
  | _ => []
  end.

Definition formatPaginatedAsMarkdown (data : Js.value) (entityType : string)
  : result string :=
  let! lines := paginated_header data entityType in
  match items_of data with
  | [] => Ok (join_lines (lines +++ ["_No items found._"]))
  | _ :: _ =>
      let! table :=
        if entityType =? "employees" then formatEmployeesTable (items_of data)
        else if entityType =? "contractors" then formatContractorsTable (items_of data)
        else if entityType =? "payrolls" then formatPayrollsTable (items_of data)
        else formatGenericTable (items_of data) in
      Ok (join_lines (lines +++ [table]))
  end.

Definition schedule_lines (schedule : Js.value) : result (list string) :=
  let! name := text_or (Js.prop "name" schedule) "Pay Schedule" in
  let! uuid := string_of (Js.prop "uuid" schedule) in
  let! frequency := text_or (Js.prop "frequency" schedule) "-" in
  let! anchor :=
    if Js.truthy (Js.prop "anchorPayDate" schedule)
    then
      let! date := string_of (Js.prop "anchorPayDate" schedule) in
      Ok ["**Anchor Pay Date:** " ++ date]
    else Ok [] in
  Ok (["### " ++ name;
       "**UUID:** `" ++ uuid ++ "`";
       "**Frequency:** " ++ frequency;
       "**AutoPilot:** " ++ yes_no (Js.prop "autoPilot" schedule)]
      +++ anchor +++ [EmptyString]).

Definition formatPaySchedulesAsMarkdown (schedules : list Js.value)
  : result string :=
  table [] schedule_lines schedules.

Definition company_row (c : Js.value) : result (list string) :=
  let! uuid := string_of (Js.prop "uuid" c) in
  let! name := string_of (Js.prop "name" c) in
  let! ein := text_or (Js.prop "ein" c) "-" in
  let! status := text_or (Js.prop "companyStatus" c) "-" in
  Ok ["| " ++ uuid ++ " | " ++ name ++ " | " ++ ein ++ " | " ++ status ++ " |"].

Definition formatCompaniesAsMarkdown (companies : list Js.value)
  : result string :=
  table ["| UUID | Name | EIN | Status |"; "|---|---|---|---|"]
    company_row companies.

Definition formatArrayAsMarkdown (data : list Js.value) (entityType : string)
  : result string :=
  if entityType =? "paySchedules" then formatPaySchedulesAsMarkdown data
  else if entityType =? "companies" then formatCompaniesAsMarkdown data
  else formatGenericTable data.

(** [key.replace(/([A-Z])/g, ' $1')] *)
Fixpoint space_capitals (key : string) : string :=
  match key with
  | EmptyString => EmptyString
  | String c rest =>
      if is_upper c then String " " (String c (space_capitals rest))
      else String c (space_capitals rest)
  end.

(** [formatKey]: camelCase to Title Case. *)
Definition formatKey (key : string) : string :=
  trim (capitalize (space_capitals key)).

(** [s.replace(/s$/, '')] *)
Fixpoint drop_final_s (s : string) : string :=
  match s with
  | EmptyString => EmptyString
  | String c EmptyString => if (c =? "s")%char then EmptyString else s
  | String c rest => String c (drop_final_s rest)
  end.

(** A line of a Markdown table starts with a bar. *)
Definition is_table_row (line : string) : bool :=
  match line with
  | String c _ => (c =? "|")%char
  | EmptyString => false
  end.

(** [typeof v === 'object'] for a value that is not [null]. *)
Definition is_object (v : Js.value) : bool :=
  match v with
  | Js.Arr _ | Js.Obj _ => true
  | _ => false
  end.

Definition formatObjectAsMarkdown (fields : list (string * Js.value))
  (entityType : string) : string :=
  join_lines
    (["## " ++ capitalize (drop_final_s entityType); EmptyString]
     +++ flat_map
          (fun kv =>
             if Js.nullish (snd kv) then []
             else if is_object (snd kv) then
               ["**" ++ formatKey (fst kv) ++ ":**";
                "```json";
                match Js.stringify_pretty (snd kv) with
                | Some t => t
                | None => "undefined"
                end;
                "```"]
             else ["**" ++ formatKey (fst kv) ++ ":** "
                   ++ Js.primitive_text (snd kv)])
          fields).

(** [isPaginatedResponse]: an object with an array under [items]. *)
Definition isPaginatedResponse (data : Js.value) : bool :=
  match data with
  | Js.Obj fields =>
      match Js.assoc "items" fields with
      | Some (Js.Arr _) => true
      | _ => false
      end
  | _ => false
  end.

Definition formatAsMarkdown (data : Js.value) (entityType : string)
  : result string :=
  if isPaginatedResponse data then formatPaginatedAsMarkdown data entityType
  else
    match data with
    | Js.Arr xs => formatArrayAsMarkdown xs entityType
    | Js.Obj fields => Ok (formatObjectAsMarkdown fields entityType)
    | _ => Ok (Js.primitive_text data)
    end.

(** [formatResponse]: it throws when a Markdown renderer does. *)
Definition formatResponse (data : Js.value) (format : ResponseFormat)
  (entityType : string) : result ToolResponse :=
  match format with
  | markdown =>
      match formatAsMarkdown data entityType with
      | Ok t => Ok {| content := [Some t]; isError := None |}
      | Throw e => Throw e
      end
  | json => Ok {| content := [Js.stringify_pretty data]; isError := None |}
  end.

Section Formatters.

(** [formatErrorForLogging] of [src/utils/errors.ts], which builds the
    details block of an error result; it is missing from the source tree
    and nothing below depends on what it returns. *)
Variable formatErrorForLogging : error -> Js.value.

(** [formatError]: every value the program throws is an [Error]. *)
Definition formatError (e : error) : ToolResponse :=
  let errorInfo := formatErrorForLogging e in
  let message :=
    if ClassifiedError.isCrmApiError e
    then "Error: " ++ ClassifiedError.message e
         ++ (if ClassifiedError.retryable e then " (retryable)" else EmptyString)
    else "Error: " ++ ClassifiedError.message e in
  {| content := [Js.stringify_pretty
                   (Js.Obj [("error", Js.Str message); ("details", errorInfo)])];
     isError := Some true |}.

End Formatters.

(* ====================================================================== *)
(** * Tool handlers ([src/tools/index.ts]) *)
(* ====================================================================== *)

Module ListEmployeesArgs.
(** The arguments of [gusto_list_employees]; [format] defaults to [json]. *)
Record t : Type := {
  companyId : string;
  page : option Z;
  per : option Z;
  terminated : option bool;
  format : ResponseFormat
}.
End ListEmployeesArgs.

Section Tools.

Variable fetch : HttpRequest -> FetchOutcome.
Variable JSON_parse : string -> option Js.value.
Variable formatErrorForLogging : error -> Js.value.
Variable credentials : TenantCredentials.

(** Every handler is [try { ... } catch (error) { return formatError(error) }]. *)
Definition handler (body : Io ToolResponse) : Io ToolResponse :=
  try_catch body (fun e => ret (formatError formatErrorForLogging e)).

(** [{ content: [{ type: 'text', text: JSON.stringify(v, null, 2) }] }] *)
Definition text_response (v : Js.value) : ToolResponse :=
  {| content := [Js.stringify_pretty v]; isError := None |}.

Definition gusto_test_connection : Io ToolResponse :=
  handler (result <- testConnection fetch JSON_parse credentials ;;
           ret (text_response result)).

Definition gusto_get_token_info : Io ToolResponse :=
  handler (result <- getTokenInfo fetch JSON_parse credentials ;;
           lift (formatResponse result json "tokenInfo")).

Definition gusto_list_employees (args : ListEmployeesArgs.t) : Io ToolResponse :=
  handler
    (result <- listEmployees fetch JSON_parse credentials
                 (ListEmployeesArgs.companyId args)
                 (Some {| EmployeeListParams.page := ListEmployeesArgs.page args;
                          EmployeeListParams.per := ListEmployeesArgs.per args;
                          EmployeeListParams.terminated :=
                            ListEmployeesArgs.terminated args |}) ;;
     lift (formatResponse (paginated_object result)
             (ListEmployeesArgs.format args) "employees")).

Definition gusto_get_employee (employeeId : string) (format : ResponseFormat)
  : Io ToolResponse :=
  handler (result <- getEmployee fetch JSON_parse credentials employeeId ;;
           lift (formatResponse result format "employee")).

Definition gusto_create_employee (companyId : string)
  (data : EmployeeCreateInput.t) : Io ToolResponse :=
  handler (result <- createEmployee fetch JSON_parse credentials companyId data ;;
           ret (text_response
                  (Js.Obj [("success", Js.Bool true); ("employee", result)]))).

(** [async ({ employeeId, ...data }) => client.updateEmployee(employeeId,
    data)]: the handler passes on every other argument it is given. *)
Definition gusto_update_employee (employeeId : string)
  (data : EmployeeUpdateInput.t) : Io ToolResponse :=
  handler
    (result <- updateEmployee fetch JSON_parse credentials employeeId data ;;
     ret (text_response
            (Js.Obj [("success", Js.Bool true); ("employee", result)]))).

Definition gusto_get_holiday_pay_policy (companyId : string)
  (format : ResponseFormat) : Io ToolResponse :=
  handler
    (result <- getHolidayPayPolicy fetch JSON_parse credentials companyId ;;
     if negb (Js.truthy result)
     then ret (text_response
                 (Js.Obj [("message", Js.Str "No holiday pay policy found")]))
     else lift (formatResponse result format "holidayPayPolicy")).

End Tools.

(* ====================================================================== *)
(** * The Worker entry point (first part of [src/index.ts]) *)
(* ====================================================================== *)

Module Worker.

Definition SERVER_NAME : string := "gusto-mcp-server".
Definition SERVER_VERSION : string := "1.0.0".

(** The inbound request: the path of its URL, its method and headers. *)
Record Request : Type := {
  pathname : string;
  method : string;
  headers : Headers
}.

(** A [Response]: status (200 unless given), headers and body text. *)
Record Response : Type := {
  status : Z;
  headers_out : Headers;
  body : option string
}.

Definition json_headers : Headers := [("Content-Type", "application/json")].

Definition advertised_tools : Js.value :=
  Js.Arr
    [Js.Str "gusto_test_connection";
     Js.Str "gusto_get_token_info";
     Js.Str "gusto_get_company";
     Js.Str "gusto_list_locations";
     Js.Str "gusto_create_location";
     Js.Str "gusto_list_departments";
     Js.Str "gusto_create_department";
     Js.Str "gusto_list_admins";
     Js.Str "gusto_list_signatories";
     Js.Str "gusto_list_company_bank_accounts";
     Js.Str "gusto_list_employees";
     Js.Str "gusto_get_employee";
     Js.Str "gusto_create_employee";
     Js.Str "gusto_update_employee";
     Js.Str "gusto_get_employee_onboarding_status";
     Js.Str "gusto_list_jobs";
     Js.Str "gusto_create_job";
     Js.Str "gusto_list_compensations";
     Js.Str "gusto_create_compensation";
     Js.Str "gusto_list_home_addresses";
     Js.Str "gusto_create_home_address";
     Js.Str "gusto_get_federal_taxes";
     Js.Str "gusto_get_state_taxes";
     Js.Str "gusto_list_employee_bank_accounts";
     Js.Str "gusto_get_employee_payment_method";
     Js.Str "gusto_list_terminations";
     Js.Str "gusto_create_termination";
     Js.Str "gusto_list_garnishments";
     Js.Str "gusto_create_garnishment";
     Js.Str "gusto_list_employee_forms";
     Js.Str "gusto_list_recurring_reimbursements";
     Js.Str "gusto_create_recurring_reimbursement";
     Js.Str "gusto_list_contractors";
     Js.Str "gusto_get_contractor";
     Js.Str "gusto_create_contractor";
     Js.Str "gusto_update_contractor";
     Js.Str "gusto_delete_contractor";
     Js.Str "gusto_list_contractor_payments";
     Js.Str "gusto_create_contractor_payment";
     Js.Str "gusto_list_contractor_bank_accounts";
     Js.Str "gusto_list_contractor_forms";
     Js.Str "gusto_list_payrolls";
     Js.Str "gusto_get_payroll";
     Js.Str "gusto_calculate_payroll";
     Js.Str "gusto_submit_payroll";
     Js.Str "gusto_create_off_cycle_payroll";
     Js.Str "gusto_list_pay_schedules";
     Js.Str "gusto_create_pay_schedule";
     Js.Str "gusto_list_pay_periods";
     Js.Str "gusto_list_earning_types";
     Js.Str "gusto_create_earning_type";
     Js.Str "gusto_list_company_forms";
     Js.Str "gusto_list_notifications";
     Js.Str "gusto_list_supported_benefits";
     Js.Str "gusto_list_company_benefits";
     Js.Str "gusto_create_company_benefit";
     Js.Str "gusto_list_employee_benefits";
     Js.Str "gusto_create_employee_benefit";
     Js.Str "gusto_list_time_off_policies";
     Js.Str "gusto_get_time_off_policy";
     Js.Str "gusto_create_time_off_policy";
     Js.Str "gusto_add_employees_to_time_off_policy";
     Js.Str "gusto_get_holiday_pay_policy";
     Js.Str "gusto_list_webhook_subscriptions";
     Js.Str "gusto_create_webhook_subscription";
     Js.Str "gusto_delete_webhook_subscription";
     Js.Str "gusto_list_events"].

(** The body of the default response. *)
Definition server_info : Js.value :=
  Js.Obj
    [("name", Js.Str SERVER_NAME);
     ("version", Js.Str SERVER_VERSION);
     ("description", Js.Str "Multi-tenant Gusto Embedded Payroll MCP Server");
     ("endpoints",
      Js.Obj [("mcp", Js.Str "/mcp (POST) - Streamable HTTP MCP endpoint");
              ("health", Js.Str "/health - Health check")]);
     ("authentication",
      Js.Obj [("description", Js.Str "Pass tenant credentials via request headers");
              ("required_headers",
               Js.Obj [("X-Gusto-Access-Token",
                        Js.Str "OAuth 2.0 access token for Gusto API")]);
              ("optional_headers",
               Js.Obj [("X-Gusto-API-Version",
                        Js.Str "Override the default API version")])]);
     ("tools", advertised_tools)].

(** Modelled from the spec: [parseTenantCredentials] of [src/types/env.ts]
    is missing from the source tree. The Credential Extractor reads
    exactly one mandatory field, the access token, from the header
    X-Gusto-Access-Token, and the optional API version from the header
    X-Gusto-API-Version. *)
Definition parseTenantCredentials (request : Request) : TenantCredentials :=
  {| accessToken := headers_get "X-Gusto-Access-Token" (headers request);
     apiVersion := headers_get "X-Gusto-API-Version" (headers request) |}.

(** The access token is absent or empty. *)
Definition token_missing (credentials : TenantCredentials) : bool :=
  match accessToken credentials with
  | None => true
  | Some token => token =? EmptyString
  end.

Section Handler.

(** The text of the error [validateCredentials] throws. *)
Variable missing_credentials_message : string.

(** [createMcpHandler(createStatelessServer(credentials))(request, env, ctx)]:
    the MCP framework running the registered tools against a client built
    from [credentials]. *)
Variable mcp : TenantCredentials -> Request -> Io Response.

(** Modelled from the spec: [validateCredentials] of [src/types/env.ts] is
    missing from the source tree. Validation fails with
    MissingCredentialsError when the access token is absent or empty. *)
Definition validateCredentials (credentials : TenantCredentials) : result unit :=
  if token_missing credentials
  then Throw (MissingCredentialsError missing_credentials_message)
  else Ok tt.

(** The 401 response built in the [catch] of the credential check. *)
Definition unauthorized (e : error) : Response :=
  {| status := 401;
     headers_out := json_headers;
     body := Js.stringify
               (Js.Obj [("error", Js.Str "Unauthorized");
                        ("message", Js.Str (ClassifiedError.message e));
                        ("required_headers",
                         Js.Arr [Js.Str "X-Gusto-Access-Token"])]) |}.

(** The [fetch] handler of the Worker. *)
Definition fetch (request : Request) : Io Response :=
  if pathname request =? "/health" then
    ret {| status := 200;
           headers_out := json_headers;
           body := Js.stringify
                     (Js.Obj [("status", Js.Str "ok");
                              ("server", Js.Str SERVER_NAME)]) |}
  else if (pathname request =? "/mcp") && (method request =? "POST") then
    let credentials := parseTenantCredentials request in
    match validateCredentials credentials with
    | Throw e => ret (unauthorized e)
    | Ok _ => mcp credentials request
    end
  else if pathname request =? "/sse" then
    ret {| status := 501;
           headers_out := [];
           body := Some "SSE endpoint requires Durable Objects. Enable in wrangler.jsonc." |}
  else
    ret {| status := 200;
           headers_out := json_headers;
           body := Js.stringify server_info |}.

End Handler.

End Worker.

(* ====================================================================== *)
(** * The Entity Normalizer as the specification words it *)
(* ====================================================================== *)

Module Spec.

(** The wire name [a_b] of a domain field [aB]. *)
Fixpoint snake_case (name : string) : string :=
  match name with
  | EmptyString => EmptyString
  | String c rest =>
      if is_upper c
      then String "_" (String (lower_char c) (snake_case rest))
      else String c (snake_case rest)
  end.

(** The value of a field of an employee input: a text or a flag. *)
Inductive leaf : Type :=
| Text (s : string)
| Flag (b : bool).

(** A domain object: its fields by name, [None] for a field that is
    [undefined]. *)
Definition domain : Type := list (string * option leaf).

(** The fields that are set. *)
Definition set_fields (d : domain) : list (string * leaf) :=
  flat_map (fun f =>
              match snd f with
              | Some v => [(fst f, v)]
              | None => []
              end) d.

(** [toWire]: every field that is set goes out under its wire name with its
    value; a field that is [undefined] does not go out at all. *)
Definition toWire (d : domain) : list (string * leaf) :=
  set_fields (map (fun f => (snake_case (fst f), snd f)) d).

(** The field [k] of a wire object. *)
Fixpoint lookup (k : string) (w : list (string * leaf)) : option leaf :=
  match w with
  | [] => None
  | (k', v) :: rest => if k' =? k then Some v else lookup k rest
  end.

(** The JSON text of a value: a text between double quotes, with its
    characters escaped, a flag as [true] or [false]. *)
Definition leaf_text (v : leaf) : string :=
  match v with
  | Text s => Js.dquote ++ Js.escape s ++ Js.dquote
  | Flag true => "true"
  | Flag false => "false"
  end.

(** One member [a_b = V] of the text of a wire object. *)
Definition member (k : string) (v : leaf) : string :=
  Js.dquote ++ k ++ Js.dquote ++ ":" ++ leaf_text v.

(** The JSON text of a wire object: its members in order, separated by
    commas, between braces. *)
Definition wire_text (w : list (string * leaf)) : string :=
  "{" ++ String.concat "," (map (fun kv => member (fst kv) (snd kv)) w) ++ "}".

(** A character a JSON text holds as it is: not a control character, not
    the double quote, not the backslash. *)
Definition plain_char (c : ascii) : bool :=
  let n := nat_of_ascii c in
  ((32 <=? n) && negb (n =? 34) && negb (n =? 92))%nat.

Definition plain (s : string) : bool :=
  forallb plain_char (list_ascii_of_string s).

(** The value a field of an object literal holds. *)
Definition value (o : option leaf) : Js.value :=
  match o with
  | Some (Text s) => Js.Str s
  | Some (Flag b) => Js.Bool b
  | None => Js.Undefined
  end.

(** The object literal with the fields of [d] under their own names. *)
Definition literal (d : domain) : Js.value :=
  Js.Obj (map (fun f => (fst f, value (snd f))) d).

Definition update_domain (data : EmployeeUpdateInput.t) : domain :=
  [("firstName", option_map Text (EmployeeUpdateInput.firstName data));
   ("lastName", option_map Text (EmployeeUpdateInput.lastName data));
   ("middleName", option_map Text (EmployeeUpdateInput.middleName data));
   ("preferredFirstName",
    option_map Text (EmployeeUpdateInput.preferredFirstName data));
   ("email", option_map Text (EmployeeUpdateInput.email data));
   ("dateOfBirth", option_map Text (EmployeeUpdateInput.dateOfBirth data));
   ("ssn", option_map Text (EmployeeUpdateInput.ssn data));
   ("twoPercentShareholder",
    option_map Flag (EmployeeUpdateInput.twoPercentShareholder data))].

Definition create_domain (data : EmployeeCreateInput.t) : domain :=
  [("firstName", Some (Text (EmployeeCreateInput.firstName data)));
   ("lastName", Some (Text (EmployeeCreateInput.lastName data)));
   ("middleName", option_map Text (EmployeeCreateInput.middleName data));
   ("dateOfBirth", option_map Text (EmployeeCreateInput.dateOfBirth data));
   ("email", option_map Text (EmployeeCreateInput.email data));
   ("ssn", option_map Text (EmployeeCreateInput.ssn data));
   ("selfOnboarding",
    option_map Flag (EmployeeCreateInput.selfOnboarding data))].

End Spec.

(* ====================================================================== *)
(** * A concrete runtime, for the worked examples *)
(* ====================================================================== *)

Module Sample.

Definition credentials : TenantCredentials :=
  {| accessToken := Some "token-1"; apiVersion := None |}.

(** The text of a JSON document. *)
Definition document (v : Js.value) : string :=
  match Js.stringify v with
  | Some t => t
  | None => EmptyString
  end.

(** A parser that knows the documents of [known] and rejects any other
    text. *)
Definition parse_known (known : list Js.value) (s : string)
  : option Js.value :=
  find (fun v => document v =? s) known.

(** A transport that answers every call with [response]. *)
Definition always (response : HttpResponse) : HttpRequest -> FetchOutcome :=
  fun _ => Responded response.

Definition respond (code : Z) (headers : Headers) (v : Js.value)
  : HttpResponse :=
  {| status := code; responseHeaders := headers; text := document v |}.

Definition employee (uuid first : string) : Js.value :=
  Js.Obj [("uuid", Js.Str uuid); ("first_name", Js.Str first)].

Definition two_employees : Js.value :=
  Js.Arr [employee "e-1" "Ada"; employee "e-2" "Grace"].

Definition not_found : Js.value :=
  Js.Obj [("message", Js.Str "Not found")].

Definition known : list Js.value := [two_employees; not_found].

Definition details (e : error) : Js.value :=
  Js.Obj [("retryable", Js.Bool (ClassifiedError.retryable e))].

Definition update : EmployeeUpdateInput.t :=
  {| EmployeeUpdateInput.firstName := Some "Ada";
     EmployeeUpdateInput.lastName := None;
     EmployeeUpdateInput.middleName := None;
     EmployeeUpdateInput.preferredFirstName := None;
     EmployeeUpdateInput.email := None;
     EmployeeUpdateInput.dateOfBirth := None;
     EmployeeUpdateInput.ssn := None;
     EmployeeUpdateInput.twoPercentShareholder := Some true |}.

End Sample.

(* ====================================================================== *)
(** * Further operations of the client and their tools *)
(* ====================================================================== *)

Section Operations.

Variable fetch : HttpRequest -> FetchOutcome.
Variable JSON_parse : string -> option Js.value.
Variable formatErrorForLogging : error -> Js.value.
Variable credentials : TenantCredentials.

(** [deleteContractor]: the result of the request is dropped. *)
Definition deleteContractor (contractorId : string) : Io unit :=
  _ <- request fetch JSON_parse credentials ("/contractors/" ++ contractorId)
         {| initMethod := Some "DELETE"; initBody := None |} ;;
  ret tt.

Definition gusto_delete_contractor (contractorId : string) : Io ToolResponse :=
  handler formatErrorForLogging
    (_ <- deleteContractor contractorId ;;
     ret (text_response
            (Js.Obj [("success", Js.Bool true);
                     ("message", Js.Str "Contractor deleted")]))).

(** [{ employees: employeeUuids.map((uuid) => ({ uuid })) }] *)
Definition employees_payload (employeeUuids : list string) : Js.value :=
  Js.Obj [("employees",
           Js.Arr (map (fun uuid => Js.Obj [("uuid", Js.Str uuid)])
                     employeeUuids))].

Definition addEmployeesToTimeOffPolicy (policyId : string)
  (employeeUuids : list string) : Io unit :=
  _ <- request fetch JSON_parse credentials
         ("/time_off_policies/" ++ policyId ++ "/add_employees")
         {| initMethod := Some "PUT";
            initBody := Js.stringify (employees_payload employeeUuids) |} ;;
  ret tt.

Definition gusto_add_employees_to_time_off_policy (policyId : string)
  (employeeUuids : list string) : Io ToolResponse :=
  handler formatErrorForLogging
    (_ <- addEmployeesToTimeOffPolicy policyId employeeUuids ;;
     ret (text_response
            (Js.Obj [("success", Js.Bool true);
                     ("message", Js.Str "Employees added to policy")]))).

End Operations.

(** The tool names each registration function of [src/tools/index.ts]
    passes to [server.tool], in the order of the calls. *)
Module Registry.

Definition registerConnectionTools : list string :=
  ["gusto_test_connection";
   "gusto_get_token_info"].

Definition registerCompanyTools : list string :=
  ["gusto_get_company";
   "gusto_list_locations";
   "gusto_create_location";
   "gusto_list_departments";
   "gusto_create_department";
   "gusto_list_admins";
   "gusto_list_signatories";
   "gusto_list_company_bank_accounts"].

Definition registerEmployeeTools : list string :=
  ["gusto_list_employees";
   "gusto_get_employee";
   "gusto_create_employee";
   "gusto_update_employee";
   "gusto_get_employee_onboarding_status";
   "gusto_list_jobs";
   "gusto_create_job";
   "gusto_list_compensations";
   "gusto_create_compensation";
   "gusto_list_home_addresses";
   "gusto_create_home_address";
   "gusto_get_federal_taxes";
   "gusto_get_state_taxes";
   "gusto_list_employee_bank_accounts";
   "gusto_get_employee_payment_method";
   "gusto_list_terminations";
   "gusto_create_termination";
   "gusto_list_garnishments";
   "gusto_create_garnishment";
   "gusto_list_employee_forms";
   "gusto_list_recurring_reimbursements";
   "gusto_create_recurring_reimbursement"].

Definition registerContractorTools : list string :=
  ["gusto_list_contractors";
   "gusto_get_contractor";
   "gusto_create_contractor";
   "gusto_update_contractor";
   "gusto_delete_contractor";
   "gusto_list_contractor_payments";
   "gusto_create_contractor_payment";
   "gusto_list_contractor_bank_accounts";
   "gusto_list_contractor_forms"].

Definition registerPayrollTools : list string :=
  ["gusto_list_payrolls";
   "gusto_get_payroll";
   "gusto_calculate_payroll";
   "gusto_submit_payroll";
   "gusto_create_off_cycle_payroll";
   "gusto_list_pay_schedules";
   "gusto_create_pay_schedule";
   "gusto_list_pay_periods";
   "gusto_list_earning_types";
   "gusto_create_earning_type";
   "gusto_list_company_forms";
   "gusto_list_notifications"].

Definition registerBenefitTools : list string :=
  ["gusto_list_supported_benefits";
   "gusto_list_company_benefits";
   "gusto_create_company_benefit";
   "gusto_list_employee_benefits";
   "gusto_create_employee_benefit"].

Definition registerTimeOffTools : list string :=
  ["gusto_list_time_off_policies";
   "gusto_get_time_off_policy";
   "gusto_create_time_off_policy";
   "gusto_add_employees_to_time_off_policy";
   "gusto_get_holiday_pay_policy"].

Definition registerWebhookTools : list string :=
  ["gusto_list_webhook_subscriptions";
   "gusto_create_webhook_subscription";
   "gusto_delete_webhook_subscription";
   "gusto_list_events"].

(** [registerGustoTools]: the eight registrations, in its order. *)
Definition registerGustoTools : list string :=
  registerConnectionTools
  +++ registerCompanyTools
  +++ registerEmployeeTools
  +++ registerContractorTools
  +++ registerPayrollTools
  +++ registerBenefitTools
  +++ registerTimeOffTools
  +++ registerWebhookTools.

End Registry.

(* ====================================================================== *)
(** * Vocabulary for the further properties *)
(* ====================================================================== *)

(** A value that [v?.map(f)] accepts when [f] accepts the elements that
    satisfy [P]: [null], [undefined], or an array of such elements. *)
Definition nullish_or_array_of (P : Js.value -> Prop) (v : Js.value) : Prop :=
  Js.nullish v = true \/ exists xs, v = Js.Arr xs /\ Forall P xs.

(** A wire job that [mapJob] accepts. *)
Definition job_maps (j : Js.value) : Prop :=
  Js.nullish j = false
  /\ nullish_or_array_of (fun c => Js.nullish c = false)
       (Js.prop "compensations" j).

(** A wire employee that [mapEmployee] accepts. *)
Definition employee_maps (e : Js.value) : Prop :=
  Js.nullish e = false
  /\ nullish_or_array_of job_maps (Js.prop "jobs" e)
  /\ nullish_or_array_of (fun g => Js.nullish g = false)
       (Js.prop "garnishments" e).

(** The fields [mapEmployee] copies, domain name first, wire name second. *)
Definition employee_copied_fields : list (string * string) :=
  [("uuid", "uuid");
   ("companyUuid", "company_uuid");
   ("firstName", "first_name");
   ("middleName", "middle_name");
   ("lastName", "last_name");
   ("email", "email");
   ("dateOfBirth", "date_of_birth");
   ("ssn", "ssn");
   ("phone", "phone");
   ("preferredFirstName", "preferred_first_name");
   ("twoPercentShareholder", "two_percent_shareholder");
   ("onboarded", "onboarded");
   ("department", "department");
   ("terminated", "terminated");
   ("terminationDate", "termination_date");
   ("currentEmploymentStatus", "current_employment_status");
   ("workEmail", "work_email");
   ("customFields", "custom_fields");
   ("paymentMethod", "payment_method");
   ("hasDirectDeposit", "has_direct_deposit")].

(** The keys of every employee [mapEmployee] returns. *)
Definition employee_keys : list string :=
  ["uuid"; "companyUuid"; "firstName"; "middleName"; "lastName"; "email";
   "dateOfBirth"; "ssn"; "phone"; "preferredFirstName";
   "twoPercentShareholder"; "onboarded"; "department"; "terminated";
   "terminationDate"; "currentEmploymentStatus"; "workEmail"; "homeAddress";
   "jobs"; "garnishments"; "customFields"; "paymentMethod";
   "hasDirectDeposit"].

(** A computation whose only failure is a [TypeError]. *)
Definition fails_with_type_error {A : Type} (r : result A) : Prop :=
  forall e, r = Throw e -> e = TypeError.

(** Values that are not objects: [null], [undefined], booleans, numbers
    and texts, whose conversion to text cannot throw. *)
Definition texts (values : list Js.value) : Prop :=
  Forall (fun v => is_object v = false) values.

(** The values each table row converts to text. *)
Definition employee_cells (emp : Js.value) : list Js.value :=
  [Js.prop "firstName" emp; Js.prop "lastName" emp; Js.prop "uuid" emp;
   Js.prop "email" emp; Js.prop "currentEmploymentStatus" emp].

Definition contractor_cells (c : Js.value) : list Js.value :=
  [Js.prop "businessName" c; Js.prop "firstName" c; Js.prop "lastName" c;
   Js.prop "uuid" c; Js.prop "type" c; Js.prop "email" c].

Definition payroll_cells (p : Js.value) : list Js.value :=
  [Js.prop "payPeriodStartDate" p; Js.prop "payPeriodEndDate" p;
   Js.opt_member "grossPay" (Js.prop "totals" p);
   Js.prop "uuid" p; Js.prop "payrollUuid" p; Js.prop "checkDate" p].

Definition schedule_cells (schedule : Js.value) : list Js.value :=
  [Js.prop "name" schedule; Js.prop "uuid" schedule;
   Js.prop "frequency" schedule; Js.prop "anchorPayDate" schedule].

Definition company_cells (c : Js.value) : list Js.value :=
  [Js.prop "uuid" c; Js.prop "name" c; Js.prop "ein" c;
   Js.prop "companyStatus" c].

(** The entry a numeric query parameter contributes: one pair when it is
    given and not zero. *)
Definition numeric_entry (key : string) (n : option Z) : URLSearchParams :=
  match n with
  | Some z => if (z =? 0)%Z then [] else [(key, Js.show_number z)]
  | None => []
  end.

(** The entry a boolean query parameter contributes: one pair when it is
    given. *)
Definition flag_entry (key : string) (b : option bool) : URLSearchParams :=
  match b with
  | Some x => [(key, if x then "true" else "false")]
  | None => []
  end.

Module Example.

(** A token-info document with a resource owner. *)
Definition token_info : Js.value :=
  Js.Obj [("resource_owner",
           Js.Obj [("uuid", Js.Str "u-1");
                   ("email", Js.Str "ada@example.com")]);
          ("application_id", Js.Str "app-1")].

(** An employee record with a job that has one compensation. *)
Definition employee_with_job : Js.value :=
  Js.Obj [("uuid", Js.Str "e-1");
          ("first_name", Js.Str "Ada");
          ("unknown_field", Js.Num 1);
          ("jobs",
           Js.Arr [Js.Obj [("uuid", Js.Str "j-1");
                           ("compensations",
                            Js.Arr [Js.Obj [("rate", Js.Str "50.00")]])]])].

End Example.

(* ====================================================================== *)
(** * Serialization of request bodies *)
(* ====================================================================== *)

Section SerializerFacts.

Lemma stringify_at_none (gap indent : string) (v : Js.value) :
  Js.stringify_at gap indent v = None <-> v = Js.Undefined.
Proof.
  split.
  - destruct v as [| |[|]| | | |]; simpl; intro H; try discriminate H; reflexivity.
  - intros ->. reflexivity.
Qed.

Lemma stringify_at_defined (gap indent : string) (v : Js.value) :
  Js.defined v = true -> exists t, Js.stringify_at gap indent v = Some t.
Proof.
  destruct v as [| |[|]| | | |]; simpl; intro H; try discriminate H; eauto.
Qed.

Lemma append_assoc (a b c : string) : (a ++ b) ++ c = a ++ b ++ c.
Proof.
  induction a as [| x a IH]; [reflexivity |]. simpl. rewrite IH. reflexivity.
Qed.

Lemma append_empty (a : string) : a ++ EmptyString = a.
Proof.
  induction a as [| x a IH]; [reflexivity |]. simpl. rewrite IH. reflexivity.
Qed.

Lemma append_cancel (p a b : string) : p ++ a = p ++ b -> a = b.
Proof.
  induction p as [| x p IH]; simpl; intro H; [exact H |].
  injection H as H. apply IH. exact H.
Qed.

(** The text of an object is the text of the object without its
    [undefined] fields. *)
Lemma stringify_at_written (gap indent : string) (fields : list (string * Js.value)) :
  Js.stringify_at gap indent (Js.Obj fields)
  = Js.stringify_at gap indent (Js.Obj (Js.written fields)).
Proof.
  simpl. do 2 f_equal.
  induction fields as [| [k x] rest IH]; [reflexivity |].
  unfold Js.written in *. simpl.
  destruct (Js.defined x) eqn:D.
  - simpl. rewrite IH. reflexivity.
  - destruct x; try discriminate D. simpl. exact IH.
Qed.

Lemma assoc_written_defined (k : string) (fields : list (string * Js.value)) (v : Js.value) :
  Js.assoc k fields = Some v -> Js.defined v = true ->
  Js.assoc k (Js.written fields) = Some v.
Proof.
  induction fields as [| [k' x] rest IH]; simpl; [discriminate |].
  intros H D. unfold Js.written in *. simpl.
  destruct (k' =? k) eqn:E.
  - injection H as ->. rewrite D. simpl. rewrite E. reflexivity.
  - destruct (Js.defined x); simpl; [rewrite E |]; auto.
Qed.

Lemma written_values_defined (k : string) (v : Js.value) (fields : list (string * Js.value)) :
  In (k, v) (Js.written fields) -> In (k, v) fields /\ v <> Js.Undefined.
Proof.
  unfold Js.written. rewrite filter_In. simpl. intros [H D].
  split; [exact H |]. intros ->. discriminate D.
Qed.

End SerializerFacts.

Section GatewayFacts.

Variable fetch : HttpRequest -> FetchOutcome.
Variable JSON_parse : string -> option Js.value.
Variable credentials : TenantCredentials.

Lemma getAuthHeaders_token (token : string) :
  accessToken credentials = Some token -> token <> EmptyString ->
  getAuthHeaders credentials = Ok (auth_headers token).
Proof.
  intros H N. unfold getAuthHeaders. rewrite H.
  destruct (token =? EmptyString) eqn:E; [| reflexivity].
  apply String.eqb_eq in E. contradiction.
Qed.

Lemma getAuthHeaders_missing :
  Worker.token_missing credentials = true ->
  getAuthHeaders credentials = Throw no_credentials.
Proof.
  unfold Worker.token_missing, getAuthHeaders.
  destruct (accessToken credentials) as [token |]; [| reflexivity].
  intros ->. reflexivity.
Qed.

(** With a token, [request] makes exactly one call, the authorized one. *)
Lemma request_calls (token endpoint : string) (options : RequestInit)
  (log : list HttpRequest) :
  accessToken credentials = Some token -> token <> EmptyString ->
  fst (request fetch JSON_parse credentials endpoint options log)
  = log +++ [outbound (auth_headers token) endpoint options].
Proof.
  intros H N. unfold request. rewrite (getAuthHeaders_token token H N).
  destruct (fetch _); reflexivity.
Qed.

(** ... and its outcome is the interpretation of the response. *)
Lemma request_responded (token endpoint : string) (options : RequestInit)
  (log : list HttpRequest) (response : HttpResponse) :
  accessToken credentials = Some token -> token <> EmptyString ->
  fetch (outbound (auth_headers token) endpoint options) = Responded response ->
  request fetch JSON_parse credentials endpoint options log
  = (log +++ [outbound (auth_headers token) endpoint options],
     interpret JSON_parse response).
Proof.
  intros H N F. unfold request. rewrite (getAuthHeaders_token token H N).
  rewrite F. reflexivity.
Qed.

(** Without a token, [request] throws before any call is made. *)
Lemma request_without_token (endpoint : string) (options : RequestInit)
  (log : list HttpRequest) :
  Worker.token_missing credentials = true ->
  request fetch JSON_parse credentials endpoint options log
  = (log, Throw no_credentials).
Proof.
  intro M. unfold request. rewrite (getAuthHeaders_missing M). reflexivity.
Qed.

End GatewayFacts.

Lemma bind_ret {A B : Type} (a : A) (k : A -> Io B) (log : list HttpRequest) :
  bind (ret a) k log = k a log.
Proof. reflexivity. Qed.

Lemma bind_assoc {A B C : Type} (m : Io A) (f : A -> Io B) (g : B -> Io C)
  (log : list HttpRequest) :
  bind (bind m f) g log = bind m (fun x => bind (f x) g) log.
Proof.
  unfold bind. destruct (m log) as [log' [a | e]]; reflexivity.
Qed.

Lemma bind_lift {A B : Type} (m : Io A) (f : A -> result B)
  (log : list HttpRequest) :
  bind m (fun x => lift (f x)) log
  = (fst (m log),
     match snd (m log) with
     | Ok a => f a
     | Throw e => Throw e
     end).
Proof.
  unfold bind, lift. destruct (m log) as [log' [a | e]]; reflexivity.
Qed.

Section NormalizerFacts.

Lemma toWire_absent (k : string) (d : Spec.domain) :
  ~ In k (map (fun f => Spec.snake_case (fst f)) d) ->
  Spec.lookup k (Spec.toWire d) = None.
Proof.
  unfold Spec.toWire, Spec.set_fields.
  induction d as [| [name o] rest IH]; simpl; [reflexivity |].
  intro N. destruct o as [v |]; simpl.
  - destruct (Spec.snake_case name =? k) eqn:E.
    + apply String.eqb_eq in E. exfalso. apply N. left. exact E.
    + apply IH. intro I. apply N. right. exact I.
  - apply IH. intro I. apply N. right. exact I.
Qed.

(** The wire object holds, under the wire name of each domain field, the
    value of the field when it is set and nothing when it is not. *)
Lemma toWire_lookup (d : Spec.domain) :
  NoDup (map (fun f => Spec.snake_case (fst f)) d) ->
  forall aB o, In (aB, o) d ->
    Spec.lookup (Spec.snake_case aB) (Spec.toWire d) = o.
Proof.
  induction d as [| [name o'] rest IH]; simpl; [intros _ aB o [] |].
  intros ND aB o [E | I].
  - injection E as -> ->. inversion ND as [| ? ? N ND']; subst.
    destruct o as [v |].
    + change (Spec.toWire ((aB, Some v) :: rest))
        with ((Spec.snake_case aB, v) :: Spec.toWire rest).
      simpl. rewrite String.eqb_refl. reflexivity.
    + change (Spec.toWire ((aB, None) :: rest)) with (Spec.toWire rest).
      apply toWire_absent. exact N.
  - inversion ND as [| ? ? N ND']; subst.
    assert (Spec.snake_case name <> Spec.snake_case aB) as D.
    { intro E. apply N. rewrite E.
      apply (in_map (fun f => Spec.snake_case (fst f)) rest (aB, o) I). }
    destruct o' as [v |].
    + change (Spec.toWire ((name, Some v) :: rest))
        with ((Spec.snake_case name, v) :: Spec.toWire rest).
      simpl. apply String.eqb_neq in D. rewrite D. apply IH; assumption.
    + change (Spec.toWire ((name, None) :: rest)) with (Spec.toWire rest).
      apply IH; assumption.
Qed.

Lemma update_wire_names (data : EmployeeUpdateInput.t) :
  NoDup (map (fun f => Spec.snake_case (fst f)) (Spec.update_domain data)).
Proof.
  simpl.
  repeat (constructor; [simpl; intuition discriminate |]). constructor.
Qed.

Lemma create_wire_names (data : EmployeeCreateInput.t) :
  NoDup (map (fun f => Spec.snake_case (fst f)) (Spec.create_domain data)).
Proof.
  simpl.
  repeat (constructor; [simpl; intuition discriminate |]). constructor.
Qed.

(** A plain text is written as it is. *)
Lemma escape_plain (s : string) : Spec.plain s = true -> Js.escape s = s.
Proof.
  unfold Spec.plain. induction s as [| c s IH]; simpl; [reflexivity |].
  intro P. apply andb_true_iff in P as [C P]. rewrite (IH P).
  unfold Spec.plain_char in C. unfold Js.escape_char.
  apply andb_true_iff in C as [C B]. apply andb_true_iff in C as [L Q].
  apply Nat.leb_le in L. apply negb_true_iff in Q, B.
  rewrite Q, B.
  destruct (Nat.eqb_spec (nat_of_ascii c) 8); [lia |].
  destruct (Nat.eqb_spec (nat_of_ascii c) 9); [lia |].
  destruct (Nat.eqb_spec (nat_of_ascii c) 10); [lia |].
  destruct (Nat.eqb_spec (nat_of_ascii c) 12); [lia |].
  destruct (Nat.eqb_spec (nat_of_ascii c) 13); [lia |].
  destruct (Nat.ltb_spec (nat_of_ascii c) 32); [lia |].
  reflexivity.
Qed.

(** The text [JSON.stringify] gives for an object literal whose fields are
    texts, flags or [undefined], under plain names: the members of the
    fields that are set. *)
Lemma stringify_literal (d : Spec.domain) :
  Forall (fun f => Spec.plain (fst f) = true) d ->
  Js.stringify (Spec.literal d) = Some (Spec.wire_text (Spec.set_fields d)).
Proof.
  intro P. unfold Js.stringify, Spec.literal, Spec.wire_text. simpl.
  f_equal.
  match goal with
  | |- Js.wrap _ _ _ _ ?parts = _ =>
      assert (parts
              = map (fun kv => Spec.member (fst kv) (snd kv))
                  (Spec.set_fields d)) as ->
  end.
  - unfold Spec.set_fields.
    induction P as [| [k o] rest K _ IH]; [reflexivity |].
    simpl in K. cbn [map flat_map fst snd]. rewrite IH.
    destruct o as [[s | [|]] |]; cbn [Spec.value Js.stringify_at];
      try reflexivity; cbn [List.app map fst snd]; f_equal;
      unfold Spec.member, Js.quote; rewrite (escape_plain k K);
      cbn [Spec.leaf_text]; rewrite ?append_assoc; reflexivity.
  - destruct (map _ (Spec.set_fields d)); reflexivity.
Qed.

Lemma value_text (o : option string) :
  Spec.value (option_map Spec.Text o) = opt_str o.
Proof. destruct o; reflexivity. Qed.

Lemma value_flag (o : option bool) :
  Spec.value (option_map Spec.Flag o) = opt_bool o.
Proof. destruct o; reflexivity. Qed.

(** What [updateEmployee] serializes is the text of [toWire] of its
    input. *)
Lemma updateEmployee_body (data : EmployeeUpdateInput.t) :
  Js.stringify (updateEmployee_payload data)
  = Some (Spec.wire_text (Spec.toWire (Spec.update_domain data))).
Proof.
  unfold Spec.toWire. rewrite <- stringify_literal.
  - unfold Spec.literal, updateEmployee_payload. simpl.
    rewrite !value_text, value_flag. reflexivity.
  - repeat constructor.
Qed.

Lemma createEmployee_body (data : EmployeeCreateInput.t) :
  Js.stringify (createEmployee_payload data)
  = Some (Spec.wire_text (Spec.toWire (Spec.create_domain data))).
Proof.
  unfold Spec.toWire. rewrite <- stringify_literal.
  - unfold Spec.literal, createEmployee_payload. simpl.
    rewrite !value_text, value_flag. reflexivity.
  - repeat constructor.
Qed.

Lemma member_is_not_null (k : string) (v : Spec.leaf) :
  Spec.member k v <> Js.dquote ++ k ++ Js.dquote ++ ":null".
Proof.
  unfold Spec.member. intro E.
  apply append_cancel, append_cancel, append_cancel in E.
  simpl in E. injection E as E.
  destruct v as [s | [|]]; discriminate E.
Qed.

End NormalizerFacts.

(** C1. [updateEmployee] and [createEmployee] send, as the body of their
    single request, the JSON text of [toWire] of their input: between
    braces and separated by commas, one member [a_b = V] for each field
    [aB] that is set to [V], in the order of the input, and nothing at all
    for a field that is [undefined]; no member is ever [a_b = null]. The
    wire object holds [a_b = V] for a field [aB] set to [V] and has no
    [a_b] for a field that is [undefined]. A text without control
    characters, double quotes and backslashes is written between double
    quotes as it is. The same holds of every mutating call whose body is
    an object literal of texts, flags and [undefined] under plain
    names. *)
Theorem mutating_call_body_omits_undefined_fields
  (fetch : HttpRequest -> FetchOutcome)
  (JSON_parse : string -> option Js.value)
  (credentials : TenantCredentials) (token : string)
  (log : list HttpRequest) :
  accessToken credentials = Some token -> token <> EmptyString ->
  (forall (employeeId : string) (data : EmployeeUpdateInput.t),
      fst (updateEmployee fetch JSON_parse credentials employeeId data log)
      = log +++ [{| url := API_BASE_URL ++ "/employees/" ++ employeeId;
                    method := Some "PUT";
                    requestHeaders := auth_headers token;
                    body :=
                      Some (Spec.wire_text
                              (Spec.toWire (Spec.update_domain data))) |}]
      /\ (forall aB o, In (aB, o) (Spec.update_domain data) ->
            Spec.lookup (Spec.snake_case aB)
              (Spec.toWire (Spec.update_domain data)) = o))
  /\ (forall (companyId : string) (data : EmployeeCreateInput.t),
         fst (createEmployee fetch JSON_parse credentials companyId data log)
         = log +++ [{| url := API_BASE_URL ++ "/companies/" ++ companyId
                              ++ "/employees";
                       method := Some "POST";
                       requestHeaders := auth_headers token;
                       body :=
                         Some (Spec.wire_text
                                 (Spec.toWire (Spec.create_domain data))) |}]
         /\ (forall aB o, In (aB, o) (Spec.create_domain data) ->
               Spec.lookup (Spec.snake_case aB)
                 (Spec.toWire (Spec.create_domain data)) = o))
  /\ (forall (endpoint verb : string) (d : Spec.domain),
         Forall (fun f => Spec.plain (fst f) = true) d ->
         fst (request fetch JSON_parse credentials endpoint
                {| initMethod := Some verb;
                   initBody := Js.stringify (Spec.literal d) |} log)
         = log +++ [{| url := API_BASE_URL ++ endpoint;
                       method := Some verb;
                       requestHeaders := auth_headers token;
                       body := Some (Spec.wire_text (Spec.set_fields d)) |}])
  /\ (forall s, Spec.plain s = true -> Js.escape s = s)
  /\ (forall k v,
         Spec.member k v <> Js.dquote ++ k ++ Js.dquote ++ ":null").
Proof.
  intros H N. split; [| split; [| split; [| split]]].
  - intros employeeId data. split.
    + unfold updateEmployee. rewrite bind_lift. simpl.
      rewrite (request_calls fetch JSON_parse credentials token _ _ log H N).
      unfold outbound. simpl. rewrite updateEmployee_body. reflexivity.
    + apply toWire_lookup. apply update_wire_names.
  - intros companyId data. split.
    + unfold createEmployee. rewrite bind_lift. simpl.
      rewrite (request_calls fetch JSON_parse credentials token _ _ log H N).
      unfold outbound. simpl. rewrite createEmployee_body.
      rewrite ?append_assoc. reflexivity.
    + apply toWire_lookup. apply create_wire_names.
  - intros endpoint verb d P.
    rewrite (request_calls fetch JSON_parse credentials token _ _ log H N).
    unfold outbound. simpl. rewrite (stringify_literal d P). reflexivity.
  - apply escape_plain.
  - apply member_is_not_null.
Qed.

(** C1, on a concrete update that sets two fields of eight: the body is
    [{"first_name":"Ada","two_percent_shareholder":true}]. *)
Lemma mutating_call_body_witness :
  fst (updateEmployee
         (Sample.always (Sample.respond 200 [] (Sample.employee "e-1" "Ada")))
         (Sample.parse_known [Sample.employee "e-1" "Ada"])
         Sample.credentials "e-1" Sample.update [])
  = [{| url := API_BASE_URL ++ "/employees/e-1";
        method := Some "PUT";
        requestHeaders := auth_headers "token-1";
        body :=
          Some ("{" ++ Js.dquote ++ "first_name" ++ Js.dquote ++ ":"
                ++ Js.dquote ++ "Ada" ++ Js.dquote ++ ","
                ++ Js.dquote ++ "two_percent_shareholder" ++ Js.dquote
                ++ ":true}") |}]
  /\ Spec.lookup "first_name" (Spec.toWire (Spec.update_domain Sample.update))
     = Some (Spec.Text "Ada")
  /\ Spec.lookup "last_name" (Spec.toWire (Spec.update_domain Sample.update))
     = None.
Proof.
  destruct (mutating_call_body_omits_undefined_fields
              (Sample.always (Sample.respond 200 [] (Sample.employee "e-1" "Ada")))
              (Sample.parse_known [Sample.employee "e-1" "Ada"])
              Sample.credentials "token-1" [] eq_refl
              ltac:(discriminate)) as (U & _).
  destruct (U "e-1" Sample.update) as [call fields].
  split; [exact call | split].
  - exact (fields "firstName" (Some (Spec.Text "Ada")) ltac:(simpl; auto)).
  - exact (fields "lastName" None ltac:(simpl; auto)).
Defined.

Section WorkerFacts.

Variable message : string.
Variable mcp : TenantCredentials -> Worker.Request -> Io Worker.Response.

Lemma token_header_missing (request : Worker.Request) :
  headers_get "X-Gusto-Access-Token" (Worker.headers request) = None
  \/ headers_get "X-Gusto-Access-Token" (Worker.headers request) = Some EmptyString ->
  Worker.token_missing (Worker.parseTenantCredentials request) = true.
Proof.
  unfold Worker.token_missing, Worker.parseTenantCredentials. simpl.
  intros [-> | ->]; reflexivity.
Qed.

(** The body of the 401 response is not the text of any tool error
    result. *)
Lemma unauthorized_is_not_a_tool_error
  (formatErrorForLogging : error -> Js.value) (e e' : error) :
  ~ In (Worker.body (Worker.unauthorized e'))
       (content (formatError formatErrorForLogging e)).
Proof.
  simpl. intros [H | []]. revert H.
  unfold Js.stringify_pretty, Js.stringify. simpl.
  intro H. injection H as H. discriminate H.
Qed.

End WorkerFacts.

(** C2. An inbound request whose access-token header is absent or empty
    makes no outbound call, whatever its route; on the tool-invocation
    route (POST /mcp), the only one that reads credentials, it is answered
    at the transport boundary with the 401 response, the MCP handler is not
    run, and the body is not the text of a tool error result. A client
    built from such credentials would not call upstream either:
    [getAuthHeaders] throws before [fetch] is reached. *)
Theorem missing_access_token_is_rejected_before_any_upstream_call
  (message : string)
  (mcp : TenantCredentials -> Worker.Request -> Io Worker.Response)
  (inbound : Worker.Request) (log : list HttpRequest) :
  headers_get "X-Gusto-Access-Token" (Worker.headers inbound) = None
  \/ headers_get "X-Gusto-Access-Token" (Worker.headers inbound)
     = Some EmptyString ->
  fst (Worker.fetch message mcp inbound log) = log
  /\ (Worker.pathname inbound = "/mcp" -> Worker.method inbound = "POST" ->
      Worker.fetch message mcp inbound log
      = (log, Ok (Worker.unauthorized (MissingCredentialsError message)))
      /\ Worker.status (Worker.unauthorized (MissingCredentialsError message))
         = 401%Z
      /\ forall (formatErrorForLogging : error -> Js.value) (e : error),
           ~ In (Worker.body
                   (Worker.unauthorized (MissingCredentialsError message)))
                (content (formatError formatErrorForLogging e)))
  /\ (forall upstream JSON_parse endpoint options,
         request upstream JSON_parse
           (Worker.parseTenantCredentials inbound) endpoint options log
         = (log, Throw no_credentials)).
Proof.
  intro M. apply token_header_missing in M.
  assert (Worker.validateCredentials message
            (Worker.parseTenantCredentials inbound)
          = Throw (MissingCredentialsError message)) as V.
  { unfold Worker.validateCredentials. rewrite M. reflexivity. }
  split; [| split].
  - unfold Worker.fetch. rewrite V.
    destruct (Worker.pathname inbound =? "/health"); [reflexivity |].
    destruct ((Worker.pathname inbound =? "/mcp")
              && (Worker.method inbound =? "POST")); [reflexivity |].
    destruct (Worker.pathname inbound =? "/sse"); reflexivity.
  - intros P Q. split; [| split].
    + unfold Worker.fetch. rewrite V, P, Q. reflexivity.
    + reflexivity.
    + intros fel e. apply unauthorized_is_not_a_tool_error.
  - intros upstream JSON_parse endpoint options.
    apply request_without_token. exact M.
Qed.

(** C2, on a POST to /mcp that carries no header, served by an MCP handler
    that would otherwise list employees upstream. *)
Lemma missing_access_token_witness :
  Worker.fetch "Missing access token"
    (fun credentials _ =>
       bind (listEmployees
               (Sample.always (Sample.respond 200 [] Sample.two_employees))
               (Sample.parse_known Sample.known) credentials "c-1" None)
            (fun _ => ret {| Worker.status := 200;
                             Worker.headers_out := Worker.json_headers;
                             Worker.body := None |}))
    {| Worker.pathname := "/mcp"; Worker.method := "POST"; Worker.headers := [] |}
    []
  = ([], Ok (Worker.unauthorized (MissingCredentialsError "Missing access token"))).
Proof.
  exact (proj1 (proj1 (proj2
                         (missing_access_token_is_rejected_before_any_upstream_call
                            "Missing access token" _
                            {| Worker.pathname := "/mcp";
                               Worker.method := "POST";
                               Worker.headers := [] |}
                            [] (or_introl eq_refl)))
                  eq_refl eq_refl)).
Defined.

(* ====================================================================== *)
(** * [parseInt] on decimal numerals *)
(* ====================================================================== *)

Section ParseIntFacts.

Lemma digits_value_numeral (d : Decimal.uint) (acc : Z) :
  digits_value acc (NilEmpty.string_of_uint d) = numeral_value acc d.
Proof.
  revert acc. induction d; intro acc; try reflexivity.
  all: cbn [NilEmpty.string_of_uint digits_value numeral_value].
  all: match goal with |- (if ?b then _ else _) = _ =>
         change b with true; cbv iota end.
  all: rewrite IHd; f_equal.
  all: match goal with
       | |- context [Z.of_nat ?n] =>
           let v := eval vm_compute in (Z.of_nat n) in
           change (Z.of_nat n) with v
       end; lia.
Qed.

Lemma numeral_value_acc (d : Decimal.uint) (acc : positive) :
  numeral_value (Zpos acc) d = Zpos (Pos.of_uint_acc d acc).
Proof.
  revert acc. induction d; intro acc; try reflexivity.
  all: cbn [numeral_value Pos.of_uint_acc]; rewrite <- IHd; f_equal; lia.
Qed.

Lemma numeral_value_of_uint (d : Decimal.uint) :
  numeral_value 0 d = Z.of_N (Pos.of_uint d).
Proof.
  induction d; simpl; try reflexivity; try exact IHd;
    apply numeral_value_acc.
Qed.

(** The decimal numeral of a number that is not negative has no space or
    sign before its first digit. *)
Lemma decimal_numeral (n : Z) :
  (0 <= n)%Z ->
  exists d, Js.decimal n = NilZero.string_of_uint d
            /\ Z.of_N (Pos.of_uint d) = n.
Proof.
  intro L. destruct n as [| p | p]; [| | lia].
  - exists (Decimal.D0 Decimal.Nil). split; reflexivity.
  - exists (Pos.to_uint p). split; [reflexivity |].
    rewrite DecimalPos.Unsigned.of_to. reflexivity.
Qed.

Lemma parseInt_numeral (d : Decimal.uint) :
  parseInt (NilZero.string_of_uint d)
  = if (Z.of_N (Pos.of_uint d) <=? 2 ^ 53)%Z
    then Int (Z.of_N (Pos.of_uint d))
    else Rounded (Z.of_N (Pos.of_uint d)).
Proof.
  rewrite <- numeral_value_of_uint.
  destruct d; try reflexivity;
    unfold NilZero.string_of_uint;
    rewrite <- digits_value_numeral; reflexivity.
Qed.

(** [parseInt] reads back the decimal numeral of a number from 0 to 2^53. *)
Lemma parseInt_decimal (n : Z) :
  (0 <= n <= 2 ^ 53)%Z -> parseInt (Js.decimal n) = Int n.
Proof.
  intros [L U]. destruct (decimal_numeral n L) as (d & -> & <-).
  rewrite parseInt_numeral.
  destruct (Z.leb_spec (Z.of_N (Pos.of_uint d)) (2 ^ 53)); [reflexivity | lia].
Qed.

Lemma decimal_not_empty (n : Z) :
  (0 <= n)%Z -> Js.decimal n <> EmptyString.
Proof.
  intro L. destruct (decimal_numeral n L) as (d & -> & _).
  destruct d; discriminate.
Qed.

(** Up to 2^53 [String(n)] is the decimal numeral of [n]. *)
Lemma show_number_decimal (n : Z) :
  (Z.abs n <= 2 ^ 53)%Z -> Js.show_number n = Js.decimal n.
Proof.
  intro L. unfold Js.show_number.
  destruct (Z.leb_spec (Z.abs n) (2 ^ 53)); [reflexivity | lia].
Qed.

(** Below 2^53 a sum or a product is the exact one. *)
Lemma round_double_exact (n : Z) :
  (Z.abs n < 2 ^ 53)%Z -> Js.round_double n = n.
Proof.
  intro L. unfold Js.round_double.
  destruct (Z.ltb_spec (Z.abs n) (2 ^ 53)); [reflexivity | lia].
Qed.

(** Beyond 2^53 rounding keeps the sign and stays beyond 2^53. *)
Lemma round_double_large (n : Z) :
  (2 ^ 53 <= Z.abs n)%Z ->
  exists m, (2 ^ 53 <= m)%Z /\ Js.round_double n = (Z.sgn n * m)%Z.
Proof.
  intro L. unfold Js.round_double.
  destruct (Z.ltb_spec (Z.abs n) (2 ^ 53)) as [B | _]; [lia |].
  set (a := Z.abs n) in *.
  set (e := (Z.log2 a - 52)%Z).
  assert (53 <= Z.log2 a)%Z as G.
  { rewrite <- (Z.log2_pow2 53) by lia. apply Z.log2_le_mono. exact L. }
  assert (0 < a)%Z as A by lia.
  pose proof (Z.log2_spec a A) as [Lo _].
  assert (Z.log2 a = 52 + e)%Z as S by (unfold e; lia).
  rewrite S, Z.pow_add_r in Lo by lia.
  assert (0 < 2 ^ e)%Z as P by (apply Z.pow_pos_nonneg; lia).
  assert (2 <= 2 ^ e)%Z as T.
  { change 2%Z with (2 ^ 1)%Z at 1. apply Z.pow_le_mono_r; lia. }
  assert (2 ^ 52 <= a / 2 ^ e)%Z as Q.
  { apply Z.div_le_lower_bound; [exact P | lia]. }
  eexists. split; [| reflexivity].
  destruct (a mod 2 ^ e <? 2 ^ (e - 1))%Z; [nia |].
  destruct (2 ^ (e - 1) <? a mod 2 ^ e)%Z; [nia |].
  destruct (Z.even (a / 2 ^ e)); nia.
Qed.

Lemma mul_less_than (a b c : Z) :
  Js.safe_integer c ->
  (Js.mul a b <? c)%Z = (a * b <? c)%Z.
Proof.
  unfold Js.safe_integer, Js.MAX_SAFE_INTEGER, Js.mul. intro C.
  destruct (Z.lt_ge_cases (Z.abs (a * b)) (2 ^ 53)) as [E | E].
  - rewrite (round_double_exact _ E). reflexivity.
  - destruct (round_double_large _ E) as (m & M & ->).
    destruct (Z.sgn_spec (a * b)) as [[? G] | [[? G] | [? G]]]; rewrite G;
      destruct (Z.ltb_spec (a * b) c);
      first [apply Z.ltb_lt | apply Z.ltb_ge]; lia.
Qed.

Lemma add_one_safe (n : Z) :
  Js.safe_integer n -> Js.add n 1 = (n + 1)%Z.
Proof.
  unfold Js.safe_integer, Js.MAX_SAFE_INTEGER, Js.add. intro S.
  destruct (Z.eq_dec n (2 ^ 53 - 1)) as [-> | D]; [reflexivity |].
  apply round_double_exact. lia.
Qed.

End ParseIntFacts.

(* ====================================================================== *)
(** * Status classification *)
(* ====================================================================== *)

Section ClassificationFacts.

Variable JSON_parse : string -> option Js.value.

Lemma interpret_429 (response : HttpResponse) :
  status response = 429%Z ->
  interpret JSON_parse response
  = Throw (RateLimitError "Rate limit exceeded"
             (retry_after (headers_get "Retry-After" (responseHeaders response)))).
Proof. intro S. unfold interpret. rewrite S. reflexivity. Qed.

(** A failure status other than 429, 401 and 403 raises a [CrmApiError]
    that keeps the status. *)
Lemma interpret_failure (response : HttpResponse) :
  ok response = false ->
  status response <> 429%Z -> status response <> 401%Z ->
  status response <> 403%Z ->
  interpret JSON_parse response
  = Throw (CrmApiError (failure_message JSON_parse response) (status response)).
Proof.
  intros K A B C. unfold interpret.
  apply Z.eqb_neq in A, B, C. rewrite A, B, C, K. reflexivity.
Qed.

Lemma interpret_404 (response : HttpResponse) :
  status response = 404%Z ->
  interpret JSON_parse response
  = Throw (CrmApiError (failure_message JSON_parse response) 404).
Proof.
  intro S. rewrite interpret_failure; unfold ok; rewrite S;
    try reflexivity; discriminate.
Qed.

(** A success status other than 204 returns the parsed body. *)
Lemma interpret_success (response : HttpResponse) (v : Js.value) :
  ok response = true -> status response <> 204%Z ->
  JSON_parse (text response) = Some v ->
  interpret JSON_parse response = Ok v.
Proof.
  intros K N P. unfold interpret. unfold ok in K.
  apply andb_true_iff in K as [L U].
  apply Z.leb_le in L, U. apply Z.eqb_neq in N.
  assert ((status response =? 429) = false)%Z as -> by (apply Z.eqb_neq; lia).
  assert ((status response =? 401) = false)%Z as -> by (apply Z.eqb_neq; lia).
  assert ((status response =? 403) = false)%Z as -> by (apply Z.eqb_neq; lia).
  unfold ok.
  assert ((200 <=? status response) = true)%Z as -> by (apply Z.leb_le; lia).
  assert ((status response <=? 299) = true)%Z as -> by (apply Z.leb_le; lia).
  simpl. rewrite N, P. reflexivity.
Qed.

(** The message is the first truthy one of the three candidates, then the
    default; a body that is the document [null] makes the first property
    access throw, which gives the default as well. *)
Lemma failure_message_parsed (response : HttpResponse) (errorJson : Js.value) :
  JSON_parse (text response) = Some errorJson ->
  failure_message JSON_parse response
  = Js.or_else (Js.prop "message" errorJson)
      (Js.or_else (Js.prop "error" errorJson)
         (Js.or_else
            (Js.opt_member "message" (Js.opt_first (Js.prop "errors" errorJson)))
            (Js.Str (default_message response)))).
Proof.
  intro P. unfold failure_message, extract_message. rewrite P.
  unfold Js.member.
  destruct errorJson; reflexivity.
Qed.

Lemma failure_message_unparsed (response : HttpResponse) :
  JSON_parse (text response) = None ->
  failure_message JSON_parse response = Js.Str (default_message response).
Proof.
  intro P. unfold failure_message, extract_message. rewrite P. reflexivity.
Qed.

End ClassificationFacts.

Lemma truthy_text (s : string) : s <> EmptyString -> Js.truthy (Js.Str s) = true.
Proof.
  intro N. simpl. destruct (s =? EmptyString) eqn:E; [| reflexivity].
  apply String.eqb_eq in E. contradiction.
Qed.

Lemma handler_catch (formatErrorForLogging : error -> Js.value)
  (body : Io ToolResponse) (log : list HttpRequest) (e : error) :
  snd (body log) = Throw e ->
  handler formatErrorForLogging body log
  = (fst (body log), Ok (formatError formatErrorForLogging e)).
Proof.
  unfold handler, try_catch, ret. destruct (body log) as [log' r]. simpl.
  intros ->. reflexivity.
Qed.

Lemma handler_return (formatErrorForLogging : error -> Js.value)
  (body : Io ToolResponse) (log : list HttpRequest) (r : ToolResponse) :
  snd (body log) = Ok r ->
  handler formatErrorForLogging body log = (fst (body log), Ok r).
Proof.
  unfold handler, try_catch. destruct (body log) as [log' x]. simpl.
  intros ->. reflexivity.
Qed.

Lemma bind_throw {A B : Type} (m : Io A) (k : A -> Io B)
  (log : list HttpRequest) (e : error) :
  snd (m log) = Throw e -> bind m k log = (fst (m log), Throw e).
Proof.
  unfold bind. destruct (m log) as [log' r]. simpl. intros ->. reflexivity.
Qed.

Lemma bind_return {A B : Type} (m : Io A) (k : A -> Io B)
  (log : list HttpRequest) (a : A) :
  snd (m log) = Ok a -> bind m k log = k a (fst (m log)).
Proof.
  unfold bind. destruct (m log) as [log' r]. simpl. intros ->. reflexivity.
Qed.

(** C4. A response with status 429 makes the Gateway fail with a
    RateLimit error that is retryable and carries the Retry-After header
    read by [parseInt], 60 when the header is absent or empty: a header
    that is the decimal numeral of a number [n] from 0 to 2^53 gives [n]
    (30 for the header value 30). *)
Theorem status_429_is_a_retryable_rate_limit
  (fetch : HttpRequest -> FetchOutcome)
  (JSON_parse : string -> option Js.value)
  (credentials : TenantCredentials) (token endpoint : string)
  (options : RequestInit) (log : list HttpRequest) (response : HttpResponse) :
  accessToken credentials = Some token -> token <> EmptyString ->
  fetch (outbound (auth_headers token) endpoint options) = Responded response ->
  status response = 429%Z ->
  exists e,
    snd (request fetch JSON_parse credentials endpoint options log) = Throw e
    /\ ClassifiedError.kind e = RateLimit
    /\ ClassifiedError.retryable e = true
    /\ (headers_get "Retry-After" (responseHeaders response) = None ->
        ClassifiedError.retryAfterSeconds e = Some (Int 60))
    /\ (forall v, headers_get "Retry-After" (responseHeaders response) = Some v ->
                  v <> EmptyString ->
                  ClassifiedError.retryAfterSeconds e = Some (parseInt v))
    /\ (headers_get "Retry-After" (responseHeaders response)
        = Some EmptyString ->
        ClassifiedError.retryAfterSeconds e = Some (Int 60))
    /\ (forall n, (0 <= n <= 2 ^ 53)%Z ->
          headers_get "Retry-After" (responseHeaders response)
          = Some (Js.decimal n) ->
          ClassifiedError.retryAfterSeconds e = Some (Int n))
    /\ (headers_get "Retry-After" (responseHeaders response) = Some "30" ->
        ClassifiedError.retryAfterSeconds e = Some (Int 30)).
Proof.
  intros H N F S.
  rewrite (request_responded fetch JSON_parse credentials token _ _ log response H N F).
  rewrite (interpret_429 JSON_parse response S). simpl.
  eexists. split; [reflexivity |]. simpl. repeat split.
  - intros ->. reflexivity.
  - intros v -> V. simpl.
    destruct (v =? EmptyString) eqn:E; [| reflexivity].
    apply String.eqb_eq in E. contradiction.
  - intros ->. reflexivity.
  - intros n L ->. simpl.
    destruct (Js.decimal n =? EmptyString) eqn:E.
    + apply String.eqb_eq in E.
      destruct (decimal_not_empty n (proj1 L) E).
    + rewrite (parseInt_decimal n L). reflexivity.
  - intros ->. reflexivity.
Qed.

(** C4, on a 429 whose Retry-After header says 30. *)
Lemma status_429_witness :
  exists e,
    snd (request
           (Sample.always (Sample.respond 429 [("Retry-After", "30")] Js.Null))
           (Sample.parse_known Sample.known) Sample.credentials
           "/companies/c-1/employees" GET [])
    = Throw e
    /\ ClassifiedError.kind e = RateLimit
    /\ ClassifiedError.retryable e = true
    /\ ClassifiedError.retryAfterSeconds e = Some (Int 30).
Proof.
  destruct (status_429_is_a_retryable_rate_limit
              (Sample.always (Sample.respond 429 [("Retry-After", "30")] Js.Null))
              (Sample.parse_known Sample.known) Sample.credentials
              "token-1" "/companies/c-1/employees" GET []
              (Sample.respond 429 [("Retry-After", "30")] Js.Null)
              eq_refl ltac:(discriminate) eq_refl eq_refl)
    as (e & thrown & kind & retry & _ & _ & _ & _ & thirty).
  exists e. repeat split; try assumption. apply thirty. reflexivity.
Defined.

(** C5. A failure status other than 429, 401 and 403 makes the Gateway
    fail with an ApiError that is not retryable and keeps the status code.
    Its message is read from the JSON body: the [message] field; failing
    that the [error] field; failing that the [message] of the first element
    of the [errors] array; and the text API error: <status> when the body
    does not parse or has none of the three fields. *)
Theorem other_failure_status_is_an_api_error
  (fetch : HttpRequest -> FetchOutcome)
  (JSON_parse : string -> option Js.value)
  (credentials : TenantCredentials) (token endpoint : string)
  (options : RequestInit) (log : list HttpRequest) (response : HttpResponse) :
  accessToken credentials = Some token -> token <> EmptyString ->
  fetch (outbound (auth_headers token) endpoint options) = Responded response ->
  ok response = false ->
  status response <> 429%Z -> status response <> 401%Z ->
  status response <> 403%Z ->
  exists e,
    snd (request fetch JSON_parse credentials endpoint options log) = Throw e
    /\ ClassifiedError.kind e = ApiError
    /\ ClassifiedError.retryable e = false
    /\ ClassifiedError.statusCode e = Some (status response)
    /\ (forall j s,
          JSON_parse (text response) = Some j ->
          Js.prop "message" j = Js.Str s -> s <> EmptyString ->
          ClassifiedError.message e = s)
    /\ (forall j s,
          JSON_parse (text response) = Some j ->
          Js.truthy (Js.prop "message" j) = false ->
          Js.prop "error" j = Js.Str s -> s <> EmptyString ->
          ClassifiedError.message e = s)
    /\ (forall j item rest s,
          JSON_parse (text response) = Some j ->
          Js.truthy (Js.prop "message" j) = false ->
          Js.truthy (Js.prop "error" j) = false ->
          Js.prop "errors" j = Js.Arr (item :: rest) ->
          Js.prop "message" item = Js.Str s -> s <> EmptyString ->
          ClassifiedError.message e = s)
    /\ (JSON_parse (text response) = None ->
        ClassifiedError.message e
        = "API error: " ++ Js.show_number (status response))
    /\ (forall j,
          JSON_parse (text response) = Some j ->
          Js.prop "message" j = Js.Undefined ->
          Js.prop "error" j = Js.Undefined ->
          Js.prop "errors" j = Js.Undefined ->
          ClassifiedError.message e
          = "API error: " ++ Js.show_number (status response)).
Proof.
  intros H N F K A B C.
  rewrite (request_responded fetch JSON_parse credentials token _ _ log response H N F).
  rewrite (interpret_failure JSON_parse response K A B C).
  eexists. split; [reflexivity |]. simpl.
  split; [reflexivity |]. split; [reflexivity |]. split; [reflexivity |].
  split; [| split; [| split; [| split]]].
  - intros j s P M S. rewrite (failure_message_parsed JSON_parse response j P).
    rewrite M. unfold Js.or_else at 1. rewrite (truthy_text s S). reflexivity.
  - intros j s P M E S. rewrite (failure_message_parsed JSON_parse response j P).
    unfold Js.or_else at 1. rewrite M. rewrite E.
    unfold Js.or_else at 1. rewrite (truthy_text s S). reflexivity.
  - intros j item rest s P M E L I S.
    rewrite (failure_message_parsed JSON_parse response j P).
    unfold Js.or_else at 1. rewrite M.
    unfold Js.or_else at 1. rewrite E. rewrite L.
    assert (Js.opt_member "message" (Js.opt_first (Js.Arr (item :: rest)))
            = Js.Str s) as ->.
    { simpl. destruct item; simpl in I; try discriminate I. exact I. }
    unfold Js.or_else at 1. rewrite (truthy_text s S). reflexivity.
  - intro P. rewrite (failure_message_unparsed JSON_parse response P). reflexivity.
  - intros j P M E L. rewrite (failure_message_parsed JSON_parse response j P).
    rewrite M, E, L. reflexivity.
Qed.

(** C5, on a 500 whose body carries a [message]. *)
Lemma other_failure_status_witness :
  exists e,
    snd (request
           (Sample.always (Sample.respond 500 [] Sample.not_found))
           (Sample.parse_known Sample.known) Sample.credentials
           "/employees/e-1" GET [])
    = Throw e
    /\ ClassifiedError.kind e = ApiError
    /\ ClassifiedError.retryable e = false
    /\ ClassifiedError.statusCode e = Some 500%Z
    /\ ClassifiedError.message e = "Not found".
Proof.
  destruct (other_failure_status_is_an_api_error
              (Sample.always (Sample.respond 500 [] Sample.not_found))
              (Sample.parse_known Sample.known) Sample.credentials
              "token-1" "/employees/e-1" GET []
              (Sample.respond 500 [] Sample.not_found)
              eq_refl ltac:(discriminate) eq_refl eq_refl
              ltac:(discriminate) ltac:(discriminate) ltac:(discriminate))
    as (e & thrown & kind & retry & code & from_message & _).
  exists e. repeat split; try assumption.
  apply (from_message Sample.not_found "Not found");
    [reflexivity | reflexivity | discriminate].
Defined.

(* ====================================================================== *)
(** * Recovery of a missing holiday pay policy *)
(* ====================================================================== *)

Section HolidayFacts.

Variable fetch : HttpRequest -> FetchOutcome.
Variable JSON_parse : string -> option Js.value.
Variable formatErrorForLogging : error -> Js.value.
Variable credentials : TenantCredentials.
Variable token : string.

Hypothesis has_token : accessToken credentials = Some token.
Hypothesis token_not_empty : token <> EmptyString.

Lemma request_404 (endpoint : string) (options : RequestInit)
  (log : list HttpRequest) (response : HttpResponse) :
  fetch (outbound (auth_headers token) endpoint options) = Responded response ->
  status response = 404%Z ->
  request fetch JSON_parse credentials endpoint options log
  = (log +++ [outbound (auth_headers token) endpoint options],
     Throw (CrmApiError (failure_message JSON_parse response) 404)).
Proof.
  intros F S.
  rewrite (request_responded fetch JSON_parse credentials token _ _ log response
             has_token token_not_empty F).
  rewrite (interpret_404 JSON_parse response S). reflexivity.
Qed.

Lemma getHolidayPayPolicy_404 (companyId : string) (log : list HttpRequest)
  (response : HttpResponse) :
  fetch (outbound (auth_headers token)
           ("/companies/" ++ companyId ++ "/holiday_pay_policy") GET)
  = Responded response ->
  status response = 404%Z ->
  getHolidayPayPolicy fetch JSON_parse credentials companyId log
  = (log +++ [outbound (auth_headers token)
                ("/companies/" ++ companyId ++ "/holiday_pay_policy") GET],
     Ok Js.Null).
Proof.
  intros F S. unfold getHolidayPayPolicy, try_catch.
  rewrite bind_lift. rewrite (request_404 _ _ log response F S). reflexivity.
Qed.

(** A tool whose client method awaits [request] and goes on with the body
    turns a thrown error into the error result. *)
Lemma handler_of_failed_request (endpoint : string) (options : RequestInit)
  (k : Js.value -> Io ToolResponse) (log : list HttpRequest) (e : error) :
  snd (request fetch JSON_parse credentials endpoint options log) = Throw e ->
  snd (handler formatErrorForLogging
         (bind (request fetch JSON_parse credentials endpoint options) k) log)
  = Ok (formatError formatErrorForLogging e).
Proof.
  intro T. rewrite (handler_catch formatErrorForLogging _ log e).
  - reflexivity.
  - rewrite (bind_throw _ k log e T). reflexivity.
Qed.

(** [testConnection] never throws: a failure of its call is reported as
    data, under [connected: false]. *)
Lemma testConnection_reports_a_failure_as_data (log : list HttpRequest)
  (e : error) :
  snd (request fetch JSON_parse credentials "/token_info" GET log) = Throw e ->
  snd (testConnection fetch JSON_parse credentials log)
  = Ok (Js.Obj [("connected", Js.Bool false);
                ("message", Js.Str (ClassifiedError.message e))]).
Proof.
  intro T. unfold testConnection, try_catch, getTokenInfo.
  rewrite (bind_throw _ _ log e).
  - reflexivity.
  - rewrite bind_lift. simpl. rewrite T. reflexivity.
Qed.

End HolidayFacts.

(** C3. On the holiday-pay-policy read path a 404 is recovered:
    [getHolidayPayPolicy] returns [null] and the tool answers with the
    message No holiday pay policy found, with no error flag. At every
    endpoint a 404 makes the Gateway throw an ApiError with status code
    404, and a tool whose client method awaits the Gateway (such as
    [gusto_get_employee]) answers with the error-flagged result of
    [formatError]. *)
Theorem holiday_pay_policy_404_is_null_and_other_404_is_an_api_error
  (fetch : HttpRequest -> FetchOutcome)
  (JSON_parse : string -> option Js.value)
  (formatErrorForLogging : error -> Js.value)
  (credentials : TenantCredentials) (token : string)
  (log : list HttpRequest) :
  accessToken credentials = Some token -> token <> EmptyString ->
  (forall companyId format response,
      fetch (outbound (auth_headers token)
               ("/companies/" ++ companyId ++ "/holiday_pay_policy") GET)
      = Responded response ->
      status response = 404%Z ->
      snd (getHolidayPayPolicy fetch JSON_parse credentials companyId log)
      = Ok Js.Null
      /\ snd (gusto_get_holiday_pay_policy fetch JSON_parse
                formatErrorForLogging credentials companyId format log)
         = Ok {| content :=
                   [Js.stringify_pretty
                      (Js.Obj [("message",
                                Js.Str "No holiday pay policy found")])];
                 isError := None |})
  /\ (forall endpoint options response,
         fetch (outbound (auth_headers token) endpoint options)
         = Responded response ->
         status response = 404%Z ->
         exists e,
           snd (request fetch JSON_parse credentials endpoint options log)
           = Throw e
           /\ ClassifiedError.kind e = ApiError
           /\ ClassifiedError.statusCode e = Some 404%Z
           /\ isError (formatError formatErrorForLogging e) = Some true
           /\ forall k : Js.value -> Io ToolResponse,
                snd (handler formatErrorForLogging
                       (bind (request fetch JSON_parse credentials
                                endpoint options) k) log)
                = Ok (formatError formatErrorForLogging e))
  /\ (forall employeeId format response,
         fetch (outbound (auth_headers token) ("/employees/" ++ employeeId) GET)
         = Responded response ->
         status response = 404%Z ->
         exists e,
           snd (gusto_get_employee fetch JSON_parse formatErrorForLogging
                  credentials employeeId format log)
           = Ok (formatError formatErrorForLogging e)
           /\ ClassifiedError.kind e = ApiError
           /\ ClassifiedError.statusCode e = Some 404%Z).
Proof.
  intros H N. split; [| split].
  - intros companyId format response F S.
    pose proof (getHolidayPayPolicy_404 fetch JSON_parse credentials token H N
                  companyId log response F S) as G.
    split; [rewrite G; reflexivity |].
    unfold gusto_get_holiday_pay_policy.
    rewrite (handler_return formatErrorForLogging _ log
               (text_response
                  (Js.Obj [("message", Js.Str "No holiday pay policy found")]))).
    + reflexivity.
    + unfold bind. rewrite G. reflexivity.
  - intros endpoint options response F S.
    pose proof (request_404 fetch JSON_parse credentials token H N
                  endpoint options log response F S) as R.
    exists (CrmApiError (failure_message JSON_parse response) 404).
    split; [rewrite R; reflexivity |].
    repeat split.
    intro k.
    apply (handler_of_failed_request fetch JSON_parse formatErrorForLogging
             credentials endpoint options k log).
    rewrite R. reflexivity.
  - intros employeeId format response F S.
    pose proof (request_404 fetch JSON_parse credentials token H N
                  ("/employees/" ++ employeeId) GET log response F S) as R.
    exists (CrmApiError (failure_message JSON_parse response) 404).
    split; [| split; reflexivity].
    unfold gusto_get_employee.
    rewrite (handler_catch formatErrorForLogging _ log
               (CrmApiError (failure_message JSON_parse response) 404)).
    + reflexivity.
    + rewrite (bind_throw _ _ log
                 (CrmApiError (failure_message JSON_parse response) 404)).
      * reflexivity.
      * unfold getEmployee. rewrite bind_lift. rewrite R. reflexivity.
Qed.

(** C3, on a transport that answers 404 to every call. *)
Lemma holiday_pay_policy_404_witness :
  snd (gusto_get_holiday_pay_policy
         (Sample.always (Sample.respond 404 [] Sample.not_found))
         (Sample.parse_known Sample.known) Sample.details
         Sample.credentials "c-1" json [])
  = Ok {| content :=
            [Js.stringify_pretty
               (Js.Obj [("message", Js.Str "No holiday pay policy found")])];
          isError := None |}
  /\ exists e,
       snd (gusto_get_employee
              (Sample.always (Sample.respond 404 [] Sample.not_found))
              (Sample.parse_known Sample.known) Sample.details
              Sample.credentials "e-1" json [])
       = Ok (formatError Sample.details e)
       /\ ClassifiedError.kind e = ApiError
       /\ ClassifiedError.statusCode e = Some 404%Z.
Proof.
  destruct (holiday_pay_policy_404_is_null_and_other_404_is_an_api_error
              (Sample.always (Sample.respond 404 [] Sample.not_found))
              (Sample.parse_known Sample.known) Sample.details
              Sample.credentials "token-1" [] eq_refl ltac:(discriminate))
    as (holiday & _ & employee).
  split.
  - exact (proj2 (holiday "c-1" json
                    (Sample.respond 404 [] Sample.not_found) eq_refl eq_refl)).
  - exact (employee "e-1" json
             (Sample.respond 404 [] Sample.not_found) eq_refl eq_refl).
Defined.

(* ====================================================================== *)
(** * Listing employees *)
(* ====================================================================== *)

Lemma map_result_length (f : Js.value -> result Js.value)
  (xs ys : list Js.value) :
  map_result f xs = Ok ys -> List.length ys = List.length xs.
Proof.
  revert ys. induction xs as [| x rest IH]; simpl; intros ys H.
  - injection H as <-. reflexivity.
  - destruct (f x) as [y | e]; [| discriminate H].
    destruct (map_result f rest) as [more | e]; [| discriminate H].
    injection H as <-. simpl. rewrite (IH more eq_refl). reflexivity.
Qed.

Section ListingFacts.

Variable fetch : HttpRequest -> FetchOutcome.
Variable JSON_parse : string -> option Js.value.
Variable credentials : TenantCredentials.
Variable token : string.

Hypothesis has_token : accessToken credentials = Some token.
Hypothesis token_not_empty : token <> EmptyString.

(** The one call [listEmployees] makes. *)
Lemma listEmployees_calls (companyId : string)
  (params : option EmployeeListParams.t) (log : list HttpRequest) :
  fst (listEmployees fetch JSON_parse credentials companyId params log)
  = log +++ [outbound (auth_headers token)
               (listEmployees_endpoint companyId params) GET].
Proof.
  unfold listEmployees.
  pose proof (request_calls fetch JSON_parse credentials token
                (listEmployees_endpoint companyId params) GET log
                has_token token_not_empty) as C.
  unfold bind at 1.
  destruct (request fetch JSON_parse credentials _ GET log) as [log' [data | e]];
    simpl in C; subst log'; [| reflexivity].
  unfold bind, lift, ret.
  destruct (array_map mapEmployee data); reflexivity.
Qed.

(** The page [listEmployees] returns for a page of records that map. *)
Lemma listEmployees_page (companyId : string)
  (params : option EmployeeListParams.t) (log : list HttpRequest)
  (response : HttpResponse) (records items : list Js.value) :
  fetch (outbound (auth_headers token)
           (listEmployees_endpoint companyId params) GET)
  = Responded response ->
  ok response = true -> status response <> 204%Z ->
  JSON_parse (text response) = Some (Js.Arr records) ->
  map_result mapEmployee records = Ok items ->
  snd (listEmployees fetch JSON_parse credentials companyId params log)
  = Ok {| PaginatedResponse.items := items;
          PaginatedResponse.count := Z.of_nat (List.length records);
          PaginatedResponse.total := None;
          PaginatedResponse.hasMore :=
            (Z.of_nat (List.length records)
             =? num_or (requested_per params) 25)%Z;
          PaginatedResponse.nextPage :=
            if (Z.of_nat (List.length records)
                =? num_or (requested_per params) 25)%Z
            then Some (Js.add (num_or (requested_page params) 1) 1)
            else None |}.
Proof.
  intros F K N P M. unfold listEmployees, bind.
  rewrite (request_responded fetch JSON_parse credentials token _ _ log response
             has_token token_not_empty F).
  rewrite (interpret_success JSON_parse response (Js.Arr records) K N P).
  unfold lift, array_map. rewrite M. unfold ret. simpl.
  rewrite (map_result_length mapEmployee records items M). reflexivity.
Qed.

End ListingFacts.

(** C6. When the upstream page holds exactly the requested page size
    ([per], 25 when not given) [listEmployees] answers [hasMore = true] and
    [nextPage = page + 1] ([page] being 1 when not given); when it holds
    fewer it answers [hasMore = false] and no [nextPage]. [num_or n d] is
    the [n || d] of the code: [n] when it is given and not zero, else [d].
    The sum is the sum of two numbers ([Js.add]), which is the exact sum
    [page + 1] as long as that stays below 2^53 in size. *)
Theorem full_page_has_more_and_short_page_has_not
  (fetch : HttpRequest -> FetchOutcome)
  (JSON_parse : string -> option Js.value)
  (credentials : TenantCredentials) (token companyId : string)
  (params : option EmployeeListParams.t) (log : list HttpRequest)
  (response : HttpResponse) (records items : list Js.value) :
  accessToken credentials = Some token -> token <> EmptyString ->
  fetch (outbound (auth_headers token)
           (listEmployees_endpoint companyId params) GET)
  = Responded response ->
  ok response = true -> status response <> 204%Z ->
  JSON_parse (text response) = Some (Js.Arr records) ->
  map_result mapEmployee records = Ok items ->
  exists page,
    snd (listEmployees fetch JSON_parse credentials companyId params log)
    = Ok page
    /\ PaginatedResponse.items page = items
    /\ (Z.of_nat (List.length records) = num_or (requested_per params) 25 ->
        PaginatedResponse.hasMore page = true
        /\ PaginatedResponse.nextPage page
           = Some (Js.add (num_or (requested_page params) 1) 1)
        /\ ((Z.abs (num_or (requested_page params) 1 + 1) < 2 ^ 53)%Z ->
            PaginatedResponse.nextPage page
            = Some (num_or (requested_page params) 1 + 1)%Z))
    /\ ((Z.of_nat (List.length records) < num_or (requested_per params) 25)%Z ->
        PaginatedResponse.hasMore page = false
        /\ PaginatedResponse.nextPage page = None)
    /\ num_or None 25 = 25%Z
    /\ num_or None 1 = 1%Z
    /\ (forall n, n <> 0%Z -> forall d, num_or (Some n) d = n).
Proof.
  intros H N F K S P M.
  eexists. split.
  { apply (listEmployees_page fetch JSON_parse credentials token H N
             companyId params log response records items F K S P M). }
  simpl. split; [reflexivity |]. split; [| split; [| split; [| split]]].
  - intros ->. rewrite Z.eqb_refl. split; [reflexivity |].
    split; [reflexivity |]. intro E. unfold Js.add.
    rewrite (round_double_exact _ E). reflexivity.
  - intro L.
    assert ((Z.of_nat (List.length records)
             =? num_or (requested_per params) 25)%Z = false) as ->
      by (apply Z.eqb_neq; lia).
    split; reflexivity.
  - reflexivity.
  - reflexivity.
  - intros n D d. unfold num_or. apply Z.eqb_neq in D. rewrite D. reflexivity.
Qed.

(** C6, on a page of two employees requested with [per = 2]. *)
Lemma full_page_witness :
  exists page,
    snd (listEmployees
           (Sample.always (Sample.respond 200 [] Sample.two_employees))
           (Sample.parse_known Sample.known) Sample.credentials "c-1"
           (Some {| EmployeeListParams.page := None;
                    EmployeeListParams.per := Some 2%Z;
                    EmployeeListParams.terminated := None |}) [])
    = Ok page
    /\ PaginatedResponse.hasMore page = true
    /\ PaginatedResponse.nextPage page = Some 2%Z.
Proof.
  destruct (full_page_has_more_and_short_page_has_not
              (Sample.always (Sample.respond 200 [] Sample.two_employees))
              (Sample.parse_known Sample.known) Sample.credentials
              "token-1" "c-1"
              (Some {| EmployeeListParams.page := None;
                       EmployeeListParams.per := Some 2%Z;
                       EmployeeListParams.terminated := None |}) []
              (Sample.respond 200 [] Sample.two_employees)
              [Sample.employee "e-1" "Ada"; Sample.employee "e-2" "Grace"]
              _
              eq_refl ltac:(discriminate) eq_refl eq_refl ltac:(discriminate)
              eq_refl eq_refl)
    as (page & returned & _ & full & _).
  exists page. split; [exact returned |].
  destruct (full eq_refl) as (more & _ & next).
  split; [exact more |]. apply next. reflexivity.
Defined.

Lemma handler_log (formatErrorForLogging : error -> Js.value)
  (body : Io ToolResponse) (log : list HttpRequest) :
  fst (handler formatErrorForLogging body log) = fst (body log).
Proof.
  unfold handler, try_catch, ret. destruct (body log) as [log' [r | e]];
    reflexivity.
Qed.




(* ====================================================================== *)
(** * The pagination helper *)
(* ====================================================================== *)

(** C7, as stated, fails on a cap below the default page size: with no
    page size requested and [maxPer = 10] the helper returns 10, not 25. *)
Lemma default_page_size_is_clamped_too :
  NormalizedParams.per
    (Pagination.normalizePaginationParams
       (Some {| PaginationParams.page := None; PaginationParams.per := None |})
       (Some 10%Z))
  = 10%Z
  /\ NormalizedParams.per
       (Pagination.normalizePaginationParams
          (Some {| PaginationParams.page := None; PaginationParams.per := None |})
          (Some 10%Z))
     <> 25%Z.
Proof. split; [reflexivity | discriminate]. Qed.

(** C7, amended. [normalizePaginationParams(params, maxPer)] returns
    [per = min(requested, maxPer)] when a non-zero page size is requested
    and [per = min(25, maxPer)] when none is (or 0 is), which is 25 as soon
    as [maxPer] is at least 25; the returned [per] never exceeds [maxPer]
    (100 when left out); the page is passed through. In particular
    [{per: 500}] with cap 100 gives 100 and [{}] with cap 100 gives 25. *)
Theorem normalized_per_is_clamped_to_the_cap
  (params : option PaginationParams.t) (maxPer : option Z) :
  NormalizedParams.per (Pagination.normalizePaginationParams params maxPer)
  = Z.min (num_or (Pagination.per_of params) 25) (Pagination.cap maxPer)
  /\ (NormalizedParams.per (Pagination.normalizePaginationParams params maxPer)
      <= Pagination.cap maxPer)%Z
  /\ (forall p, Pagination.per_of params = Some p -> p <> 0%Z ->
        NormalizedParams.per (Pagination.normalizePaginationParams params maxPer)
        = Z.min p (Pagination.cap maxPer))
  /\ (Pagination.per_of params = None \/ Pagination.per_of params = Some 0%Z ->
      NormalizedParams.per (Pagination.normalizePaginationParams params maxPer)
      = Z.min 25 (Pagination.cap maxPer))
  /\ (Pagination.per_of params = None \/ Pagination.per_of params = Some 0%Z ->
      (25 <= Pagination.cap maxPer)%Z ->
      NormalizedParams.per (Pagination.normalizePaginationParams params maxPer)
      = 25%Z)
  /\ NormalizedParams.page (Pagination.normalizePaginationParams params maxPer)
     = Pagination.page_of params
  /\ NormalizedParams.per
       (Pagination.normalizePaginationParams
          (Some {| PaginationParams.page := None;
                   PaginationParams.per := Some 500%Z |}) (Some 100%Z))
     = 100%Z
  /\ NormalizedParams.per
       (Pagination.normalizePaginationParams
          (Some {| PaginationParams.page := None;
                   PaginationParams.per := None |}) (Some 100%Z))
     = 25%Z.
Proof.
  assert (NormalizedParams.per
            (Pagination.normalizePaginationParams params maxPer)
          = Z.min (num_or (Pagination.per_of params) 25) (Pagination.cap maxPer)) as E.
  { destruct maxPer; reflexivity. }
  split; [exact E |]. rewrite E.
  split; [apply Z.le_min_r |].
  split; [| split; [| split; [| split; [| split]]]].
  - intros p -> D. unfold num_or. apply Z.eqb_neq in D. rewrite D. reflexivity.
  - intros [-> | ->]; reflexivity.
  - intros [-> | ->] L; simpl; apply Z.min_l; exact L.
  - destruct maxPer; reflexivity.
  - reflexivity.
  - reflexivity.
Qed.



(* ====================================================================== *)
(** * Markdown for an empty page *)
(* ====================================================================== *)

Lemma empty_items_is_paginated (data : Js.value) :
  Js.prop "items" data = Js.Arr [] ->
  isPaginatedResponse data = true /\ items_of data = [].
Proof.
  intro P. unfold items_of. rewrite P. split; [| reflexivity].
  destruct data; simpl in P; try discriminate P.
  simpl. destruct (Js.assoc "items" fields); [| discriminate P].
  rewrite P. reflexivity.
Qed.

Section TextFacts.

Lemma one_line_append (a b : string) :
  one_line (a ++ b) = one_line a && one_line b.
Proof.
  unfold one_line. induction a as [| x a IH]; [reflexivity |].
  simpl. rewrite IH. rewrite andb_assoc. reflexivity.
Qed.

Lemma split_from_one_line (a current rest : string) :
  one_line a = true ->
  split_from current (a ++ rest) = split_from (current ++ a) rest.
Proof.
  revert current. induction a as [| x a IH]; intros current L.
  - rewrite append_empty. reflexivity.
  - unfold one_line in L. simpl in L. apply andb_true_iff in L as [X L].
    apply negb_true_iff in X. simpl. rewrite X.
    rewrite (IH _ L). rewrite append_assoc. reflexivity.
Qed.

(** Splitting the join of lines that hold no line feed gives the lines
    back. *)
Lemma split_join_lines (line : string) (more : list string) :
  Forall (fun l => one_line l = true) (line :: more) ->
  split_lines (join_lines (line :: more)) = line :: more.
Proof.
  unfold split_lines, join_lines. revert line.
  induction more as [| next more IH]; intros line A.
  - inversion A as [| ? ? L _]; subst. simpl.
    rewrite <- (append_empty line) at 1.
    rewrite (split_from_one_line line _ _ L). reflexivity.
  - inversion A as [| ? ? L A']; subst.
    change (String.concat Js.nl (line :: next :: more))
      with (line ++ Js.nl ++ String.concat Js.nl (next :: more)).
    rewrite (split_from_one_line line _ _ L). simpl.
    f_equal. apply IH. exact A'.
Qed.

Lemma uint_one_line (d : Decimal.uint) :
  one_line (NilEmpty.string_of_uint d) = true.
Proof.
  induction d; simpl; try reflexivity; exact IHd.
Qed.

(** A decimal numeral holds no line feed and does not start with a bar. *)
Lemma decimal_one_line (n : Z) : one_line (Js.decimal n) = true.
Proof.
  unfold Js.decimal.
  destruct (Z.to_int n) as [d | d]; unfold NilZero.string_of_int.
  - destruct d; try reflexivity; apply uint_one_line.
  - change (one_line (String "-" (NilZero.string_of_uint d)) = true).
    destruct d; try reflexivity; apply uint_one_line.
Qed.

Lemma upper_char_of_letter (c : ascii) :
  is_letter c = true -> (nat_of_ascii (upper_char c) =? 10)%nat = false.
Proof.
  destruct c as [[|] [|] [|] [|] [|] [|] [|] [|]];
    intro L; try discriminate L; reflexivity.
Qed.

Lemma letter_one_line (c : ascii) :
  is_letter c = true -> (nat_of_ascii c =? 10)%nat = false.
Proof.
  destruct c as [[|] [|] [|] [|] [|] [|] [|] [|]];
    intro L; try discriminate L; reflexivity.
Qed.

Lemma letters_one_line (s : string) : letters s = true -> one_line s = true.
Proof.
  unfold letters, one_line. induction s as [| c s IH]; [reflexivity |].
  simpl. intro L. apply andb_true_iff in L as [C L].
  rewrite (letter_one_line c C). simpl. apply IH. exact L.
Qed.

Lemma capitalize_one_line (s : string) :
  letters s = true -> one_line (capitalize s) = true.
Proof.
  destruct s as [| c s]; [reflexivity |].
  unfold letters. simpl. intro L. apply andb_true_iff in L as [C L].
  unfold one_line. simpl. rewrite (upper_char_of_letter c C). simpl.
  apply (letters_one_line s L).
Qed.

End TextFacts.

(** C9. A paginated collection whose [items] array is empty is rendered in
    Markdown as this text: the heading, a blank line, the counts, the line
    that says more is available when it is, a blank line, and the notice
    No items found. The lines of the text are these and no other, none of
    them is a table row, and the last one is the notice: there is no
    table, not even an empty one. The entity type is a name made of
    letters and the numbers of the page are safe integers. *)
Theorem empty_page_renders_a_notice_and_no_table
  (r : PaginatedResponse.t) (entityType : string) :
  PaginatedResponse.items r = [] ->
  letters entityType = true ->
  safe_numbers r ->
  exists text counts more,
    counts
    = match PaginatedResponse.total r with
      | Some total =>
          "**Total:** " ++ Js.decimal total ++ " | **Showing:** "
          ++ Js.decimal (PaginatedResponse.count r)
      | None => "**Showing:** " ++ Js.decimal (PaginatedResponse.count r)
      end
    /\ more
       = "**More available:** Yes (page: "
         ++ match PaginatedResponse.nextPage r with
            | Some next => Js.decimal next
            | None => "undefined"
            end
         ++ ")"
    /\ formatAsMarkdown (paginated_object r) entityType = Ok text
    /\ formatResponse (paginated_object r) markdown entityType
       = Ok {| content := [Some text]; isError := None |}
    /\ (PaginatedResponse.hasMore r = false ->
        text = "## " ++ capitalize entityType ++ Js.nl ++ Js.nl
               ++ counts ++ Js.nl ++ Js.nl ++ "_No items found._"
        /\ split_lines text
           = ["## " ++ capitalize entityType; EmptyString; counts;
              EmptyString; "_No items found._"])
    /\ (PaginatedResponse.hasMore r = true ->
        text = "## " ++ capitalize entityType ++ Js.nl ++ Js.nl
               ++ counts ++ Js.nl ++ more ++ Js.nl ++ Js.nl
               ++ "_No items found._"
        /\ split_lines text
           = ["## " ++ capitalize entityType; EmptyString; counts; more;
              EmptyString; "_No items found._"])
    /\ Forall (fun line => is_table_row line = false) (split_lines text)
    /\ last (split_lines text) EmptyString = "_No items found._".
Proof.
  intros I L (Sc & St & Sn).
  destruct r as [items count total hasMore nextPage]. simpl in *. subst items.
  assert (forall n, Js.safe_integer n -> Js.show_number n = Js.decimal n) as D.
  { intros n B. apply show_number_decimal.
    unfold Js.safe_integer, Js.MAX_SAFE_INTEGER in B. lia. }
  set (heading := "## " ++ capitalize entityType).
  set (counts := match total with
                 | Some t =>
                     "**Total:** " ++ Js.decimal t ++ " | **Showing:** "
                     ++ Js.decimal count
                 | None => "**Showing:** " ++ Js.decimal count
                 end).
  set (more := "**More available:** Yes (page: "
               ++ match nextPage with
                  | Some next => Js.decimal next
                  | None => "undefined"
                  end ++ ")").
  set (lines := [heading; EmptyString; counts]
                +++ (if hasMore then [more] else [])
                +++ [EmptyString; "_No items found._"]).
  assert (formatAsMarkdown
            (paginated_object
               {| PaginatedResponse.items := [];
                  PaginatedResponse.count := count;
                  PaginatedResponse.total := total;
                  PaginatedResponse.hasMore := hasMore;
                  PaginatedResponse.nextPage := nextPage |}) entityType
          = Ok (join_lines lines)) as M.
  { unfold formatAsMarkdown, formatPaginatedAsMarkdown, paginated_header,
      paginated_object, lines, counts, more, heading.
    cbn [isPaginatedResponse Js.assoc String.eqb Ascii.eqb Bool.eqb
         PaginatedResponse.items PaginatedResponse.count
         PaginatedResponse.total PaginatedResponse.hasMore
         PaginatedResponse.nextPage items_of Js.prop].
    unfold string_of. cbn [Js.to_string Js.primitive_text and_then].
    rewrite (D count Sc).
    destruct total as [t |]; destruct hasMore;
      destruct nextPage as [n |];
      cbn [opt_num Js.defined Js.truthy Js.to_string Js.primitive_text
           and_then];
      rewrite ?(D t (St t eq_refl)), ?(D n (Sn n eq_refl));
      reflexivity. }
  assert (Forall (fun l => one_line l = true) lines) as O.
  { assert (one_line heading = true) as Oh.
    { unfold heading. rewrite one_line_append.
      rewrite (capitalize_one_line entityType L). reflexivity. }
    assert (one_line counts = true) as Oc.
    { unfold counts. destruct total as [t |];
        rewrite !one_line_append, !decimal_one_line; reflexivity. }
    assert (one_line more = true) as Om.
    { unfold more. destruct nextPage as [n |];
        rewrite !one_line_append, ?decimal_one_line; reflexivity. }
    unfold lines. destruct hasMore; repeat constructor; assumption. }
  assert (split_lines (join_lines lines) = lines) as S.
  { unfold lines in *. apply split_join_lines. exact O. }
  exists (join_lines lines), counts, more.
  split; [reflexivity |]. split; [reflexivity |]. split; [exact M |].
  split; [unfold formatResponse; rewrite M; reflexivity |].
  split; [| split; [| split]].
  - intros ->. split; [| exact S].
    unfold lines, join_lines, heading. simpl.
    rewrite ?append_assoc. reflexivity.
  - intros ->. split; [| exact S].
    unfold lines, join_lines, heading. simpl.
    rewrite ?append_assoc. reflexivity.
  - rewrite S. unfold lines, heading, counts, more.
    destruct total, hasMore; repeat constructor.
  - rewrite S. unfold lines. destruct hasMore; reflexivity.
Qed.

(** C9, on the empty response of the pagination helper, rendered as
    employees: where a table of no employees would have been two rows of
    bars, the text is the heading, the count and the notice. *)
Lemma empty_page_witness :
  formatAsMarkdown (paginated_object Pagination.emptyPaginatedResponse)
    "employees"
  = Ok ("## Employees" ++ Js.nl ++ Js.nl ++ "**Showing:** 0" ++ Js.nl ++ Js.nl
        ++ "_No items found._")
  /\ formatEmployeesTable []
     = Ok ("| UUID | Name | Email | Status | Onboarded |" ++ Js.nl
           ++ "|---|---|---|---|---|").
Proof.
  split; [| reflexivity].
  destruct (empty_page_renders_a_notice_and_no_table
              Pagination.emptyPaginatedResponse "employees" eq_refl eq_refl)
    as (text & counts & more & C & _ & M & _ & short & _).
  - unfold safe_numbers, Js.safe_integer, Js.MAX_SAFE_INTEGER. simpl.
    split; [lia |]. split; intros n E; discriminate E.
  - rewrite M. destruct (short eq_refl) as [T _]. rewrite T, C. reflexivity.
Defined.

(* ====================================================================== *)
(** * Further properties of the gateway *)
(* ====================================================================== *)

Section MoreGatewayFacts.

Variable fetch : HttpRequest -> FetchOutcome.
Variable JSON_parse : string -> option Js.value.
Variable credentials : TenantCredentials.

Lemma getAuthHeaders_cases :
  (Worker.token_missing credentials = true
   /\ getAuthHeaders credentials = Throw no_credentials)
  \/ (exists token, accessToken credentials = Some token
                    /\ token <> EmptyString
                    /\ getAuthHeaders credentials = Ok (auth_headers token)).
Proof.
  unfold Worker.token_missing, getAuthHeaders.
  destruct (accessToken credentials) as [token |]; [| left; split; reflexivity].
  destruct (token =? EmptyString) eqn:E.
  - left. split; reflexivity.
  - right. exists token. apply String.eqb_neq in E. repeat split. exact E.
Qed.

Lemma interpret_ok_inv (response : HttpResponse) (v : Js.value) :
  interpret JSON_parse response = Ok v ->
  ok response = true
  /\ ((status response = 204%Z /\ v = Js.Undefined)
      \/ (status response <> 204%Z /\ JSON_parse (text response) = Some v)).
Proof.
  unfold interpret.
  destruct (status response =? 429)%Z; [discriminate |].
  destruct ((status response =? 401) || (status response =? 403))%Z;
    [discriminate |].
  destruct (ok response); simpl; [| discriminate].
  destruct (status response =? 204)%Z eqn:E.
  - intro H. injection H as <-. apply Z.eqb_eq in E. split; [reflexivity |].
    left. split; [exact E | reflexivity].
  - apply Z.eqb_neq in E.
    destruct (JSON_parse (text response)) as [w |]; [| discriminate].
    intro H. injection H as <-. split; [reflexivity |].
    right. split; [exact E | reflexivity].
Qed.

Lemma interpret_auth (response : HttpResponse) :
  status response = 401%Z \/ status response = 403%Z ->
  interpret JSON_parse response
  = Throw (AuthenticationError
             "Authentication failed. Check your API credentials.").
Proof.
  intros [S | S]; unfold interpret; rewrite S; reflexivity.
Qed.

Lemma interpret_204 (response : HttpResponse) :
  status response = 204%Z -> interpret JSON_parse response = Ok Js.Undefined.
Proof.
  intro S. unfold interpret, ok. rewrite S. reflexivity.
Qed.

End MoreGatewayFacts.

(** X1. A response with status 401 or 403 makes the Gateway throw the
    AuthenticationError with its fixed message, whatever the body says and
    without parsing it, and a tool whose client method awaits the Gateway
    answers with an error-flagged result. *)
Theorem status_401_or_403_is_an_authentication_error
  (fetch : HttpRequest -> FetchOutcome)
  (JSON_parse : string -> option Js.value)
  (formatErrorForLogging : error -> Js.value)
  (credentials : TenantCredentials) (token endpoint : string)
  (options : RequestInit) (log : list HttpRequest) (response : HttpResponse) :
  accessToken credentials = Some token -> token <> EmptyString ->
  fetch (outbound (auth_headers token) endpoint options) = Responded response ->
  status response = 401%Z \/ status response = 403%Z ->
  snd (request fetch JSON_parse credentials endpoint options log)
  = Throw (AuthenticationError
             "Authentication failed. Check your API credentials.")
  /\ forall k : Js.value -> Io ToolResponse,
       exists r,
         snd (handler formatErrorForLogging
                (bind (request fetch JSON_parse credentials endpoint options) k)
                log) = Ok r
         /\ isError r = Some true.
Proof.
  intros H N F S.
  assert (snd (request fetch JSON_parse credentials endpoint options log)
          = Throw (AuthenticationError
                     "Authentication failed. Check your API credentials."))
    as T.
  { rewrite (request_responded fetch JSON_parse credentials token _ _ log
               response H N F).
    simpl. apply interpret_auth. exact S. }
  split; [exact T |].
  intro k. eexists. split.
  - apply (handler_of_failed_request fetch JSON_parse formatErrorForLogging
             credentials endpoint options k log _ T).
  - reflexivity.
Qed.

(** X1, on a 403 whose body carries a message of its own. *)
Lemma status_403_witness :
  snd (request (Sample.always (Sample.respond 403 [] Sample.not_found))
         (Sample.parse_known Sample.known) Sample.credentials
         "/employees/e-1" GET [])
  = Throw (AuthenticationError
             "Authentication failed. Check your API credentials.").
Proof.
  exact (proj1 (status_401_or_403_is_an_authentication_error
                  (Sample.always (Sample.respond 403 [] Sample.not_found))
                  (Sample.parse_known Sample.known) Sample.details
                  Sample.credentials "token-1" "/employees/e-1" GET []
                  (Sample.respond 403 [] Sample.not_found)
                  eq_refl ltac:(discriminate) eq_refl (or_intror eq_refl))).
Defined.

(** X2. The Gateway returns a value only for a success status: when
    [request] returns, the credentials held a token, [fetch] answered the
    one call with a status between 200 and 299, and the value is
    [undefined] for a 204 (the body is not parsed) and the parsed body
    otherwise. *)
Theorem request_returns_only_on_a_success_status
  (fetch : HttpRequest -> FetchOutcome)
  (JSON_parse : string -> option Js.value)
  (credentials : TenantCredentials) (endpoint : string)
  (options : RequestInit) (log : list HttpRequest) (v : Js.value) :
  snd (request fetch JSON_parse credentials endpoint options log) = Ok v ->
  exists token response,
    accessToken credentials = Some token
    /\ token <> EmptyString
    /\ fetch (outbound (auth_headers token) endpoint options)
       = Responded response
    /\ (200 <= status response <= 299)%Z
    /\ ((status response = 204%Z /\ v = Js.Undefined)
        \/ (status response <> 204%Z
            /\ JSON_parse (text response) = Some v)).
Proof.
  unfold request.
  destruct (getAuthHeaders_cases credentials) as [[_ ->] | (token & A & N & ->)];
    [discriminate |].
  destruct (fetch (outbound (auth_headers token) endpoint options))
    as [response | reason] eqn:F; simpl; [| discriminate].
  intro R. destruct (interpret_ok_inv JSON_parse response v R) as [K V].
  exists token, response. repeat split; try assumption.
  - unfold ok in K. apply andb_true_iff in K as [L _]. apply Z.leb_le in L.
    exact L.
  - unfold ok in K. apply andb_true_iff in K as [_ U]. apply Z.leb_le in U.
    exact U.
Qed.

(** X2, on an employee record returned with status 200. *)
Lemma request_returns_witness :
  exists token response,
    accessToken Sample.credentials = Some token
    /\ token <> EmptyString
    /\ Sample.always (Sample.respond 200 [] (Sample.employee "e-1" "Ada"))
         (outbound (auth_headers token) "/employees/e-1" GET)
       = Responded response
    /\ (200 <= status response <= 299)%Z
    /\ ((status response = 204%Z
         /\ Sample.employee "e-1" "Ada" = Js.Undefined)
        \/ (status response <> 204%Z
            /\ Sample.parse_known [Sample.employee "e-1" "Ada"] (text response)
               = Some (Sample.employee "e-1" "Ada"))).
Proof.
  exact (request_returns_only_on_a_success_status
           (Sample.always (Sample.respond 200 [] (Sample.employee "e-1" "Ada")))
           (Sample.parse_known [Sample.employee "e-1" "Ada"])
           Sample.credentials "/employees/e-1" GET []
           (Sample.employee "e-1" "Ada") eq_refl).
Defined.

Lemma try_catch_log {A : Type} (m : Io A) (h : error -> Io A)
  (log : list HttpRequest) :
  (forall e log', fst (h e log') = log') ->
  fst (try_catch m h log) = fst (m log).
Proof.
  intro H. unfold try_catch. destruct (m log) as [log' [a | e]]; simpl;
    [reflexivity | apply H].
Qed.

Lemma bind_ret_log {A B : Type} (m : Io A) (f : A -> B)
  (log : list HttpRequest) :
  fst (bind m (fun x => ret (f x)) log) = fst (m log).
Proof.
  unfold bind, ret. destruct (m log) as [log' [a | e]]; reflexivity.
Qed.

Lemma bind_quiet_log {A B : Type} (m : Io A) (k : A -> Io B)
  (log : list HttpRequest) :
  (forall a log', fst (k a log') = log') ->
  fst (bind m k log) = fst (m log).
Proof.
  intro Q. unfold bind. destruct (m log) as [log' [a | e]];
    [apply Q | reflexivity].
Qed.

Lemma lift_then_ret_log {A B : Type} (r : result A) (f : A -> B)
  (log : list HttpRequest) :
  fst (bind (lift r) (fun x => ret (f x)) log) = log.
Proof. destruct r; reflexivity. Qed.

Lemma recover_log (e : error) (log : list HttpRequest) :
  fst ((if is_not_found e then ret Js.Null else throw e) log) = log.
Proof. destruct (is_not_found e); reflexivity. Qed.

(** X3. With a token, every operation of the client makes exactly one
    upstream call, to its own URL with its own method and the bearer
    token, whatever the transport answers: a failure is not retried and no
    second request is made. *)
Theorem each_operation_makes_exactly_one_call
  (fetch : HttpRequest -> FetchOutcome)
  (JSON_parse : string -> option Js.value)
  (credentials : TenantCredentials) (token : string)
  (log : list HttpRequest) :
  accessToken credentials = Some token -> token <> EmptyString ->
  (forall endpoint options,
      fst (request fetch JSON_parse credentials endpoint options log)
      = log +++ [{| url := "https://api.gusto.com/v1" ++ endpoint;
                    method := initMethod options;
                    requestHeaders :=
                      [("Authorization", "Bearer " ++ token);
                       ("Content-Type", "application/json")];
                    body := initBody options |}])
  /\ (forall companyId params,
         fst (listEmployees fetch JSON_parse credentials companyId params log)
         = log +++ [outbound (auth_headers token)
                      (listEmployees_endpoint companyId params) GET])
  /\ (forall employeeId,
         fst (getEmployee fetch JSON_parse credentials employeeId log)
         = log +++ [outbound (auth_headers token)
                      ("/employees/" ++ employeeId) GET])
  /\ (forall companyId,
         fst (getHolidayPayPolicy fetch JSON_parse credentials companyId log)
         = log +++ [outbound (auth_headers token)
                      ("/companies/" ++ companyId ++ "/holiday_pay_policy")
                      GET])
  /\ fst (getTokenInfo fetch JSON_parse credentials log)
     = log +++ [outbound (auth_headers token) "/token_info" GET]
  /\ fst (testConnection fetch JSON_parse credentials log)
     = log +++ [outbound (auth_headers token) "/token_info" GET]
  /\ (forall contractorId,
         fst (deleteContractor fetch JSON_parse credentials contractorId log)
         = log +++ [outbound (auth_headers token)
                      ("/contractors/" ++ contractorId)
                      {| initMethod := Some "DELETE"; initBody := None |}])
  /\ (forall policyId employeeUuids,
         fst (addEmployeesToTimeOffPolicy fetch JSON_parse credentials
                policyId employeeUuids log)
         = log +++ [outbound (auth_headers token)
                      ("/time_off_policies/" ++ policyId ++ "/add_employees")
                      {| initMethod := Some "PUT";
                         initBody :=
                           Js.stringify (employees_payload employeeUuids) |}]).
Proof.
  intros H N.
  pose proof (fun endpoint options =>
                request_calls fetch JSON_parse credentials token endpoint
                  options log H N) as R.
  repeat split.
  - intros endpoint options. rewrite R. reflexivity.
  - intros companyId params. apply listEmployees_calls; assumption.
  - intro employeeId. unfold getEmployee. rewrite bind_lift. apply R.
  - intro companyId. unfold getHolidayPayPolicy.
    rewrite try_catch_log; [| apply recover_log].
    rewrite bind_lift. apply R.
  - unfold getTokenInfo. rewrite bind_lift. apply R.
  - unfold testConnection.
    rewrite try_catch_log; [| reflexivity].
    rewrite bind_quiet_log; [| intros a log'; apply lift_then_ret_log].
    unfold getTokenInfo. rewrite bind_lift. apply R.
  - intro contractorId. unfold deleteContractor.
    rewrite (bind_ret_log _ (fun _ => tt)). apply R.
  - intros policyId employeeUuids. unfold addEmployeesToTimeOffPolicy.
    rewrite (bind_ret_log _ (fun _ => tt)). apply R.
Qed.

(** X3, on a transport that answers every call with a rate limit: the
    connection test still makes its single call. *)
Lemma one_call_witness :
  fst (testConnection
         (Sample.always (Sample.respond 429 [] Js.Null))
         (Sample.parse_known Sample.known) Sample.credentials [])
  = [outbound (auth_headers "token-1") "/token_info" GET].
Proof.
  exact (proj1 (proj2 (proj2 (proj2 (proj2 (proj2
           (each_operation_makes_exactly_one_call
              (Sample.always (Sample.respond 429 [] Js.Null))
              (Sample.parse_known Sample.known) Sample.credentials
              "token-1" [] eq_refl ltac:(discriminate)))))))).
Defined.

(** X4. Without a token (absent or empty) no operation of the client
    reaches [fetch]: each throws the AuthenticationError of
    [getAuthHeaders] with the log of calls unchanged, the holiday-pay-policy
    read does not recover it, and the connection test reports it as
    [connected: false] with the same message. *)
Theorem no_operation_calls_upstream_without_a_token
  (fetch : HttpRequest -> FetchOutcome)
  (JSON_parse : string -> option Js.value)
  (credentials : TenantCredentials) (log : list HttpRequest) :
  accessToken credentials = None \/ accessToken credentials = Some EmptyString ->
  (forall companyId params,
      listEmployees fetch JSON_parse credentials companyId params log
      = (log, Throw no_credentials))
  /\ (forall employeeId,
         getEmployee fetch JSON_parse credentials employeeId log
         = (log, Throw no_credentials))
  /\ (forall companyId data,
         createEmployee fetch JSON_parse credentials companyId data log
         = (log, Throw no_credentials))
  /\ (forall employeeId data,
         updateEmployee fetch JSON_parse credentials employeeId data log
         = (log, Throw no_credentials))
  /\ (forall companyId,
         getHolidayPayPolicy fetch JSON_parse credentials companyId log
         = (log, Throw no_credentials))
  /\ (forall contractorId,
         deleteContractor fetch JSON_parse credentials contractorId log
         = (log, Throw no_credentials))
  /\ (forall policyId employeeUuids,
         addEmployeesToTimeOffPolicy fetch JSON_parse credentials policyId
           employeeUuids log
         = (log, Throw no_credentials))
  /\ testConnection fetch JSON_parse credentials log
     = (log,
        Ok (Js.Obj
              [("connected", Js.Bool false);
               ("message",
                Js.Str "No credentials provided. Include X-Gusto-Access-Token header.")])).
Proof.
  intro M.
  assert (Worker.token_missing credentials = true) as T.
  { unfold Worker.token_missing. destruct M as [-> | ->]; reflexivity. }
  pose proof (fun endpoint options =>
                request_without_token fetch JSON_parse credentials endpoint
                  options log T) as R.
  repeat split; intros.
  - unfold listEmployees, bind. rewrite R. reflexivity.
  - unfold getEmployee, bind. rewrite R. reflexivity.
  - unfold createEmployee, bind. rewrite R. reflexivity.
  - unfold updateEmployee, bind. rewrite R. reflexivity.
  - unfold getHolidayPayPolicy, try_catch, bind. rewrite R. reflexivity.
  - unfold deleteContractor, bind. rewrite R. reflexivity.
  - unfold addEmployeesToTimeOffPolicy, bind. rewrite R. reflexivity.
  - unfold testConnection, try_catch, getTokenInfo, bind. rewrite R. reflexivity.
Qed.

(** X4, on credentials whose token is the empty string. *)
Lemma no_token_witness :
  getEmployee (Sample.always (Sample.respond 200 [] Sample.two_employees))
    (Sample.parse_known Sample.known)
    {| accessToken := Some EmptyString; apiVersion := None |} "e-1" []
  = ([], Throw no_credentials).
Proof.
  exact (proj1 (proj2 (no_operation_calls_upstream_without_a_token
                         (Sample.always
                            (Sample.respond 200 [] Sample.two_employees))
                         (Sample.parse_known Sample.known)
                         {| accessToken := Some EmptyString;
                            apiVersion := None |}
                         [] (or_intror eq_refl)))
           "e-1").
Defined.

(** X5. When [fetch] rejects (a network failure), the Gateway throws the
    failure after its one call; the holiday-pay-policy read passes it on
    rather than answering [null], a tool answers with an error-flagged
    result, and the connection test reports [connected: false] with the
    reason. *)
Theorem a_rejected_fetch_is_thrown_after_the_call
  (fetch : HttpRequest -> FetchOutcome)
  (JSON_parse : string -> option Js.value)
  (formatErrorForLogging : error -> Js.value)
  (credentials : TenantCredentials) (token reason : string)
  (log : list HttpRequest) :
  accessToken credentials = Some token -> token <> EmptyString ->
  (forall call, fetch call = Rejected reason) ->
  (forall endpoint options,
      request fetch JSON_parse credentials endpoint options log
      = (log +++ [outbound (auth_headers token) endpoint options],
         Throw (RuntimeError reason)))
  /\ (forall companyId,
         snd (getHolidayPayPolicy fetch JSON_parse credentials companyId log)
         = Throw (RuntimeError reason))
  /\ (forall employeeId format,
         snd (gusto_get_employee fetch JSON_parse formatErrorForLogging
                credentials employeeId format log)
         = Ok (formatError formatErrorForLogging (RuntimeError reason)))
  /\ isError (formatError formatErrorForLogging (RuntimeError reason))
     = Some true
  /\ snd (testConnection fetch JSON_parse credentials log)
     = Ok (Js.Obj [("connected", Js.Bool false);
                   ("message", Js.Str reason)]).
Proof.
  intros H N F.
  assert (forall endpoint options,
             request fetch JSON_parse credentials endpoint options log
             = (log +++ [outbound (auth_headers token) endpoint options],
                Throw (RuntimeError reason))) as R.
  { intros endpoint options. unfold request.
    rewrite (getAuthHeaders_token credentials token H N), F. reflexivity. }
  split; [exact R |]. repeat split; intros.
  - unfold getHolidayPayPolicy, try_catch, bind. rewrite R. reflexivity.
  - unfold gusto_get_employee, handler, try_catch, getEmployee, bind.
    rewrite R. reflexivity.
  - unfold testConnection, try_catch, getTokenInfo, bind. rewrite R.
    reflexivity.
Qed.

(** X5, on a transport that refuses every connection. *)
Lemma rejected_fetch_witness :
  snd (testConnection (fun _ => Rejected "connection refused")
         (Sample.parse_known Sample.known) Sample.credentials [])
  = Ok (Js.Obj [("connected", Js.Bool false);
                ("message", Js.Str "connection refused")]).
Proof.
  exact (proj2 (proj2 (proj2 (proj2
           (a_rejected_fetch_is_thrown_after_the_call
              (fun _ => Rejected "connection refused")
              (Sample.parse_known Sample.known) Sample.details
              Sample.credentials "token-1" "connection refused" []
              eq_refl ltac:(discriminate) (fun _ => eq_refl)))))).
Defined.

(* ====================================================================== *)
(** * Further properties of the holiday pay policy read and the connection
      test *)
(* ====================================================================== *)

Section RecoveryFacts.

Variable fetch : HttpRequest -> FetchOutcome.
Variable JSON_parse : string -> option Js.value.
Variable credentials : TenantCredentials.

(** A [CrmApiError] thrown by [request] carries the status of the response
    it was raised for. *)
Lemma request_api_error_inv (endpoint : string) (options : RequestInit)
  (log : list HttpRequest) (m : Js.value) (code : Z) :
  snd (request fetch JSON_parse credentials endpoint options log)
  = Throw (CrmApiError m code) ->
  exists token response,
    accessToken credentials = Some token
    /\ token <> EmptyString
    /\ fetch (outbound (auth_headers token) endpoint options)
       = Responded response
    /\ status response = code
    /\ ok response = false.
Proof.
  unfold request.
  destruct (getAuthHeaders_cases credentials) as [[_ ->] | (token & A & N & ->)];
    [discriminate |].
  destruct (fetch (outbound (auth_headers token) endpoint options))
    as [response | reason] eqn:F; simpl; [| discriminate].
  unfold interpret.
  destruct (status response =? 429)%Z; [discriminate |].
  destruct ((status response =? 401) || (status response =? 403))%Z;
    [discriminate |].
  destruct (ok response) eqn:K; simpl.
  - destruct (status response =? 204)%Z; [discriminate |].
    destruct (JSON_parse (text response)); discriminate.
  - intro T. injection T as _ <-. exists token, response. repeat split; assumption.
Qed.

Lemma is_not_found_inv (e : error) :
  is_not_found e = true -> exists m, e = CrmApiError m 404.
Proof.
  destruct e as [? ? | ? | m code | ? | ?]; simpl; try discriminate.
  intro H. apply Z.eqb_eq in H. subst code. exists m. reflexivity.
Qed.

Lemma mapHolidayPayPolicy_not_null (data : Js.value) :
  mapHolidayPayPolicy data <> Ok Js.Null.
Proof.
  unfold mapHolidayPayPolicy. destruct (Js.nullish data); discriminate.
Qed.

End RecoveryFacts.

Lemma getHolidayPayPolicy_of_request
  (fetch : HttpRequest -> FetchOutcome)
  (JSON_parse : string -> option Js.value)
  (credentials : TenantCredentials) (companyId : string)
  (log : list HttpRequest) :
  snd (getHolidayPayPolicy fetch JSON_parse credentials companyId log)
  = match snd (request fetch JSON_parse credentials
                 ("/companies/" ++ companyId ++ "/holiday_pay_policy") GET log)
    with
    | Ok data => mapHolidayPayPolicy data
    | Throw e => if is_not_found e then Ok Js.Null else Throw e
    end.
Proof.
  unfold getHolidayPayPolicy, try_catch, bind, lift.
  destruct (request fetch JSON_parse credentials _ GET log)
    as [log' [data | e]]; cbn [snd].
  - destruct (mapHolidayPayPolicy data) as [policy | e] eqn:M;
      [reflexivity |].
    unfold mapHolidayPayPolicy in M.
    destruct (Js.nullish data); [| discriminate M].
    injection M as <-. reflexivity.
  - destruct (is_not_found e); reflexivity.
Qed.

Lemma is_not_found_iff (e : error) :
  is_not_found e = true <-> exists m, e = CrmApiError m 404.
Proof.
  split; [apply is_not_found_inv |]. intros [m ->]. reflexivity.
Qed.

(** X6. [getHolidayPayPolicy] answers [null] for a 404 and for nothing
    else. It returns [null] exactly when [request] threw a [CrmApiError]
    with status code 404, and then the credentials held a token and the
    policy endpoint answered the call with status 404. Every other failure
    of [request] is thrown on unchanged. A body that [request] returned is
    mapped to a policy object, never to [null]; the [undefined] of a 204
    makes the mapping throw a [TypeError]. *)
Theorem a_null_policy_means_the_endpoint_answered_404
  (fetch : HttpRequest -> FetchOutcome)
  (JSON_parse : string -> option Js.value)
  (credentials : TenantCredentials) (companyId : string)
  (log : list HttpRequest) :
  (snd (getHolidayPayPolicy fetch JSON_parse credentials companyId log)
   = Ok Js.Null
   <-> exists m,
         snd (request fetch JSON_parse credentials
                ("/companies/" ++ companyId ++ "/holiday_pay_policy") GET log)
         = Throw (CrmApiError m 404))
  /\ (snd (getHolidayPayPolicy fetch JSON_parse credentials companyId log)
      = Ok Js.Null ->
      exists token response,
        accessToken credentials = Some token
        /\ token <> EmptyString
        /\ fetch (outbound (auth_headers token)
                    ("/companies/" ++ companyId ++ "/holiday_pay_policy") GET)
           = Responded response
        /\ status response = 404%Z)
  /\ (forall e,
        snd (request fetch JSON_parse credentials
               ("/companies/" ++ companyId ++ "/holiday_pay_policy") GET log)
        = Throw e ->
        (forall m, e <> CrmApiError m 404) ->
        snd (getHolidayPayPolicy fetch JSON_parse credentials companyId log)
        = Throw e)
  /\ (forall data,
        snd (request fetch JSON_parse credentials
               ("/companies/" ++ companyId ++ "/holiday_pay_policy") GET log)
        = Ok data ->
        (Js.nullish data = false ->
         exists fields,
           snd (getHolidayPayPolicy fetch JSON_parse credentials companyId log)
           = Ok (Js.Obj fields)
           /\ map fst fields
              = ["uuid"; "companyUuid"; "name"; "federalHolidays";
                 "customHolidays"; "employees"])
        /\ (Js.nullish data = true ->
            snd (getHolidayPayPolicy fetch JSON_parse credentials companyId
                   log)
            = Throw TypeError)).
Proof.
  rewrite getHolidayPayPolicy_of_request.
  remember ("/companies/" ++ companyId ++ "/holiday_pay_policy") as endpoint.
  assert (match snd (request fetch JSON_parse credentials endpoint GET log) with
          | Ok data => mapHolidayPayPolicy data
          | Throw e => if is_not_found e then Ok Js.Null else Throw e
          end = Ok Js.Null
          <-> exists m,
                snd (request fetch JSON_parse credentials endpoint GET log)
                = Throw (CrmApiError m 404)) as I.
  { destruct (snd (request fetch JSON_parse credentials endpoint GET log))
      as [data | e].
    - split; [| intros [m H]; discriminate H].
      intro H. destruct (mapHolidayPayPolicy_not_null data H).
    - destruct (is_not_found e) eqn:NF.
      + apply is_not_found_iff in NF as [m ->].
        split; [intros _; exists m; reflexivity | reflexivity].
      + split; [discriminate |]. intros [m H]. injection H as ->.
        discriminate NF. }
  split; [exact I |]. split; [| split].
  - intro H. apply I in H as [m R].
    destruct (request_api_error_inv fetch JSON_parse credentials _ _ log m 404 R)
      as (token & response & A & N & F & S & _).
    exists token, response. repeat split; assumption.
  - intros e -> O.
    destruct (is_not_found e) eqn:NF; [| reflexivity].
    apply is_not_found_iff in NF as [m ->]. destruct (O m eq_refl).
  - intros data ->. unfold mapHolidayPayPolicy. split.
    + intros ->. eexists. split; reflexivity.
    + intros ->. reflexivity.
Qed.

(** X6, on a transport that answers 404. *)
Lemma null_policy_witness :
  exists token response,
    accessToken Sample.credentials = Some token
    /\ token <> EmptyString
    /\ Sample.always (Sample.respond 404 [] Sample.not_found)
         (outbound (auth_headers token)
            ("/companies/" ++ "c-1" ++ "/holiday_pay_policy") GET)
       = Responded response
    /\ status response = 404%Z.
Proof.
  exact (proj1 (proj2 (a_null_policy_means_the_endpoint_answered_404
                         (Sample.always
                            (Sample.respond 404 [] Sample.not_found))
                         (Sample.parse_known Sample.known)
                         Sample.credentials "c-1" []))
           eq_refl).
Defined.

(** X7. The connection test never throws: whatever the credentials, the
    transport and the parser do, [testConnection] returns an object whose
    [connected] field is a boolean and whose [message] is a text.
    [connected] is true exactly when [getTokenInfo] returned and the name
    of the resource owner could be put into the message, which is then
    Connected as followed by that name; a name that cannot be converted to
    text is a failed connection like any other. The tool built on the
    connection test answers with that object and is never error-flagged,
    a failed connection included. *)
Theorem the_connection_test_never_throws
  (fetch : HttpRequest -> FetchOutcome)
  (JSON_parse : string -> option Js.value)
  (formatErrorForLogging : error -> Js.value)
  (credentials : TenantCredentials) (log : list HttpRequest) :
  exists (connected : bool) (message : string),
    snd (testConnection fetch JSON_parse credentials log)
    = Ok (Js.Obj [("connected", Js.Bool connected);
                  ("message", Js.Str message)])
    /\ (connected = true <->
        exists info owner,
          snd (getTokenInfo fetch JSON_parse credentials log) = Ok info
          /\ Js.to_string
               (Js.or_else
                  (Js.opt_member "email" (Js.prop "resourceOwner" info))
                  (Js.Str "authenticated user"))
             = Some owner
          /\ message = "Connected as " ++ owner)
    /\ gusto_test_connection fetch JSON_parse formatErrorForLogging
         credentials log
       = (fst (testConnection fetch JSON_parse credentials log),
          Ok {| content :=
                  [Js.stringify_pretty
                     (Js.Obj [("connected", Js.Bool connected);
                              ("message", Js.Str message)])];
                isError := None |}).
Proof.
  unfold gusto_test_connection, handler, testConnection, try_catch, bind, ret,
    lift, string_of.
  destruct (getTokenInfo fetch JSON_parse credentials log)
    as [log' [info | e]]; cbn [fst snd].
  - destruct (Js.to_string
                (Js.or_else
                   (Js.opt_member "email" (Js.prop "resourceOwner" info))
                   (Js.Str "authenticated user"))) as [owner |] eqn:T;
      cbn [fst snd].
    + eexists true, _. split; [reflexivity |]. split; [| reflexivity].
      split; [| reflexivity].
      intros _. exists info, owner. repeat split. exact T.
    + eexists false, _. split; [reflexivity |]. split; [| reflexivity].
      split; [discriminate |].
      intros (info' & owner & I & O & _). injection I as <-.
      rewrite T in O. discriminate O.
  - eexists false, _. split; [reflexivity |]. split; [| reflexivity].
    split; [discriminate | intros (info & owner & H & _); discriminate H].
Qed.

(** X8. When the token endpoint answers with a JSON object, the connection
    test names the resource owner by the [email] of [resource_owner]: it
    reports [connected: true] and Connected as followed by the email when
    the email is a text that is not empty, and Connected as authenticated
    user when there is no resource owner or the owner has no email (none,
    [null] or the empty text). An email that is an object with a
    [toString] key cannot be put into the message: the connection test
    then reports [connected: false], with the message of the error,
    although the endpoint answered. *)
Theorem the_connection_test_names_the_resource_owner
  (fetch : HttpRequest -> FetchOutcome)
  (JSON_parse : string -> option Js.value)
  (credentials : TenantCredentials) (token : string)
  (log : list HttpRequest) (response : HttpResponse)
  (fields : list (string * Js.value)) :
  accessToken credentials = Some token -> token <> EmptyString ->
  fetch (outbound (auth_headers token) "/token_info" GET) = Responded response ->
  ok response = true -> status response <> 204%Z ->
  JSON_parse (text response) = Some (Js.Obj fields) ->
  (forall owner email,
      Js.assoc "resource_owner" fields = Some (Js.Obj owner) ->
      Js.assoc "email" owner = Some (Js.Str email) -> email <> EmptyString ->
      snd (testConnection fetch JSON_parse credentials log)
      = Ok (Js.Obj [("connected", Js.Bool true);
                    ("message", Js.Str ("Connected as " ++ email))]))
  /\ (Js.truthy (Js.prop "resource_owner" (Js.Obj fields)) = false ->
      snd (testConnection fetch JSON_parse credentials log)
      = Ok (Js.Obj [("connected", Js.Bool true);
                    ("message", Js.Str "Connected as authenticated user")]))
  /\ (Js.truthy (Js.prop "resource_owner" (Js.Obj fields)) = true ->
      Js.truthy (Js.prop "email" (Js.prop "resource_owner" (Js.Obj fields)))
      = false ->
      snd (testConnection fetch JSON_parse credentials log)
      = Ok (Js.Obj [("connected", Js.Bool true);
                    ("message", Js.Str "Connected as authenticated user")]))
  /\ (forall owner email,
      Js.assoc "resource_owner" fields = Some (Js.Obj owner) ->
      Js.assoc "email" owner = Some (Js.Obj email) ->
      Js.has_key "toString" email = true ->
      exists message,
        snd (testConnection fetch JSON_parse credentials log)
        = Ok (Js.Obj [("connected", Js.Bool false);
                      ("message", Js.Str message)])).
Proof.
  intros H N F K S P.
  assert (request fetch JSON_parse credentials "/token_info" GET log
          = (log +++ [outbound (auth_headers token) "/token_info" GET],
             Ok (Js.Obj fields))) as R.
  { rewrite (request_responded fetch JSON_parse credentials token _ _ log
               response H N F).
    rewrite (interpret_success JSON_parse response (Js.Obj fields) K S P).
    reflexivity. }
  assert (forall owner_text,
            Js.to_string
              (Js.or_else
                 (if Js.truthy (Js.prop "resource_owner" (Js.Obj fields))
                  then Js.prop "email"
                         (Js.prop "resource_owner" (Js.Obj fields))
                  else Js.Undefined)
                 (Js.Str "authenticated user"))
            = Some owner_text ->
            snd (testConnection fetch JSON_parse credentials log)
            = Ok (Js.Obj [("connected", Js.Bool true);
                          ("message", Js.Str ("Connected as " ++ owner_text))]))
    as T.
  { intros owner_text C.
    unfold testConnection, try_catch, getTokenInfo, bind, lift, ret, string_of.
    rewrite R. cbn [Js.nullish fst snd].
    destruct (Js.truthy (Js.prop "resource_owner" (Js.Obj fields)));
      cbn [Js.prop Js.assoc String.eqb Ascii.eqb Bool.eqb Js.opt_member
           Js.nullish rename map fst snd] in *;
      rewrite C; reflexivity. }
  split; [| split; [| split]].
  - intros owner email O E D. apply T.
    cbn [Js.prop]. rewrite O. cbn [Js.truthy Js.prop]. rewrite E.
    unfold Js.or_else. rewrite (truthy_text email D). reflexivity.
  - intro O. apply (T "authenticated user"). rewrite O. reflexivity.
  - intros O E. apply (T "authenticated user"). rewrite O.
    unfold Js.or_else. rewrite E. reflexivity.
  - intros owner email O E X.
    unfold testConnection, try_catch, getTokenInfo, bind, lift, ret, string_of.
    rewrite R. cbn [Js.nullish fst snd Js.prop]. rewrite O.
    cbn [Js.truthy Js.prop Js.assoc String.eqb Ascii.eqb Bool.eqb
         Js.opt_member Js.nullish rename map fst snd].
    rewrite E. unfold Js.or_else. cbn [Js.truthy Js.to_string].
    rewrite X. eexists. reflexivity.
Qed.

(** X8, on a token-info document whose resource owner has an email. *)
Lemma connection_test_witness :
  snd (testConnection
         (Sample.always (Sample.respond 200 [] Example.token_info))
         (Sample.parse_known [Example.token_info]) Sample.credentials [])
  = Ok (Js.Obj [("connected", Js.Bool true);
                ("message", Js.Str "Connected as ada@example.com")]).
Proof.
  exact (proj1 (the_connection_test_names_the_resource_owner
                  (Sample.always (Sample.respond 200 [] Example.token_info))
                  (Sample.parse_known [Example.token_info])
                  Sample.credentials "token-1" []
                  (Sample.respond 200 [] Example.token_info)
                  _ eq_refl ltac:(discriminate) eq_refl eq_refl
                  ltac:(discriminate) eq_refl)
           _ "ada@example.com" eq_refl eq_refl ltac:(discriminate)).
Defined.

(* ====================================================================== *)
(** * The wire mapper of employees *)
(* ====================================================================== *)

Section MapperFacts.

Lemma map_result_ok_iff (f : Js.value -> result Js.value) (xs : list Js.value) :
  (exists ys, map_result f xs = Ok ys)
  <-> Forall (fun x => exists y, f x = Ok y) xs.
Proof.
  induction xs as [| x rest IH]; simpl.
  - split; [constructor | intros _; eexists; reflexivity].
  - split.
    + intros [ys H]. destruct (f x) as [y | e] eqn:F; [| discriminate H].
      destruct (map_result f rest) as [more | e] eqn:M; [| discriminate H].
      constructor; [exists y; exact F |].
      apply IH. exists more. reflexivity.
    + intro A. inversion A as [| ? ? [y F] R]; subst.
      apply IH in R as [more M]. rewrite F, M. eexists. reflexivity.
Qed.

Lemma map_result_Forall2 (f : Js.value -> result Js.value)
  (xs ys : list Js.value) :
  map_result f xs = Ok ys -> Forall2 (fun x y => f x = Ok y) xs ys.
Proof.
  revert ys. induction xs as [| x rest IH]; simpl; intros ys H.
  - injection H as <-. constructor.
  - destruct (f x) as [y | e] eqn:F; [| discriminate H].
    destruct (map_result f rest) as [more | e] eqn:M; [| discriminate H].
    injection H as <-. constructor; [exact F | apply IH; reflexivity].
Qed.

Lemma opt_array_map_ok_iff (f : Js.value -> result Js.value) (v : Js.value) :
  (exists y, opt_array_map f v = Ok y)
  <-> nullish_or_array_of (fun x => exists y, f x = Ok y) v.
Proof.
  unfold opt_array_map, nullish_or_array_of.
  destruct (Js.nullish v) eqn:N.
  - split; [left; reflexivity | intros _; eexists; reflexivity].
  - split.
    + intros [y H]. right. unfold array_map in H.
      destruct v; try discriminate H.
      exists items. split; [reflexivity |].
      apply map_result_ok_iff.
      destruct (map_result f items) as [ys |]; [| discriminate H].
      exists ys. reflexivity.
    + intros [D | (xs & -> & A)]; [discriminate D |].
      apply map_result_ok_iff in A as [ys M]. simpl. rewrite M.
      eexists. reflexivity.
Qed.

Lemma nullish_or_array_of_iff (P Q : Js.value -> Prop) (v : Js.value) :
  (forall x, P x <-> Q x) ->
  nullish_or_array_of P v <-> nullish_or_array_of Q v.
Proof.
  intro E. unfold nullish_or_array_of.
  split; (intros [N | (xs & -> & A)]; [left; exact N | right]);
    exists xs; (split; [reflexivity |]);
    (eapply Forall_impl; [| exact A]); intros x; apply E.
Qed.

Lemma mapCompensation_ok_iff (c : Js.value) :
  (exists y, mapCompensation c = Ok y) <-> Js.nullish c = false.
Proof.
  unfold mapCompensation. destruct (Js.nullish c).
  - split; [intros [y H]; discriminate H | discriminate].
  - split; [reflexivity | intros _; eexists; reflexivity].
Qed.

Lemma mapGarnishment_ok_iff (g : Js.value) :
  (exists y, mapGarnishment g = Ok y) <-> Js.nullish g = false.
Proof.
  unfold mapGarnishment. destruct (Js.nullish g).
  - split; [intros [y H]; discriminate H | discriminate].
  - split; [reflexivity | intros _; eexists; reflexivity].
Qed.

Lemma mapJob_ok_iff (j : Js.value) :
  (exists y, mapJob j = Ok y) <-> job_maps j.
Proof.
  unfold mapJob, job_maps. destruct (Js.nullish j).
  - split; [intros [y H]; discriminate H | intros [D _]; discriminate D].
  - rewrite <- (nullish_or_array_of_iff _ _ _ mapCompensation_ok_iff).
    rewrite <- opt_array_map_ok_iff.
    destruct (opt_array_map mapCompensation (Js.prop "compensations" j)).
    + split; [intros _; split; [reflexivity | eexists; reflexivity]
             | intros _; eexists; reflexivity].
    + split; [intros [y H]; discriminate H
             | intros [_ [y H]]; discriminate H].
Qed.

(** Whatever [mapEmployee] throws is a [TypeError]. *)
Lemma map_result_throws (f : Js.value -> result Js.value) (xs : list Js.value)
  (e : error) :
  (forall x e', f x = Throw e' -> e' = TypeError) ->
  map_result f xs = Throw e -> e = TypeError.
Proof.
  intros F. induction xs as [| x rest IH]; simpl; [discriminate |].
  destruct (f x) as [y | e'] eqn:X.
  - destruct (map_result f rest) as [ys | e'']; [discriminate |].
    intro H. injection H as <-. apply IH. reflexivity.
  - intro H. injection H as <-. apply (F x). exact X.
Qed.

Lemma opt_array_map_throws (f : Js.value -> result Js.value) (v : Js.value)
  (e : error) :
  (forall x e', f x = Throw e' -> e' = TypeError) ->
  opt_array_map f v = Throw e -> e = TypeError.
Proof.
  intros F. unfold opt_array_map, array_map.
  destruct (Js.nullish v); [discriminate |].
  destruct v; try (intro H; injection H as <-; reflexivity).
  destruct (map_result f items) as [ys | e'] eqn:M; [discriminate |].
  intro H. injection H as <-. apply (map_result_throws f items e' F M).
Qed.

Lemma mapCompensation_throws (c : Js.value) (e : error) :
  mapCompensation c = Throw e -> e = TypeError.
Proof.
  unfold mapCompensation. destruct (Js.nullish c); [| discriminate].
  intro H. injection H as <-. reflexivity.
Qed.

Lemma mapGarnishment_throws (g : Js.value) (e : error) :
  mapGarnishment g = Throw e -> e = TypeError.
Proof.
  unfold mapGarnishment. destruct (Js.nullish g); [| discriminate].
  intro H. injection H as <-. reflexivity.
Qed.

Lemma mapJob_throws (j : Js.value) (e : error) :
  mapJob j = Throw e -> e = TypeError.
Proof.
  unfold mapJob. destruct (Js.nullish j).
  - intro H. injection H as <-. reflexivity.
  - destruct (opt_array_map mapCompensation (Js.prop "compensations" j))
      as [y | e'] eqn:M; [discriminate |].
    intro H. injection H as <-.
    apply (opt_array_map_throws mapCompensation _ e' mapCompensation_throws M).
Qed.

Lemma mapEmployee_throws (r : Js.value) (e : error) :
  mapEmployee r = Throw e -> e = TypeError.
Proof.
  unfold mapEmployee. destruct (Js.nullish r).
  - intro H. injection H as <-. reflexivity.
  - destruct (opt_array_map mapJob (Js.prop "jobs" r)) as [js | e'] eqn:J.
    + destruct (opt_array_map mapGarnishment (Js.prop "garnishments" r))
        as [gs | e'] eqn:G; [discriminate |].
      intro H. injection H as <-.
      apply (opt_array_map_throws mapGarnishment _ e' mapGarnishment_throws G).
    + intro H. injection H as <-.
      apply (opt_array_map_throws mapJob _ e' mapJob_throws J).
Qed.

(** What [mapEmployee] returns is an object with the fixed keys. *)
Lemma mapEmployee_shape (r d : Js.value) :
  mapEmployee r = Ok d ->
  exists fields, d = Js.Obj fields /\ map fst fields = employee_keys.
Proof.
  unfold mapEmployee. destruct (Js.nullish r); [discriminate |].
  destruct (opt_array_map mapJob (Js.prop "jobs" r)); [| discriminate].
  destruct (opt_array_map mapGarnishment (Js.prop "garnishments" r));
    [| discriminate].
  intro H. injection H as <-. eexists. split; reflexivity.
Qed.

End MapperFacts.

Lemma mapEmployee_ok_iff (e : Js.value) :
  (exists d, mapEmployee e = Ok d) <-> employee_maps e.
Proof.
  unfold employee_maps.
  rewrite <- (nullish_or_array_of_iff _ _ _ mapJob_ok_iff).
  rewrite <- (nullish_or_array_of_iff _ _ (Js.prop "garnishments" e)
                mapGarnishment_ok_iff).
  rewrite <- !opt_array_map_ok_iff.
  unfold mapEmployee. destruct (Js.nullish e).
  - split; [intros [d H]; discriminate H | intros [D _]; discriminate D].
  - destruct (opt_array_map mapJob (Js.prop "jobs" e)) as [js | e1].
    + destruct (opt_array_map mapGarnishment (Js.prop "garnishments" e))
        as [gs | e2].
      * split; [intros _; repeat split; eexists; reflexivity
               | intros _; eexists; reflexivity].
      * split; [intros [d H]; discriminate H
               | intros (_ & _ & [y H]); discriminate H].
    + split; [intros [d H]; discriminate H
             | intros (_ & [y H] & _); discriminate H].
Qed.

(** X9. [mapEmployee] accepts a wire record exactly when the record is not
    [null] or [undefined] and each of [jobs], the [compensations] of every
    job, and [garnishments] is absent, [null], or an array without [null]
    elements; any value, present or missing, is accepted for every other
    field. When it does not accept, it throws a [TypeError]. *)
Theorem mapEmployee_accepts_exactly_the_well_shaped_records (e : Js.value) :
  ((exists d, mapEmployee e = Ok d) <-> employee_maps e)
  /\ (forall err, mapEmployee e = Throw err -> err = TypeError).
Proof.
  split; [apply mapEmployee_ok_iff | apply mapEmployee_throws].
Qed.

(** X10. Every employee [mapEmployee] returns has the same 23 keys,
    whatever the wire record held: each copied field carries the value of
    its wire field, [undefined] when the wire record lacks it, and a wire
    field the mapper does not know is dropped. *)
Theorem mapEmployee_copies_the_known_fields_and_drops_the_rest
  (e d : Js.value) :
  mapEmployee e = Ok d ->
  Js.keys d = employee_keys
  /\ (forall aB a_b, In (aB, a_b) employee_copied_fields ->
        Js.prop aB d = Js.prop a_b e)
  /\ (forall a_b, Js.prop a_b e = Js.Undefined ->
        forall aB, In (aB, a_b) employee_copied_fields ->
          Js.prop aB d = Js.Undefined)
  /\ (forall k, ~ In k employee_keys -> Js.prop k d = Js.Undefined).
Proof.
  intro M.
  assert (forall aB a_b, In (aB, a_b) employee_copied_fields ->
            Js.prop aB d = Js.prop a_b e) as C.
  { revert M. unfold mapEmployee. destruct (Js.nullish e); [discriminate |].
    destruct (opt_array_map mapJob (Js.prop "jobs" e)); [| discriminate].
    destruct (opt_array_map mapGarnishment (Js.prop "garnishments" e));
      [| discriminate].
    intro H. injection H as <-. intros aB a_b I.
    simpl in I. repeat (destruct I as [I | I];
                        [injection I as <- <-; reflexivity |]).
    destruct I. }
  destruct (mapEmployee_shape e d M) as (fields & -> & K).
  split; [exact K |]. split; [exact C |]. split.
  - intros a_b U aB I. rewrite (C aB a_b I). exact U.
  - intros k N. simpl.
    destruct (Js.assoc k fields) as [v |] eqn:A; [| reflexivity].
    exfalso. apply N. rewrite <- K. clear - A.
    induction fields as [| [k' v'] rest IH]; simpl in *; [discriminate |].
    destruct (k' =? k) eqn:E.
    + left. apply String.eqb_eq. exact E.
    + right. apply IH. exact A.
Qed.

(** X10, on a record with an unknown field and a job. *)
Lemma mapEmployee_witness :
  exists d,
    mapEmployee Example.employee_with_job = Ok d
    /\ Js.keys d = employee_keys
    /\ Js.prop "firstName" d = Js.Str "Ada"
    /\ Js.prop "email" d = Js.Undefined
    /\ Js.prop "unknown_field" d = Js.Undefined.
Proof.
  destruct (mapEmployee Example.employee_with_job) as [d |] eqn:M;
    [| discriminate M].
  destruct (mapEmployee_copies_the_known_fields_and_drops_the_rest
              Example.employee_with_job d M) as (K & C & _ & U).
  exists d. split; [reflexivity |]. split; [exact K |]. split; [| split].
  - rewrite (C "firstName" "first_name"); [reflexivity | simpl; auto 25].
  - rewrite (C "email" "email"); [reflexivity | simpl; auto 25].
  - apply U. simpl. intuition discriminate.
Defined.

Lemma assoc_absent (k : string) (fields : list (string * Js.value)) :
  ~ In k (map fst fields) -> Js.assoc k fields = None.
Proof.
  induction fields as [| [k' v] rest IH]; simpl; [reflexivity |].
  intro N. destruct (k' =? k) eqn:E.
  - apply String.eqb_eq in E. exfalso. apply N. left. exact E.
  - apply IH. intro I. apply N. right. exact I.
Qed.

(** Dropping the [undefined] fields of an object without repeated keys does
    not change what a property access reads. *)
Lemma prop_written (k : string) (fields : list (string * Js.value)) :
  NoDup (map fst fields) ->
  Js.prop k (Js.Obj (Js.written fields)) = Js.prop k (Js.Obj fields).
Proof.
  induction fields as [| [k' v] rest IH]; [reflexivity |].
  intro D. inversion D as [| ? ? N D']; subst. specialize (IH D').
  unfold Js.written in *. simpl in *.
  destruct (Js.defined v) eqn:V; simpl.
  - destruct (k' =? k); [reflexivity | exact IH].
  - rewrite IH. destruct (k' =? k) eqn:E; [| reflexivity].
    apply String.eqb_eq in E. subst k'.
    rewrite (assoc_absent k rest N). destruct v; try discriminate V.
    reflexivity.
Qed.

(** X11. The field names [createEmployee] and [updateEmployee] write and
    the ones [mapEmployee] reads agree, but for one: when the upstream
    answers with the fields that were written, the mapped employee carries
    every input of an update, and the names, date of birth, email and ssn
    of a creation, under its own name, an input that was not given coming
    back [undefined]. [selfOnboarding] is written as [self_onboarding] and
    never read back: the mapped employee has no such field and is the same
    whatever the flag was. *)
Theorem written_employee_fields_are_read_back_but_self_onboarding
  (update : EmployeeUpdateInput.t) (create : EmployeeCreateInput.t) :
  (exists fields d,
     updateEmployee_payload update = Js.Obj fields
     /\ mapEmployee (Js.Obj (Js.written fields)) = Ok d
     /\ Js.prop "firstName" d = opt_str (EmployeeUpdateInput.firstName update)
     /\ Js.prop "lastName" d = opt_str (EmployeeUpdateInput.lastName update)
     /\ Js.prop "middleName" d = opt_str (EmployeeUpdateInput.middleName update)
     /\ Js.prop "preferredFirstName" d
        = opt_str (EmployeeUpdateInput.preferredFirstName update)
     /\ Js.prop "email" d = opt_str (EmployeeUpdateInput.email update)
     /\ Js.prop "dateOfBirth" d
        = opt_str (EmployeeUpdateInput.dateOfBirth update)
     /\ Js.prop "ssn" d = opt_str (EmployeeUpdateInput.ssn update)
     /\ Js.prop "twoPercentShareholder" d
        = opt_bool (EmployeeUpdateInput.twoPercentShareholder update))
  /\ (exists fields d,
        createEmployee_payload create = Js.Obj fields
        /\ mapEmployee (Js.Obj (Js.written fields)) = Ok d
        /\ Js.prop "firstName" d = Js.Str (EmployeeCreateInput.firstName create)
        /\ Js.prop "lastName" d = Js.Str (EmployeeCreateInput.lastName create)
        /\ Js.prop "middleName" d
           = opt_str (EmployeeCreateInput.middleName create)
        /\ Js.prop "dateOfBirth" d
           = opt_str (EmployeeCreateInput.dateOfBirth create)
        /\ Js.prop "email" d = opt_str (EmployeeCreateInput.email create)
        /\ Js.prop "ssn" d = opt_str (EmployeeCreateInput.ssn create)
        /\ Js.assoc "self_onboarding" fields
           = Some (opt_bool (EmployeeCreateInput.selfOnboarding create))
        /\ Js.prop "selfOnboarding" d = Js.Undefined
        /\ Js.prop "self_onboarding" d = Js.Undefined
        /\ (forall flag fields',
              createEmployee_payload
                {| EmployeeCreateInput.firstName :=
                     EmployeeCreateInput.firstName create;
                   EmployeeCreateInput.lastName :=
                     EmployeeCreateInput.lastName create;
                   EmployeeCreateInput.middleName :=
                     EmployeeCreateInput.middleName create;
                   EmployeeCreateInput.dateOfBirth :=
                     EmployeeCreateInput.dateOfBirth create;
                   EmployeeCreateInput.email :=
                     EmployeeCreateInput.email create;
                   EmployeeCreateInput.ssn := EmployeeCreateInput.ssn create;
                   EmployeeCreateInput.selfOnboarding := flag |}
              = Js.Obj fields' ->
              mapEmployee (Js.Obj (Js.written fields')) = Ok d)).
Proof.
  split.
  - unfold updateEmployee_payload.
    match goal with
    | |- exists fields d, Js.Obj ?fs = _ /\ _ =>
        assert (NoDup (map fst fs)) as D
          by (repeat constructor; simpl; intuition discriminate);
        exists fs; remember fs as fields eqn:F
    end.
    unfold mapEmployee. simpl Js.nullish. cbv iota. cbv zeta.
    rewrite !(prop_written _ fields D).
    assert (Js.prop "jobs" (Js.Obj fields) = Js.Undefined) as ->
      by (subst fields; reflexivity).
    assert (Js.prop "garnishments" (Js.Obj fields) = Js.Undefined) as ->
      by (subst fields; reflexivity).
    simpl opt_array_map. cbv iota.
    eexists. split; [reflexivity |]. split; [reflexivity |].
    unfold rename. cbn [map fst snd List.app].
    rewrite !(prop_written _ fields D). subst fields.
    repeat split; reflexivity.
  - unfold createEmployee_payload.
    match goal with
    | |- exists fields d, Js.Obj ?fs = _ /\ _ =>
        assert (NoDup (map fst fs)) as D
          by (repeat constructor; simpl; intuition discriminate);
        exists fs; remember fs as fields eqn:F
    end.
    unfold mapEmployee. simpl Js.nullish. cbv iota. cbv zeta.
    rewrite !(prop_written _ fields D).
    assert (Js.prop "jobs" (Js.Obj fields) = Js.Undefined) as ->
      by (subst fields; reflexivity).
    assert (Js.prop "garnishments" (Js.Obj fields) = Js.Undefined) as ->
      by (subst fields; reflexivity).
    simpl opt_array_map. cbv iota.
    eexists. split; [reflexivity |]. split; [reflexivity |].
    unfold rename. cbn [map fst snd List.app].
    rewrite !(prop_written _ fields D).
    do 9 (split; [subst fields; reflexivity |]).
    intros flag fields' E. cbn [EmployeeCreateInput.firstName
      EmployeeCreateInput.lastName EmployeeCreateInput.middleName
      EmployeeCreateInput.dateOfBirth EmployeeCreateInput.email
      EmployeeCreateInput.ssn EmployeeCreateInput.selfOnboarding] in E.
    injection E as <-.
    match goal with
    | |- context [Js.written ?fs] =>
        assert (NoDup (map fst fs)) as D'
          by (repeat constructor; simpl; intuition discriminate);
        remember fs as others eqn:O
    end.
    change (match Js.assoc "jobs" (Js.written others) with
            | Some x => x
            | None => Js.Undefined
            end) with (Js.prop "jobs" (Js.Obj (Js.written others))).
    change (match Js.assoc "garnishments" (Js.written others) with
            | Some x => x
            | None => Js.Undefined
            end) with (Js.prop "garnishments" (Js.Obj (Js.written others))).
    rewrite !(prop_written _ others D').
    assert (Js.prop "jobs" (Js.Obj others) = Js.Undefined) as ->
      by (subst others; reflexivity).
    assert (Js.prop "garnishments" (Js.Obj others) = Js.Undefined) as ->
      by (subst others; reflexivity).
    subst fields others. reflexivity.
Qed.

(* ====================================================================== *)
(** * The employee listing *)
(* ====================================================================== *)

Section QueryFacts.

Variable params : option EmployeeListParams.t.

Lemma listEmployees_query_entries :
  listEmployees_query params
  = numeric_entry "page" (requested_page params)
    +++ numeric_entry "per" (requested_per params)
    +++ flag_entry "terminated" (requested_terminated params).
Proof.
  unfold listEmployees_query, numeric_entry, flag_entry.
  destruct (requested_page params) as [page |];
    [generalize (Js.show_number page); intro; destruct (page =? 0)%Z |];
    (destruct (requested_per params) as [per |];
     [generalize (Js.show_number per); intro; destruct (per =? 0)%Z |]);
    destruct (requested_terminated params) as [[|] |]; reflexivity.
Qed.

Lemma numeric_entry_In (key k v : string) (n : option Z) :
  In (k, v) (numeric_entry key n)
  <-> k = key /\ exists z, n = Some z /\ z <> 0%Z /\ v = Js.show_number z.
Proof.
  unfold numeric_entry. destruct n as [z |].
  - destruct (Z.eqb_spec z 0) as [-> | D]; simpl.
    + split; [intros [] | intros (_ & z & E & D & _)].
      injection E as <-. apply D. reflexivity.
    + split.
      * intros [E | []]. injection E as <- <-.
        split; [reflexivity |]. exists z. repeat split. exact D.
      * intros (-> & z' & E & _ & ->). injection E as <-. left. reflexivity.
  - simpl. split; [intros [] | intros (_ & z & E & _)]. discriminate E.
Qed.

Lemma flag_entry_In (key k v : string) (b : option bool) :
  In (k, v) (flag_entry key b)
  <-> k = key /\ exists x, b = Some x /\ v = if x then "true" else "false".
Proof.
  unfold flag_entry. destruct b as [x |]; simpl.
  - split.
    + intros [E | []]. injection E as <- <-.
      split; [reflexivity |]. exists x. split; reflexivity.
    + intros (-> & x' & E & ->). injection E as <-. left. reflexivity.
  - split; [intros [] | intros (_ & x & E & _)]. discriminate E.
Qed.

Lemma numeric_entry_keys (key : string) (n : option Z) :
  map fst (numeric_entry key n) = [] \/ map fst (numeric_entry key n) = [key].
Proof.
  unfold numeric_entry. destruct n as [z |]; [| left; reflexivity].
  destruct (z =? 0)%Z; [left | right]; reflexivity.
Qed.

Lemma flag_entry_keys (key : string) (b : option bool) :
  map fst (flag_entry key b) = [] \/ map fst (flag_entry key b) = [key].
Proof.
  destruct b; [right | left]; reflexivity.
Qed.

End QueryFacts.

Lemma listEmployees_query_members (params : option EmployeeListParams.t) :
  (forall v, In ("page", v) (listEmployees_query params)
             <-> exists n, requested_page params = Some n /\ n <> 0%Z
                           /\ v = Js.show_number n)
  /\ (forall v, In ("per", v) (listEmployees_query params)
                <-> exists n, requested_per params = Some n /\ n <> 0%Z
                              /\ v = Js.show_number n)
  /\ (forall v, In ("terminated", v) (listEmployees_query params)
                <-> exists b, requested_terminated params = Some b
                              /\ v = if b then "true" else "false")
  /\ (forall k v, In (k, v) (listEmployees_query params) ->
        k = "page" \/ k = "per" \/ k = "terminated")
  /\ NoDup (map fst (listEmployees_query params)).
Proof.
  rewrite listEmployees_query_entries.
  split; [| split; [| split; [| split]]].
  - intro v. rewrite !in_app_iff, !numeric_entry_In, flag_entry_In.
    split.
    + intros [[_ H] | [[E _] | [E _]]]; [exact H | |]; discriminate E.
    + intro H. left. split; [reflexivity | exact H].
  - intro v. rewrite !in_app_iff, !numeric_entry_In, flag_entry_In.
    split.
    + intros [[E _] | [[_ H] | [E _]]]; [| exact H |]; discriminate E.
    + intro H. right. left. split; [reflexivity | exact H].
  - intro v. rewrite !in_app_iff, !numeric_entry_In, flag_entry_In.
    split.
    + intros [[E _] | [[E _] | [_ H]]]; [| | exact H]; discriminate E.
    + intro H. right. right. split; [reflexivity | exact H].
  - intros k v. rewrite !in_app_iff, !numeric_entry_In, flag_entry_In.
    intros [[E _] | [[E _] | [E _]]]; auto.
  - rewrite !map_app.
    destruct (numeric_entry_keys "page" (requested_page params)) as [-> | ->];
      destruct (numeric_entry_keys "per" (requested_per params)) as [-> | ->];
      destruct (flag_entry_keys "terminated" (requested_terminated params))
        as [-> | ->];
      simpl; repeat constructor; simpl; intuition discriminate.
Qed.

Lemma show_number_safe (n : Z) :
  Js.safe_integer n -> Js.show_number n = Js.decimal n.
Proof.
  unfold Js.safe_integer, Js.MAX_SAFE_INTEGER. intro S.
  apply show_number_decimal. lia.
Qed.

(** X12. When the page and the page size asked for are safe integers,
    the query of [listEmployees] holds [page] exactly when a non-zero page
    was asked for, [per] exactly when a non-zero page size was asked for,
    each as its decimal numeral, and [terminated] exactly when the flag
    was given, [false] included, as [true] or [false]; each once, and
    nothing else. *)
Theorem list_employees_query_holds_what_was_given
  (params : option EmployeeListParams.t) :
  (forall n, requested_page params = Some n -> Js.safe_integer n) ->
  (forall n, requested_per params = Some n -> Js.safe_integer n) ->
  (forall v, In ("page", v) (listEmployees_query params)
             <-> exists n, requested_page params = Some n /\ n <> 0%Z
                           /\ v = Js.decimal n)
  /\ (forall v, In ("per", v) (listEmployees_query params)
                <-> exists n, requested_per params = Some n /\ n <> 0%Z
                              /\ v = Js.decimal n)
  /\ (forall v, In ("terminated", v) (listEmployees_query params)
                <-> exists b, requested_terminated params = Some b
                              /\ v = if b then "true" else "false")
  /\ (forall k v, In (k, v) (listEmployees_query params) ->
        k = "page" \/ k = "per" \/ k = "terminated")
  /\ NoDup (map fst (listEmployees_query params)).
Proof.
  intros SP SQ.
  destruct (listEmployees_query_members params) as (P & Q & T & K & D).
  split; [| split; [| split; [| split]]];
    [| | exact T | exact K | exact D].
  - intro v. rewrite (P v). split; intros (n & E & N & ->); exists n;
      (split; [exact E |]); (split; [exact N |]);
      rewrite (show_number_safe n (SP n E)); reflexivity.
  - intro v. rewrite (Q v). split; intros (n & E & N & ->); exists n;
      (split; [exact E |]); (split; [exact N |]);
      rewrite (show_number_safe n (SQ n E)); reflexivity.
Qed.

(** X12, on the second page of 500 employees still employed. *)
Lemma list_employees_query_witness :
  listEmployees_query
    (Some {| EmployeeListParams.page := Some 2%Z;
             EmployeeListParams.per := Some 500%Z;
             EmployeeListParams.terminated := Some false |})
  = [("page", "2"); ("per", "500"); ("terminated", "false")]
  /\ In ("per", "500")
       (listEmployees_query
          (Some {| EmployeeListParams.page := Some 2%Z;
                   EmployeeListParams.per := Some 500%Z;
                   EmployeeListParams.terminated := Some false |})).
Proof.
  split; [reflexivity |].
  assert (forall n, (Z.abs n < 1000)%Z -> Js.safe_integer n) as S
    by (unfold Js.safe_integer, Js.MAX_SAFE_INTEGER; lia).
  apply (proj1 (proj2
           (list_employees_query_holds_what_was_given
              (Some {| EmployeeListParams.page := Some 2%Z;
                       EmployeeListParams.per := Some 500%Z;
                       EmployeeListParams.terminated := Some false |})
              (fun n E => S n ltac:(injection E as <-; reflexivity))
              (fun n E => S n ltac:(injection E as <-; reflexivity))))).
  exists 500%Z. split; [reflexivity |]. split; [discriminate | reflexivity].
Defined.

Section ListingShape.

Variable fetch : HttpRequest -> FetchOutcome.
Variable JSON_parse : string -> option Js.value.
Variable credentials : TenantCredentials.

(** [listEmployees] in terms of what [request] returned. *)
Lemma listEmployees_of_data (companyId : string)
  (params : option EmployeeListParams.t) (log : list HttpRequest)
  (data : Js.value) :
  snd (request fetch JSON_parse credentials
         (listEmployees_endpoint companyId params) GET log) = Ok data ->
  snd (listEmployees fetch JSON_parse credentials companyId params log)
  = match array_map mapEmployee data with
    | Ok items =>
        Ok {| PaginatedResponse.items := items;
              PaginatedResponse.count := Z.of_nat (List.length items);
              PaginatedResponse.total := None;
              PaginatedResponse.hasMore :=
                (Z.of_nat (List.length items)
                 =? num_or (requested_per params) 25)%Z;
              PaginatedResponse.nextPage :=
                if (Z.of_nat (List.length items)
                    =? num_or (requested_per params) 25)%Z
                then Some (Js.add (num_or (requested_page params) 1) 1)
                else None |}
    | Throw e => Throw e
    end.
Proof.
  intro R. unfold listEmployees, bind.
  destruct (request fetch JSON_parse credentials _ GET log) as [log' r].
  simpl in R. subst r. unfold lift.
  destruct (array_map mapEmployee data); reflexivity.
Qed.

Lemma listEmployees_inv (companyId : string)
  (params : option EmployeeListParams.t) (log : list HttpRequest)
  (page : PaginatedResponse.t) :
  snd (listEmployees fetch JSON_parse credentials companyId params log)
  = Ok page ->
  exists records,
    snd (request fetch JSON_parse credentials
           (listEmployees_endpoint companyId params) GET log)
    = Ok (Js.Arr records)
    /\ map_result mapEmployee records = Ok (PaginatedResponse.items page).
Proof.
  unfold listEmployees, bind.
  destruct (request fetch JSON_parse credentials _ GET log) as [log' [data | e]];
    [| discriminate].
  unfold lift, array_map.
  destruct data as [| | | | | records |]; try discriminate.
  destruct (map_result mapEmployee records) as [items |] eqn:M;
    [| discriminate].
  simpl. intro H. injection H as <-. exists records.
  split; [reflexivity | exact M].
Qed.

End ListingShape.

Lemma Forall2_length_eq (A B : Type) (R : A -> B -> Prop)
  (xs : list A) (ys : list B) :
  Forall2 R xs ys -> List.length xs = List.length ys.
Proof.
  induction 1; simpl; congruence.
Qed.

(** X13. [listEmployees] maps the whole page or nothing. Given what
    [request] returned: an array whose records all map gives a page with
    one employee per record, in order; an array with a record that does not
    map, and anything that is not an array (an object, [null], the
    [undefined] of a 204), makes the listing throw a [TypeError]. *)
Theorem list_employees_maps_the_whole_page_or_throws
  (fetch : HttpRequest -> FetchOutcome)
  (JSON_parse : string -> option Js.value)
  (credentials : TenantCredentials) (companyId : string)
  (params : option EmployeeListParams.t) (log : list HttpRequest)
  (data : Js.value) :
  snd (request fetch JSON_parse credentials
         (listEmployees_endpoint companyId params) GET log) = Ok data ->
  (forall records, data = Js.Arr records ->
     Forall employee_maps records ->
     exists page,
       snd (listEmployees fetch JSON_parse credentials companyId params log)
       = Ok page
       /\ Forall2 (fun r e => mapEmployee r = Ok e)
            records (PaginatedResponse.items page)
       /\ List.length (PaginatedResponse.items page) = List.length records)
  /\ (forall records, data = Js.Arr records ->
        ~ Forall employee_maps records ->
        snd (listEmployees fetch JSON_parse credentials companyId params log)
        = Throw TypeError)
  /\ ((forall records, data <> Js.Arr records) ->
      snd (listEmployees fetch JSON_parse credentials companyId params log)
      = Throw TypeError).
Proof.
  intro R.
  rewrite (listEmployees_of_data fetch JSON_parse credentials companyId params
             log data R).
  split; [| split].
  - intros records -> A. unfold array_map.
    assert (exists items, map_result mapEmployee records = Ok items)
      as [items M].
    { apply map_result_ok_iff. eapply Forall_impl; [| exact A].
      intros r E.
      apply (proj2 (mapEmployee_ok_iff r)).
      exact E. }
    rewrite M. eexists. split; [reflexivity |]. simpl.
    pose proof (map_result_Forall2 mapEmployee records items M) as F.
    split; [exact F |]. symmetry. apply (Forall2_length_eq _ _ _ _ _ F).
  - intros records -> A. unfold array_map.
    destruct (map_result mapEmployee records) as [items | e] eqn:M.
    + exfalso. apply A.
      assert (Forall (fun x => exists y, mapEmployee x = Ok y) records) as F
        by (apply map_result_ok_iff; exists items; exact M).
      eapply Forall_impl; [| exact F]. intros r E.
      apply (proj1 (mapEmployee_ok_iff r)).
      exact E.
    + rewrite (map_result_throws mapEmployee records e mapEmployee_throws M).
      reflexivity.
  - intro N. unfold array_map. destruct data; try reflexivity.
    exfalso. apply (N items). reflexivity.
Qed.

(** X13, on a page of two records and on a 204. *)
Lemma whole_page_witness :
  (exists page,
     snd (listEmployees
            (Sample.always (Sample.respond 200 [] Sample.two_employees))
            (Sample.parse_known Sample.known) Sample.credentials "c-1" None [])
     = Ok page
     /\ List.length (PaginatedResponse.items page) = 2%nat)
  /\ snd (listEmployees
            (Sample.always (Sample.respond 204 [] Js.Null))
            (Sample.parse_known Sample.known) Sample.credentials "c-1" None [])
     = Throw TypeError.
Proof.
  split.
  - destruct (list_employees_maps_the_whole_page_or_throws
                (Sample.always (Sample.respond 200 [] Sample.two_employees))
                (Sample.parse_known Sample.known) Sample.credentials "c-1"
                None [] Sample.two_employees eq_refl)
      as (whole & _ & _).
    destruct (whole _ eq_refl) as (page & R & _ & L).
    + repeat constructor; left; reflexivity.
    + exists page. split; [exact R | exact L].
  - destruct (list_employees_maps_the_whole_page_or_throws
                (Sample.always (Sample.respond 204 [] Js.Null))
                (Sample.parse_known Sample.known) Sample.credentials "c-1"
                None [] Js.Undefined eq_refl)
      as (_ & _ & other).
    apply other. discriminate.
Defined.

(* ====================================================================== *)
(** * Rendering what the client returns *)
(* ====================================================================== *)

Section RenderingFacts.

Lemma type_error_ok {A : Type} (a : A) : fails_with_type_error (Ok a).
Proof. intros e H. discriminate H. Qed.

Lemma type_error_thrown {A : Type} :
  fails_with_type_error (@Throw A TypeError).
Proof. intros e H. injection H as <-. reflexivity. Qed.

Lemma type_error_string_of (v : Js.value) :
  fails_with_type_error (string_of v).
Proof.
  unfold string_of. destruct (Js.to_string v);
    [apply type_error_ok | apply type_error_thrown].
Qed.

Lemma type_error_and_then {A B : Type} (r : result A) (k : A -> result B) :
  fails_with_type_error r ->
  (forall a, fails_with_type_error (k a)) ->
  fails_with_type_error (and_then r k).
Proof.
  intros R K. destruct r as [a | e]; simpl; [apply K |].
  intros e' H. injection H as <-. apply R. reflexivity.
Qed.

Lemma type_error_if {A : Type} (b : bool) (x y : result A) :
  fails_with_type_error x -> fails_with_type_error y ->
  fails_with_type_error (if b then x else y).
Proof. destruct b; auto. Qed.

Lemma to_string_text (v : Js.value) :
  is_object v = false -> Js.to_string v = Some (Js.primitive_text v).
Proof. destruct v; intro H; try discriminate H; reflexivity. Qed.

Lemma string_of_text (v : Js.value) :
  is_object v = false -> string_of v = Ok (Js.primitive_text v).
Proof. intro H. unfold string_of. rewrite (to_string_text v H). reflexivity. Qed.

Lemma or_else_text (a : Js.value) (alt : string) :
  is_object a = false -> is_object (Js.or_else a (Js.Str alt)) = false.
Proof. intro H. unfold Js.or_else. destruct (Js.truthy a); [exact H | reflexivity]. Qed.

Lemma text_or_text (a : Js.value) (alt : string) :
  is_object a = false ->
  text_or a alt = Ok (Js.primitive_text (Js.or_else a (Js.Str alt))).
Proof.
  intro H. unfold text_or. apply string_of_text. apply or_else_text. exact H.
Qed.

Lemma rows_ok_iff (row : Js.value -> result (list string))
  (items : list Js.value) :
  (exists body, rows row items = Ok body)
  <-> Forall (fun item => Js.nullish item = false
                          /\ exists lines, row item = Ok lines) items.
Proof.
  induction items as [| item rest IH]; simpl.
  - split; [constructor | intros _; eexists; reflexivity].
  - destruct (Js.nullish item) eqn:N.
    + split; [intros [body H]; discriminate H |].
      intro A. inversion A as [| ? ? P _]; subst. destruct P as [D _].
      rewrite N in D. discriminate D.
    + split.
      * intros [body H].
        destruct (row item) as [lines | e] eqn:R; [| discriminate H].
        simpl in H.
        destruct (rows row rest) as [more | e] eqn:M; [| discriminate H].
        constructor; [split; [exact N | exists lines; exact R] |].
        apply IH. exists more. reflexivity.
      * intro A. inversion A as [| ? ? P T]; subst.
        destruct P as [_ [lines R]].
        apply IH in T as [more M]. rewrite R. simpl. rewrite M.
        eexists. reflexivity.
Qed.

Lemma rows_type_error (row : Js.value -> result (list string))
  (items : list Js.value) :
  (forall item, fails_with_type_error (row item)) ->
  fails_with_type_error (rows row items).
Proof.
  intro R. induction items as [| item rest IH]; simpl;
    [apply type_error_ok |].
  destruct (Js.nullish item); [apply type_error_thrown |].
  apply type_error_and_then; [apply R | intro lines].
  apply type_error_and_then; [exact IH | intro more; apply type_error_ok].
Qed.

Lemma table_ok_iff (header : list string)
  (row : Js.value -> result (list string)) (items : list Js.value) :
  (exists t, table header row items = Ok t)
  <-> Forall (fun item => Js.nullish item = false
                          /\ exists lines, row item = Ok lines) items.
Proof.
  rewrite <- (rows_ok_iff row items). unfold table.
  destruct (rows row items) as [body | e]; simpl.
  - split; intros _; eexists; reflexivity.
  - split; intros [x H]; discriminate H.
Qed.

Lemma table_type_error (header : list string)
  (row : Js.value -> result (list string)) (items : list Js.value) :
  (forall item, fails_with_type_error (row item)) ->
  fails_with_type_error (table header row items).
Proof.
  intro R. unfold table.
  apply type_error_and_then; [apply rows_type_error; exact R |].
  intro body. apply type_error_ok.
Qed.

(** A table whose rows throw nothing but a [TypeError] either renders or
    throws a [TypeError]; it throws when an item is [null] or a row cannot
    be built. *)
Lemma table_throws_on (header : list string)
  (row : Js.value -> result (list string)) (items : list Js.value) :
  (forall item, fails_with_type_error (row item)) ->
  Exists (fun item => Js.nullish item = true
                      \/ forall lines, row item <> Ok lines) items ->
  table header row items = Throw TypeError.
Proof.
  intros R X.
  destruct (table header row items) as [t | e] eqn:T.
  - exfalso.
    assert (Forall (fun item => Js.nullish item = false
                                /\ exists lines, row item = Ok lines) items)
      as A by (apply (table_ok_iff header); exists t; exact T).
    apply Exists_exists in X as (item & I & [N | B]);
      apply (proj1 (Forall_forall _ _) A) in I as [D [lines O]].
    + rewrite N in D. discriminate D.
    + apply (B lines O).
  - rewrite (table_type_error header row items R e T). reflexivity.
Qed.

Ltac type_error_steps :=
  repeat first
    [ apply type_error_ok
    | apply type_error_thrown
    | apply type_error_string_of
    | apply type_error_if
    | apply type_error_and_then; [| intro] ].

Lemma full_name_type_error (item : Js.value) :
  fails_with_type_error (full_name item).
Proof. unfold full_name, text_or. type_error_steps. Qed.

Lemma employee_row_type_error (emp : Js.value) :
  fails_with_type_error (employee_row emp).
Proof.
  unfold employee_row, text_or.
  apply type_error_and_then; [apply full_name_type_error | intro].
  type_error_steps.
Qed.

Lemma contractor_row_type_error (c : Js.value) :
  fails_with_type_error (contractor_row c).
Proof.
  unfold contractor_row, text_or.
  apply type_error_and_then.
  - apply type_error_if; [apply type_error_ok |].
    apply type_error_and_then; [apply full_name_type_error | intro].
    apply type_error_ok.
  - intro. type_error_steps.
Qed.

Lemma payroll_row_type_error (p : Js.value) :
  fails_with_type_error (payroll_row p).
Proof. unfold payroll_row, text_or. type_error_steps. Qed.

Lemma schedule_lines_type_error (schedule : Js.value) :
  fails_with_type_error (schedule_lines schedule).
Proof. unfold schedule_lines, text_or. type_error_steps. Qed.

Lemma company_row_type_error (c : Js.value) :
  fails_with_type_error (company_row c).
Proof. unfold company_row, text_or. type_error_steps. Qed.

Ltac cell_facts H :=
  unfold texts in H;
  repeat match type of H with
         | Forall _ (_ :: _) =>
             let C := fresh "C" in
             let T := fresh "T" in
             inversion H as [| ? ? C T]; subst; clear H; rename T into H
         end.

Lemma full_name_ok (item : Js.value) :
  is_object (Js.prop "firstName" item) = false ->
  is_object (Js.prop "lastName" item) = false ->
  exists name, full_name item = Ok name.
Proof.
  intros F L. unfold full_name.
  rewrite (text_or_text _ _ F), (text_or_text _ _ L). simpl.
  eexists. reflexivity.
Qed.

Lemma employee_row_ok (emp : Js.value) :
  texts (employee_cells emp) -> exists lines, employee_row emp = Ok lines.
Proof.
  intro H. unfold employee_cells in H. cell_facts H.
  unfold employee_row.
  destruct (full_name_ok emp) as [name ->]; try assumption. simpl.
  rewrite (string_of_text (Js.prop "uuid" emp)) by assumption. simpl.
  rewrite (text_or_text (Js.prop "email" emp)) by assumption. simpl.
  rewrite string_of_text.
  - simpl. eexists. reflexivity.
  - destruct (Js.truthy (Js.prop "terminated" emp)); [reflexivity |].
    apply or_else_text. assumption.
Qed.

Lemma employee_row_converts_the_uuid (emp : Js.value) (lines : list string) :
  employee_row emp = Ok lines -> Js.to_string (Js.prop "uuid" emp) <> None.
Proof.
  unfold employee_row, string_of. intros H N.
  destruct (full_name emp); simpl in H; [| discriminate H].
  rewrite N in H. discriminate H.
Qed.

Lemma contractor_row_ok (c : Js.value) :
  texts (contractor_cells c) -> exists lines, contractor_row c = Ok lines.
Proof.
  intro H. unfold contractor_cells in H. cell_facts H.
  unfold contractor_row.
  assert (exists name,
            (if is_business (Js.prop "type" c)
             then Ok (Js.or_else (Js.prop "businessName" c) (Js.Str "-"))
             else and_then (full_name c) (fun person => Ok (Js.Str person)))
            = Ok name /\ is_object name = false) as (name & -> & N).
  { destruct (is_business (Js.prop "type" c)).
    - eexists. split; [reflexivity |]. apply or_else_text. assumption.
    - destruct (full_name_ok c) as [person ->]; try assumption.
      eexists. split; reflexivity. }
  simpl.
  rewrite (string_of_text (Js.prop "uuid" c)) by assumption. simpl.
  rewrite (string_of_text name N). simpl.
  rewrite (text_or_text (Js.prop "type" c)) by assumption. simpl.
  rewrite (text_or_text (Js.prop "email" c)) by assumption. simpl.
  eexists. reflexivity.
Qed.

Lemma payroll_row_ok (p : Js.value) :
  texts (payroll_cells p) -> exists lines, payroll_row p = Ok lines.
Proof.
  intro H. unfold payroll_cells in H. cell_facts H.
  unfold payroll_row.
  rewrite !(string_of_text (Js.prop "payPeriodStartDate" p)) by assumption.
  rewrite !(string_of_text (Js.prop "payPeriodEndDate" p)) by assumption.
  rewrite !(string_of_text (Js.opt_member "grossPay" (Js.prop "totals" p)))
    by assumption.
  rewrite (text_or_text (Js.prop "checkDate" p)) by assumption.
  rewrite string_of_text.
  - destruct (Js.truthy (Js.prop "payPeriodStartDate" p)
              && Js.truthy (Js.prop "payPeriodEndDate" p));
      destruct (Js.truthy (Js.opt_member "grossPay" (Js.prop "totals" p)));
      simpl; eexists; reflexivity.
  - unfold Js.or_else.
    destruct (Js.truthy (Js.prop "uuid" p)); [assumption |].
    destruct (Js.truthy (Js.prop "payrollUuid" p)); [assumption | reflexivity].
Qed.

Lemma schedule_lines_ok (schedule : Js.value) :
  texts (schedule_cells schedule) ->
  exists lines, schedule_lines schedule = Ok lines.
Proof.
  intro H. unfold schedule_cells in H. cell_facts H.
  unfold schedule_lines.
  rewrite (text_or_text (Js.prop "name" schedule)) by assumption.
  rewrite !(string_of_text (Js.prop "uuid" schedule)) by assumption.
  rewrite (text_or_text (Js.prop "frequency" schedule)) by assumption.
  rewrite !(string_of_text (Js.prop "anchorPayDate" schedule)) by assumption.
  destruct (Js.truthy (Js.prop "anchorPayDate" schedule)); simpl;
    eexists; reflexivity.
Qed.

Lemma company_row_ok (c : Js.value) :
  texts (company_cells c) -> exists lines, company_row c = Ok lines.
Proof.
  intro H. unfold company_cells in H. cell_facts H.
  unfold company_row.
  rewrite (string_of_text (Js.prop "uuid" c)) by assumption.
  rewrite (string_of_text (Js.prop "name" c)) by assumption.
  rewrite (text_or_text (Js.prop "ein" c)) by assumption.
  rewrite (text_or_text (Js.prop "companyStatus" c)) by assumption.
  simpl. eexists. reflexivity.
Qed.

Lemma mapped_employees_are_objects (records items : list Js.value) :
  map_result mapEmployee records = Ok items ->
  Forall (fun item => Js.nullish item = false) items.
Proof.
  intro M. apply map_result_Forall2 in M.
  induction M as [| r e records items E _ IH]; constructor; [| exact IH].
  destruct (mapEmployee_shape r e E) as (fields & -> & _). reflexivity.
Qed.

End RenderingFacts.

(** The page [gusto_list_employees] hands to the formatter. *)
Lemma gusto_list_employees_of_page
  (fetch : HttpRequest -> FetchOutcome)
  (JSON_parse : string -> option Js.value)
  (formatErrorForLogging : error -> Js.value)
  (credentials : TenantCredentials) (args : ListEmployeesArgs.t)
  (log : list HttpRequest) (page : PaginatedResponse.t) :
  snd (listEmployees fetch JSON_parse credentials
         (ListEmployeesArgs.companyId args)
         (Some {| EmployeeListParams.page := ListEmployeesArgs.page args;
                  EmployeeListParams.per := ListEmployeesArgs.per args;
                  EmployeeListParams.terminated :=
                    ListEmployeesArgs.terminated args |}) log)
  = Ok page ->
  snd (gusto_list_employees fetch JSON_parse formatErrorForLogging
         credentials args log)
  = match formatResponse (paginated_object page)
            (ListEmployeesArgs.format args) "employees" with
    | Ok response => Ok response
    | Throw e => Ok (formatError formatErrorForLogging e)
    end.
Proof.
  intro L. unfold gusto_list_employees, handler, try_catch, bind.
  destruct (listEmployees fetch JSON_parse credentials _ _ log) as [log' r].
  simpl in L. subst r. unfold lift.
  destruct (formatResponse (paginated_object page)
              (ListEmployeesArgs.format args) "employees"); reflexivity.
Qed.

(** The Markdown of a page of employees, in terms of its table. *)
Lemma employees_page_markdown (page : PaginatedResponse.t) :
  (forall t, formatEmployeesTable (PaginatedResponse.items page) = Ok t ->
     exists text,
       formatAsMarkdown (paginated_object page) "employees" = Ok text)
  /\ (formatEmployeesTable (PaginatedResponse.items page) = Throw TypeError ->
      PaginatedResponse.items page <> [] ->
      formatAsMarkdown (paginated_object page) "employees" = Throw TypeError).
Proof.
  unfold formatAsMarkdown, formatPaginatedAsMarkdown, paginated_header,
    string_of.
  change (isPaginatedResponse (paginated_object page)) with true.
  change (items_of (paginated_object page))
    with (PaginatedResponse.items page).
  change (Js.prop "count" (paginated_object page))
    with (Js.Num (PaginatedResponse.count page)).
  change (Js.prop "total" (paginated_object page))
    with (opt_num (PaginatedResponse.total page)).
  change (Js.prop "hasMore" (paginated_object page))
    with (Js.Bool (PaginatedResponse.hasMore page)).
  change (Js.prop "nextPage" (paginated_object page))
    with (opt_num (PaginatedResponse.nextPage page)).
  cbv iota. cbn [Js.to_string Js.primitive_text and_then Js.truthy].
  assert (forall o, exists text, Js.to_string (opt_num o) = Some text) as N
    by (intros [n |]; eexists; reflexivity).
  destruct (N (PaginatedResponse.total page)) as [total ->].
  destruct (N (PaginatedResponse.nextPage page)) as [next ->].
  change ("employees" =? "employees") with true. cbv iota.
  split.
  - intros t T.
    destruct (Js.defined (opt_num (PaginatedResponse.total page)));
      destruct (PaginatedResponse.hasMore page);
      cbn [and_then];
      (destruct (PaginatedResponse.items page) as [| item rest];
       [eexists; reflexivity | rewrite T; eexists; reflexivity]).
  - intros T I.
    destruct (Js.defined (opt_num (PaginatedResponse.total page)));
      destruct (PaginatedResponse.hasMore page);
      cbn [and_then];
      (destruct (PaginatedResponse.items page) as [| item rest];
       [destruct (I eq_refl) | rewrite T; reflexivity]).
Qed.

(** X14. A page [listEmployees] returned is rendered by the tool without
    an error flag, as one block of text, in JSON always and in Markdown
    whenever the cells of the table (first and last name, uuid, email and
    employment status of each employee) are not objects. An employee whose
    uuid cannot be converted to text (an object with a [toString] key)
    makes the Markdown rendering throw, and the tool answers with the
    error result of a [TypeError]. *)
Theorem a_listed_page_is_rendered_when_its_cells_are_texts
  (fetch : HttpRequest -> FetchOutcome)
  (JSON_parse : string -> option Js.value)
  (formatErrorForLogging : error -> Js.value)
  (credentials : TenantCredentials) (args : ListEmployeesArgs.t)
  (log : list HttpRequest) (page : PaginatedResponse.t) :
  snd (listEmployees fetch JSON_parse credentials
         (ListEmployeesArgs.companyId args)
         (Some {| EmployeeListParams.page := ListEmployeesArgs.page args;
                  EmployeeListParams.per := ListEmployeesArgs.per args;
                  EmployeeListParams.terminated :=
                    ListEmployeesArgs.terminated args |}) log)
  = Ok page ->
  (ListEmployeesArgs.format args = json ->
   exists text,
     snd (gusto_list_employees fetch JSON_parse formatErrorForLogging
            credentials args log)
     = Ok {| content := [Some text]; isError := None |})
  /\ (ListEmployeesArgs.format args = markdown ->
      Forall (fun item => texts (employee_cells item))
        (PaginatedResponse.items page) ->
      exists text,
        snd (gusto_list_employees fetch JSON_parse formatErrorForLogging
               credentials args log)
        = Ok {| content := [Some text]; isError := None |})
  /\ (ListEmployeesArgs.format args = markdown ->
      Exists (fun item => Js.to_string (Js.prop "uuid" item) = None)
        (PaginatedResponse.items page) ->
      snd (gusto_list_employees fetch JSON_parse formatErrorForLogging
             credentials args log)
      = Ok (formatError formatErrorForLogging TypeError)).
Proof.
  intro L.
  rewrite (gusto_list_employees_of_page fetch JSON_parse formatErrorForLogging
             credentials args log page L).
  destruct (listEmployees_inv fetch JSON_parse credentials _ _ log page L)
    as (records & _ & M).
  pose proof (mapped_employees_are_objects records _ M) as O.
  split; [| split].
  - intros ->. eexists. reflexivity.
  - intros -> T. unfold formatResponse.
    assert (exists t, formatEmployeesTable (PaginatedResponse.items page)
                      = Ok t) as [t E].
    { apply table_ok_iff. apply Forall_forall. intros item I. split.
      - apply (proj1 (Forall_forall _ _) O item I).
      - apply employee_row_ok. apply (proj1 (Forall_forall _ _) T item I). }
    destruct (proj1 (employees_page_markdown page) t E) as [text ->].
    eexists. reflexivity.
  - intros -> X. unfold formatResponse.
    rewrite (proj2 (employees_page_markdown page)); [reflexivity | |].
    + apply table_throws_on; [apply employee_row_type_error |].
      apply Exists_exists in X as (item & I & U).
      apply Exists_exists. exists item. split; [exact I |]. right.
      intros lines R. apply (employee_row_converts_the_uuid item lines R U).
    + intro E. rewrite E in X. inversion X.
Qed.

(** X14, on a page of two employees rendered as Markdown. *)
Lemma listed_page_witness :
  exists text,
    snd (gusto_list_employees
           (Sample.always (Sample.respond 200 [] Sample.two_employees))
           (Sample.parse_known Sample.known) Sample.details
           Sample.credentials
           {| ListEmployeesArgs.companyId := "c-1";
              ListEmployeesArgs.page := None;
              ListEmployeesArgs.per := None;
              ListEmployeesArgs.terminated := None;
              ListEmployeesArgs.format := markdown |} [])
    = Ok {| content := [Some text]; isError := None |}.
Proof.
  eapply (proj1 (proj2
            (a_listed_page_is_rendered_when_its_cells_are_texts
               (Sample.always (Sample.respond 200 [] Sample.two_employees))
               (Sample.parse_known Sample.known) Sample.details
               Sample.credentials
               {| ListEmployeesArgs.companyId := "c-1";
                  ListEmployeesArgs.page := None;
                  ListEmployeesArgs.per := None;
                  ListEmployeesArgs.terminated := None;
                  ListEmployeesArgs.format := markdown |} [] _ eq_refl))
            eq_refl).
  repeat constructor.
Defined.

(* ====================================================================== *)
(** * The pagination helpers *)
(* ====================================================================== *)

(** X15. [normalizePaginationParams] is idempotent for a fixed cap:
    normalizing what it returned changes nothing. It has no lower bound: a
    negative page size below the cap is returned as it was given. *)
Theorem normalizing_twice_changes_nothing
  (params : option PaginationParams.t) (maxPer : option Z) :
  Pagination.normalizePaginationParams
    (Some {| PaginationParams.page :=
               NormalizedParams.page
                 (Pagination.normalizePaginationParams params maxPer);
             PaginationParams.per :=
               Some (NormalizedParams.per
                       (Pagination.normalizePaginationParams params maxPer)) |})
    maxPer
  = Pagination.normalizePaginationParams params maxPer
  /\ (forall per, Pagination.per_of params = Some per ->
        (per < 0)%Z -> (per <= Pagination.cap maxPer)%Z ->
        NormalizedParams.per
          (Pagination.normalizePaginationParams params maxPer) = per).
Proof.
  unfold Pagination.normalizePaginationParams. simpl. split.
  - f_equal.
    assert (num_or (Pagination.per_of params) Pagination.PAGINATION_DEFAULTS_per
            <> 0%Z) as D.
    { unfold num_or, Pagination.PAGINATION_DEFAULTS_per.
      destruct (Pagination.per_of params) as [z |]; [| discriminate].
      destruct (Z.eqb_spec z 0); [discriminate | assumption]. }
    remember (num_or (Pagination.per_of params)
                Pagination.PAGINATION_DEFAULTS_per) as a.
    unfold num_or, Pagination.PAGINATION_DEFAULTS_per.
    destruct (Z.eqb_spec (Z.min a (Pagination.cap maxPer)) 0); lia.
  - intros per -> N C. unfold num_or.
    destruct (Z.eqb_spec per 0); lia.
Qed.

(** X16. On safe integers and a positive page size, [hasMoreItems] holds
    exactly on the pages before the last one, the last page being the
    number of pages [total] items fill, rounded up; [getNextPage] answers
    the following page exactly then and [undefined] otherwise, so the two
    helpers agree. The product [page * per] is rounded as a double is; a
    product beyond 2^53 still compares with the safe [total] as the exact
    one does. *)
Theorem more_items_exactly_before_the_last_page (page per total : Z) :
  Js.safe_integer page -> Js.safe_integer per -> Js.safe_integer total ->
  (0 < per)%Z ->
  Pagination.hasMoreItems page per total
  = (page <? (total + per - 1) / per)%Z
  /\ Pagination.getNextPage page per total
     = (if Pagination.hasMoreItems page per total
        then Some (page + 1)%Z else None).
Proof.
  intros SP _ ST P. unfold Pagination.hasMoreItems, Pagination.getNextPage.
  rewrite (add_one_safe page SP).
  split; [| reflexivity].
  rewrite (mul_less_than page per total ST).
  pose proof (Z.div_mod (total + per - 1) per ltac:(lia)) as E.
  pose proof (Z.mod_pos_bound (total + per - 1) per P) as B.
  destruct (Z.ltb_spec (page * per) total);
    destruct (Z.ltb_spec page ((total + per - 1) / per));
    try reflexivity; exfalso; nia.
Qed.

(** X16, on the second of three pages. *)
Lemma more_items_witness :
  Pagination.hasMoreItems 2 10 25 = true
  /\ Pagination.getNextPage 2 10 25 = Some 3%Z
  /\ Pagination.getNextPage 3 10 25 = None.
Proof.
  assert (forall n, (Z.abs n < 1000)%Z -> Js.safe_integer n) as S
    by (unfold Js.safe_integer, Js.MAX_SAFE_INTEGER; lia).
  destruct (more_items_exactly_before_the_last_page 2 10 25
              (S 2%Z eq_refl) (S 10%Z eq_refl) (S 25%Z eq_refl) eq_refl)
    as [H N].
  destruct (more_items_exactly_before_the_last_page 3 10 25
              (S 3%Z eq_refl) (S 10%Z eq_refl) (S 25%Z eq_refl) eq_refl)
    as [_ N'].
  split; [exact H |]. split; [exact N | exact N'].
Defined.

Lemma table_renders (header : list string)
  (row : Js.value -> result (list string)) (cells : Js.value -> list Js.value)
  (items : list Js.value) :
  (forall item, texts (cells item) -> exists lines, row item = Ok lines) ->
  Forall (fun item => Js.nullish item = false /\ texts (cells item)) items ->
  exists t, table header row items = Ok t.
Proof.
  intros R A. apply table_ok_iff.
  apply Forall_forall. intros item I.
  destruct (proj1 (Forall_forall _ _) A item I) as [N T].
  split; [exact N | apply R; exact T].
Qed.

Lemma table_throws_on_null (header : list string)
  (row : Js.value -> result (list string)) (items : list Js.value) :
  (forall item, fails_with_type_error (row item)) ->
  Exists (fun item => Js.nullish item = true) items ->
  table header row items = Throw TypeError.
Proof.
  intros R X. apply table_throws_on; [exact R |].
  apply Exists_exists in X as (item & I & N).
  apply Exists_exists. exists item. split; [exact I | left; exact N].
Qed.

(** X17. The typed renderers (the tables of employees, contractors,
    payrolls and companies and the list of pay schedules) render every
    list of items that are not [null] or [undefined] and whose displayed
    fields are not objects; each throws a [TypeError] on a list that holds
    a [null] or [undefined] item, and none throws anything else. *)
Theorem the_typed_renderers_throw_only_type_errors
  (items : list Js.value) :
  (Forall (fun item => Js.nullish item = false
                       /\ texts (employee_cells item)) items ->
   exists t, formatEmployeesTable items = Ok t)
  /\ (Forall (fun item => Js.nullish item = false
                          /\ texts (contractor_cells item)) items ->
      exists t, formatContractorsTable items = Ok t)
  /\ (Forall (fun item => Js.nullish item = false
                          /\ texts (payroll_cells item)) items ->
      exists t, formatPayrollsTable items = Ok t)
  /\ (Forall (fun item => Js.nullish item = false
                          /\ texts (schedule_cells item)) items ->
      exists t, formatPaySchedulesAsMarkdown items = Ok t)
  /\ (Forall (fun item => Js.nullish item = false
                          /\ texts (company_cells item)) items ->
      exists t, formatCompaniesAsMarkdown items = Ok t)
  /\ (Exists (fun item => Js.nullish item = true) items ->
      formatEmployeesTable items = Throw TypeError
      /\ formatContractorsTable items = Throw TypeError
      /\ formatPayrollsTable items = Throw TypeError
      /\ formatPaySchedulesAsMarkdown items = Throw TypeError
      /\ formatCompaniesAsMarkdown items = Throw TypeError)
  /\ (forall e,
        formatEmployeesTable items = Throw e
        \/ formatContractorsTable items = Throw e
        \/ formatPayrollsTable items = Throw e
        \/ formatPaySchedulesAsMarkdown items = Throw e
        \/ formatCompaniesAsMarkdown items = Throw e ->
        e = TypeError).
Proof.
  split; [apply (table_renders _ _ employee_cells), employee_row_ok |].
  split; [apply (table_renders _ _ contractor_cells), contractor_row_ok |].
  split; [apply (table_renders _ _ payroll_cells), payroll_row_ok |].
  split; [apply (table_renders _ _ schedule_cells), schedule_lines_ok |].
  split; [apply (table_renders _ _ company_cells), company_row_ok |].
  split.
  - intro X. repeat split; apply table_throws_on_null; try exact X.
    + apply employee_row_type_error.
    + apply contractor_row_type_error.
    + apply payroll_row_type_error.
    + apply schedule_lines_type_error.
    + apply company_row_type_error.
  - intros e [H | [H | [H | [H | H]]]].
    + apply (table_type_error _ _ _ employee_row_type_error e H).
    + apply (table_type_error _ _ _ contractor_row_type_error e H).
    + apply (table_type_error _ _ _ payroll_row_type_error e H).
    + apply (table_type_error _ _ _ schedule_lines_type_error e H).
    + apply (table_type_error _ _ _ company_row_type_error e H).
Qed.

Lemma flat_map_filter (A B : Type) (f : A -> list B) (keep : A -> bool)
  (xs : list A) :
  (forall x, keep x = false -> f x = []) ->
  flat_map f xs = flat_map f (filter keep xs).
Proof.
  intro F. induction xs as [| x rest IH]; [reflexivity |].
  cbn [flat_map filter]. destruct (keep x) eqn:K.
  - cbn [flat_map]. rewrite IH. reflexivity.
  - rewrite (F x K). exact IH.
Qed.

Lemma flat_map_nothing (A B : Type) (f : A -> list B) (xs : list A) :
  Forall (fun x => f x = []) xs -> flat_map f xs = [].
Proof.
  induction 1 as [| x rest E _ IH]; [reflexivity |].
  cbn [flat_map]. rewrite E, IH. reflexivity.
Qed.

(** X18. A field whose value is [null] or [undefined] leaves no trace in
    the Markdown of an object: the document is the one of the object
    without these fields. An object with no other field renders as its
    heading alone. *)
Theorem null_fields_leave_no_trace_in_the_markdown_of_an_object
  (fields : list (string * Js.value)) (entityType : string) :
  formatObjectAsMarkdown fields entityType
  = formatObjectAsMarkdown
      (filter (fun kv => negb (Js.nullish (snd kv))) fields) entityType
  /\ (Forall (fun kv => Js.nullish (snd kv) = true) fields ->
      formatObjectAsMarkdown fields entityType
      = join_lines ["## " ++ capitalize (drop_final_s entityType);
                    EmptyString]).
Proof.
  unfold formatObjectAsMarkdown. split.
  - f_equal. f_equal. apply flat_map_filter.
    intros [k v] K. cbn [snd] in *. destruct (Js.nullish v);
      [reflexivity | discriminate K].
  - intro A. f_equal. rewrite flat_map_nothing; [reflexivity |].
    eapply Forall_impl; [| exact A].
    intros [k v] N. cbn [snd] in *. rewrite N. reflexivity.
Qed.

(* ====================================================================== *)
(** * Tool calls *)
(* ====================================================================== *)

Section DeletionFacts.

Variable fetch : HttpRequest -> FetchOutcome.
Variable JSON_parse : string -> option Js.value.
Variable formatErrorForLogging : error -> Js.value.
Variable credentials : TenantCredentials.
Variable token : string.

Hypothesis has_token : accessToken credentials = Some token.
Hypothesis token_not_empty : token <> EmptyString.

Lemma deleteContractor_result (contractorId : string)
  (log : list HttpRequest) (response : HttpResponse) :
  fetch (outbound (auth_headers token) ("/contractors/" ++ contractorId)
           {| initMethod := Some "DELETE"; initBody := None |})
  = Responded response ->
  snd (deleteContractor fetch JSON_parse credentials contractorId log)
  = match interpret JSON_parse response with
    | Ok _ => Ok tt
    | Throw e => Throw e
    end.
Proof.
  intro F. unfold deleteContractor, bind.
  rewrite (request_responded fetch JSON_parse credentials token _ _ log response
             has_token token_not_empty F).
  destruct (interpret JSON_parse response); reflexivity.
Qed.

Lemma gusto_delete_contractor_result (contractorId : string)
  (log : list HttpRequest) (response : HttpResponse) :
  fetch (outbound (auth_headers token) ("/contractors/" ++ contractorId)
           {| initMethod := Some "DELETE"; initBody := None |})
  = Responded response ->
  snd (gusto_delete_contractor fetch JSON_parse formatErrorForLogging
         credentials contractorId log)
  = match interpret JSON_parse response with
    | Ok _ =>
        Ok (text_response
              (Js.Obj [("success", Js.Bool true);
                       ("message", Js.Str "Contractor deleted")]))
    | Throw e => Ok (formatError formatErrorForLogging e)
    end.
Proof.
  intro F. unfold gusto_delete_contractor, handler, try_catch.
  pose proof (deleteContractor_result contractorId log response F) as D.
  unfold bind at 1.
  destruct (deleteContractor fetch JSON_parse credentials contractorId log)
    as [log' r]. simpl in D. subst r.
  destruct (interpret JSON_parse response); reflexivity.
Qed.

End DeletionFacts.

(** X20. Deleting a contractor sends one [DELETE] without a body and
    reports success exactly when [request] returns: on a 204, and on any
    other success status whose body parses. A success status whose body
    does not parse, as an empty 200 does not, is reported as an error
    although the upstream accepted the deletion; so is every failure
    status. *)
Theorem a_deletion_succeeds_on_204_or_a_parsed_body
  (fetch : HttpRequest -> FetchOutcome)
  (JSON_parse : string -> option Js.value)
  (formatErrorForLogging : error -> Js.value)
  (credentials : TenantCredentials) (token contractorId : string)
  (log : list HttpRequest) (response : HttpResponse) :
  accessToken credentials = Some token -> token <> EmptyString ->
  fetch (outbound (auth_headers token) ("/contractors/" ++ contractorId)
           {| initMethod := Some "DELETE"; initBody := None |})
  = Responded response ->
  fst (gusto_delete_contractor fetch JSON_parse formatErrorForLogging
         credentials contractorId log)
  = log +++ [{| url := API_BASE_URL ++ "/contractors/" ++ contractorId;
                method := Some "DELETE";
                requestHeaders := auth_headers token;
                body := None |}]
  /\ (status response = 204%Z
      \/ (ok response = true /\ exists v, JSON_parse (text response) = Some v)
      <-> snd (gusto_delete_contractor fetch JSON_parse formatErrorForLogging
                 credentials contractorId log)
          = Ok (text_response
                  (Js.Obj [("success", Js.Bool true);
                           ("message", Js.Str "Contractor deleted")])))
  /\ (ok response = true -> status response <> 204%Z ->
      JSON_parse (text response) = None ->
      snd (gusto_delete_contractor fetch JSON_parse formatErrorForLogging
             credentials contractorId log)
      = Ok (formatError formatErrorForLogging SyntaxError))
  /\ (ok response = false ->
      exists e,
        snd (gusto_delete_contractor fetch JSON_parse formatErrorForLogging
               credentials contractorId log)
        = Ok (formatError formatErrorForLogging e)).
Proof.
  intros H N F.
  rewrite (gusto_delete_contractor_result fetch JSON_parse
             formatErrorForLogging credentials token H N contractorId log
             response F).
  split; [| split; [| split]].
  - unfold gusto_delete_contractor. rewrite handler_log.
    unfold bind at 1. unfold deleteContractor. unfold bind at 1.
    pose proof (request_calls fetch JSON_parse credentials token
                  ("/contractors/" ++ contractorId)
                  {| initMethod := Some "DELETE"; initBody := None |} log H N)
      as C.
    destruct (request fetch JSON_parse credentials _ _ log) as [log' [v | e]];
      simpl in C; subst log'; reflexivity.
  - split.
    + intros [S | [K [v P]]].
      * rewrite (interpret_204 JSON_parse response S). reflexivity.
      * destruct (Z.eq_dec (status response) 204) as [S | S].
        -- rewrite (interpret_204 JSON_parse response S). reflexivity.
        -- rewrite (interpret_success JSON_parse response v K S P).
           reflexivity.
    + destruct (interpret JSON_parse response) as [v | e] eqn:I.
      * intros _.
        destruct (interpret_ok_inv JSON_parse response v I) as (K & [[S _] | [S P]]).
        -- left. exact S.
        -- right. split; [exact K |]. exists v. exact P.
      * intro X. exfalso.
        apply (f_equal (fun r => match r with
                                 | Ok x => isError x
                                 | Throw _ => None
                                 end)) in X.
        discriminate X.
  - intros K S P. unfold interpret.
    assert ((status response =? 429)%Z = false) as ->
      by (apply Z.eqb_neq; intro E; unfold ok in K; rewrite E in K;
          discriminate K).
    assert ((status response =? 401)%Z = false) as ->
      by (apply Z.eqb_neq; intro E; unfold ok in K; rewrite E in K;
          discriminate K).
    assert ((status response =? 403)%Z = false) as ->
      by (apply Z.eqb_neq; intro E; unfold ok in K; rewrite E in K;
          discriminate K).
    rewrite K. simpl.
    assert ((status response =? 204)%Z = false) as ->
      by (apply Z.eqb_neq; exact S).
    rewrite P. reflexivity.
  - intro K.
    destruct (interpret JSON_parse response) as [v | e] eqn:I.
    + destruct (interpret_ok_inv JSON_parse response v I) as (K' & _).
      rewrite K in K'. discriminate K'.
    + exists e. reflexivity.
Qed.

(** X20, on a 200 with an empty body, which is no JSON document. *)
Lemma deletion_witness :
  snd (gusto_delete_contractor
         (Sample.always
            {| status := 200; responseHeaders := []; text := EmptyString |})
         (Sample.parse_known []) Sample.details Sample.credentials "k-1" [])
  = Ok (formatError Sample.details SyntaxError).
Proof.
  apply (proj1 (proj2 (proj2
           (a_deletion_succeeds_on_204_or_a_parsed_body
              (Sample.always
                 {| status := 200; responseHeaders := [];
                    text := EmptyString |})
              (Sample.parse_known []) Sample.details Sample.credentials
              "token-1" "k-1" []
              {| status := 200; responseHeaders := []; text := EmptyString |}
              eq_refl ltac:(discriminate) eq_refl))));
    [reflexivity | discriminate | reflexivity].
Defined.

(* ====================================================================== *)
(** * The Worker and the tool registry *)
(* ====================================================================== *)

(** X21. Only [POST /mcp] reaches the MCP handler. Every other request
    is answered by the Worker itself, whatever the handler is and whatever
    credentials the request carries, without an upstream call: [/health]
    and any unknown path, [/mcp] with another method included, with a 200
    and a JSON body, [/sse] with a 501. *)
Theorem only_post_mcp_reaches_the_mcp_handler
  (missing_credentials_message : string)
  (mcp : TenantCredentials -> Worker.Request -> Io Worker.Response)
  (inbound : Worker.Request) (log : list HttpRequest) :
  Worker.pathname inbound <> "/mcp" \/ Worker.method inbound <> "POST" ->
  (forall mcp',
     Worker.fetch missing_credentials_message mcp inbound log
     = Worker.fetch missing_credentials_message mcp' inbound log)
  /\ fst (Worker.fetch missing_credentials_message mcp inbound log) = log
  /\ exists response,
       snd (Worker.fetch missing_credentials_message mcp inbound log)
       = Ok response
       /\ (Worker.pathname inbound = "/sse" ->
           Worker.status response = 501%Z)
       /\ (Worker.pathname inbound <> "/sse" ->
           Worker.status response = 200%Z
           /\ Worker.headers_out response = Worker.json_headers
           /\ exists text, Worker.body response = Some text).
Proof.
  intro R. unfold Worker.fetch.
  destruct (Worker.pathname inbound =? "/health") eqn:Hh.
  - apply String.eqb_eq in Hh.
    split; [reflexivity |]. split; [reflexivity |].
    eexists. split; [reflexivity |]. split.
    + intro S. rewrite S in Hh. discriminate Hh.
    + intros _. cbn [Worker.status Worker.headers_out Worker.body].
      split; [reflexivity |]. split; [reflexivity |].
      eexists. reflexivity.
  - assert ((Worker.pathname inbound =? "/mcp")
            && (Worker.method inbound =? "POST") = false) as ->.
    { apply andb_false_iff. destruct R as [P | M]; [left | right];
        apply String.eqb_neq; assumption. }
    destruct (Worker.pathname inbound =? "/sse") eqn:S.
    + apply String.eqb_eq in S.
      split; [reflexivity |]. split; [reflexivity |].
      eexists. split; [reflexivity |]. split; [reflexivity |].
      intro N. contradiction.
    + apply String.eqb_neq in S.
      split; [reflexivity |]. split; [reflexivity |].
      eexists. split; [reflexivity |]. split; [intro E; contradiction |].
      intros _. cbn [Worker.status Worker.headers_out Worker.body].
      split; [reflexivity |]. split; [reflexivity |].
      unfold Js.stringify. cbn [Worker.server_info Js.stringify_at].
      eexists. reflexivity.
Qed.

(** X21, on [GET /mcp]. *)
Lemma get_mcp_witness :
  exists response,
    snd (Worker.fetch "missing" (fun _ _ => throw TypeError)
           {| Worker.pathname := "/mcp"; Worker.method := "GET";
              Worker.headers := [] |} [])
    = Ok response
    /\ Worker.status response = 200%Z.
Proof.
  assert (Worker.pathname {| Worker.pathname := "/mcp";
                             Worker.method := "GET";
                             Worker.headers := [] |} <> "/mcp"
          \/ Worker.method {| Worker.pathname := "/mcp";
                              Worker.method := "GET";
                              Worker.headers := [] |} <> "POST") as H
    by (right; intro E; discriminate E).
  destruct (only_post_mcp_reaches_the_mcp_handler
              "missing" (fun _ _ => throw TypeError)
              {| Worker.pathname := "/mcp"; Worker.method := "GET";
                 Worker.headers := [] |} [] H)
    as (_ & _ & response & R & _ & other).
  exists response. split; [exact R |].
  apply other. discriminate.
Defined.

(** X22. The tools the Worker advertises on its information page are
    the tools [registerGustoTools] registers, in the order of
    registration, and no name is registered twice. *)
Theorem the_advertised_tools_are_the_registered_tools :
  Worker.advertised_tools = Js.Arr (map Js.Str Registry.registerGustoTools)
  /\ NoDup Registry.registerGustoTools
  /\ List.length Registry.registerGustoTools = 67%nat.
Proof.
  split; [reflexivity |]. split; [| reflexivity].
  assert (nodup string_dec Registry.registerGustoTools
          = Registry.registerGustoTools) as <- by (vm_compute; reflexivity).
  apply NoDup_nodup.
Qed.
